(** * stk / MMEA: molecule geometry, identity cache, structural units and
      the mutation engine

    A shallow embedding of the parts of the repository that the
    specification talks about, followed by the facts proved of them.

    The program:
    - [Python]: exceptions, results and sequence indexing as Python has them;
    - [Numpy]: the float64 array operations the molecule code calls;
    - [Mol]: [Molecule] of [stk/molecular/molecules/molecule.py], its
      position store and its geometry queries;
    - [MolFile]: [Molecule.update_from_file] and the readers behind it;
    - [IdentityCache]: the two caching metaclasses, [_Cached] of
      [molecule.py] and [Cached] of [classes/molecular.py];
    - [Units]: [FGInfo] and [StructUnit] of [classes/molecular.py];
    - [GA]: [Mutation] of [classes/ga/mutation.py], with [Cage.same_cage] and
      [Cage.__eq__] of [classes/molecular.py].

    The facts: [PythonFacts], [NumpyFacts], [MolFacts], [MolFileFacts],
    [IdentityCacheFacts], [UnitsFacts], [GAFacts].

    Coordinates are IEEE 754 binary64 numbers, as the entries of numpy's
    float64 arrays are.  A method that mutates [self] and returns it is a
    function to the new value of [self]; a call that can raise returns a
    [result]. *)

From Stdlib Require Import ZArith Floats.PrimFloat Numbers.Cyclic.Int63.Uint63.
From stdpp Require Import base option list gmap strings pretty.

(** Decimal float literals denote the nearest binary64 number, as they do
    in Python. *)
#[global] Set Warnings "-inexact-float".

(* ===================================================================== *)
(** * Python: exceptions, results, indexing                               *)
(* ===================================================================== *)

Module Python.

(** The exception classes that the modelled code raises or lets through. *)
Inductive exception : Type :=
| IndexError
| ValueError
| KeyError
| AttributeError
| TypeError
| RuntimeError
| StopIteration
| UnboundLocalError
| NotImplementedError
| OSError.

#[global] Instance exception_eq_dec : EqDecision exception.
Proof. solve_decision. Defined.

(** A computation either returns a value or raises. *)
Inductive result (A : Type) : Type :=
| Ok (a : A)
| Raise (e : exception).

Arguments Ok {A} a.
Arguments Raise {A} e.

Definition bind {A B : Type} (r : result A) (k : A -> result B) : result B :=
  match r with
  | Ok a => k a
  | Raise e => Raise e
  end.

Notation "'let*' x ':=' e 'in' k" := (bind e (fun x => k))
  (at level 10, x pattern, e at level 100, k at level 200).

Definition raises {A : Type} (r : result A) : Prop :=
  exists e, r = Raise e.

(** [for x in xs: f(x)], collecting the values; stops at the first raise. *)
Fixpoint for_each {A B : Type} (f : A -> result B) (xs : list A) : result (list B) :=
  match xs with
  | [] => Ok []
  | x :: xs' =>
      let* y := f x in
      let* ys := for_each f xs' in
      Ok (y :: ys)
  end.

(** [seq[i]] resolves a possibly negative index against the length. *)
Definition py_index (len : nat) (i : Z) : result nat :=
  if (0 <=? i)%Z then
    if (i <? Z.of_nat len)%Z then Ok (Z.to_nat i) else Raise IndexError
  else
    if (- Z.of_nat len <=? i)%Z then Ok (Z.to_nat (Z.of_nat len + i)) else Raise IndexError.

Definition getitem {A : Type} (l : list A) (i : Z) : result A :=
  let* k := py_index (length l) i in
  match l !! k with
  | Some x => Ok x
  | None => Raise IndexError
  end.

(** [l[i] = x] *)
Definition setitem {A : Type} (l : list A) (i : Z) (x : A) : result (list A) :=
  let* k := py_index (length l) i in
  Ok (<[k:=x]> l).

(** [range(n)] *)
Definition range (n : nat) : list Z := map Z.of_nat (seq 0 n).

End Python.

(* ===================================================================== *)
(** * Numpy: float64 vectors and matrices                                 *)
(* ===================================================================== *)

Module Numpy.
Import Python.

(** A 1-d array, and a 2-d array as the list of its rows. *)
Definition vector : Type := list float.
Definition matrix : Type := list (list float).

Definition float_of_nat (n : nat) : float :=
  PrimFloat.of_uint63 (Uint63.of_Z (Z.of_nat n)).

(** [np.isfinite] *)
Definition isfinite (x : float) : bool :=
  negb (PrimFloat.is_nan x || PrimFloat.is_infinity x).

(** [-v] *)
Definition neg (v : vector) : vector := map PrimFloat.opp v.

(** [row[ids]] and [m[:, ids]]: integer-array indexing of the columns. *)
Definition take_ids (row : list float) (ids : list Z) : result (list float) :=
  for_each (getitem row) ids.

Definition take_columns (m : matrix) (ids : list Z) : result matrix :=
  for_each (fun row => take_ids row ids) m.

(** [m.T] for a matrix with [ncols] columns: the list of its columns. *)
Fixpoint columns (ncols : nat) (m : matrix) : matrix :=
  match ncols with
  | O => []
  | S k => map (hd 0%float) m :: columns k (map (@tl float) m)
  end.

Definition ncols (m : matrix) : nat :=
  match m with
  | [] => 0
  | row :: _ => length row
  end.

Definition rectangular (m : matrix) : bool :=
  forallb (fun row => Nat.eqb (length row) (ncols m)) m.

(** [np.array(rows).T]; ragged rows do not make a 2-d array. *)
Definition transpose (m : matrix) : result matrix :=
  if rectangular m then Ok (columns (ncols m) m) else Raise ValueError.

(** [row.sum()], accumulated left to right. *)
Definition np_sum (row : list float) : float :=
  fold_left PrimFloat.add row 0%float.

(** [np.minimum] and [np.maximum] propagate NaN. *)
Definition fmin (a b : float) : float :=
  if PrimFloat.is_nan a then a
  else if PrimFloat.is_nan b then b
  else if PrimFloat.ltb b a then b else a.

Definition fmax (a b : float) : float :=
  if PrimFloat.is_nan a then a
  else if PrimFloat.is_nan b then b
  else if PrimFloat.ltb a b then b else a.

(** [row.min()] and [row.max()]: a zero-size reduction raises. *)
Definition np_min (row : list float) : result float :=
  match row with
  | [] => Raise ValueError
  | x :: rest => Ok (fold_left fmin rest x)
  end.

Definition np_max (row : list float) : result float :=
  match row with
  | [] => Raise ValueError
  | x :: rest => Ok (fold_left fmax rest x)
  end.

(** [np.dot(u, v)] of two 1-d arrays. *)
Definition dot (u v : vector) : result float :=
  if Nat.eqb (length u) (length v)
  then Ok (fold_left (fun acc xy => (acc + fst xy * snd xy)%float) (zip u v) 0%float)
  else Raise ValueError.

(** [np.dot(m, v)]: one dot product per row. *)
Definition matvec (m : matrix) (v : vector) : result vector :=
  for_each (fun row => dot row v) m.

(** [a @ b] *)
Definition matmul (a b : matrix) : result matrix :=
  for_each (fun arow => for_each (fun bcol => dot arow bcol) (columns (ncols b) b)) a.

(** [conf + d[:, np.newaxis]] for a conformer of [len(d)] rows: [d[r]] is
    added along row [r].  Operands of other shapes raise. *)
Definition add_to_rows (conf : matrix) (d : vector) : result matrix :=
  if Nat.eqb (length conf) (length d)
  then Ok (zip_with (fun row dr => map (fun x => (x + dr)%float) row) conf d)
  else Raise ValueError.

(** [scipy.spatial.distance.euclidean(u, v)]: the 2-norm of [u - v]. *)
Definition euclidean (u v : vector) : float :=
  let d := zip_with PrimFloat.sub u v in
  PrimFloat.sqrt (fold_left (fun acc x => (acc + x * x)%float) d 0%float).

(** [np.allclose(a, b, rtol)] with the default [atol = 1e-08]. *)
Definition atol : float := 1e-8%float.

Definition allclose (a b : vector) (rtol : float) : bool :=
  forallb (fun xy => PrimFloat.leb (PrimFloat.abs (fst xy - snd xy))
                                   (atol + rtol * PrimFloat.abs (snd xy))%float)
          (zip a b).

End Numpy.

(* ===================================================================== *)
(** * Mol: the molecule of stk/molecular/molecules/molecule.py            *)
(* ===================================================================== *)

Module Mol.
Import Python Numpy.

(** An atom is an instance of its element's class: [symbol] is
    [atom.__class__.__name__]. *)
Record Atom : Type := {
  symbol : string;
  mass : float;
  charge : Z
}.

Record Bond : Type := {
  atom1 : nat;
  atom2 : nat;
  order : nat
}.

(** [_conformers] holds one position matrix of shape [(3, n_atoms)] per
    conformer. *)
Record Molecule : Type := {
  atoms : list Atom;
  bonds : list Bond;
  _conformers : list matrix
}.

Definition set_conformers (self : Molecule) (confs : list matrix) : Molecule :=
  {| atoms := atoms self; bonds := bonds self; _conformers := confs |}.

(** The functions imported from [...utilities], which is not among the
    sources: they are taken as parameters. *)
Record utilities : Type := {
  rotation_matrix : vector -> vector -> matrix;
  vector_theta : vector -> vector -> float;
  rotation_matrix_arbitrary_axis : float -> vector -> matrix
}.

(** [if atom_ids is None: atom_ids = range(len(self.atoms))]; an iterable
    that is no list or tuple is turned into a list. *)
Definition resolve_atom_ids (self : Molecule) (atom_ids : option (list Z)) : list Z :=
  match atom_ids with
  | None => range (length (atoms self))
  | Some ids => ids
  end.

Definition apply_displacement (self : Molecule) (displacement : vector)
    (conformer_id : Z) : result Molecule :=
  let* conf := getitem (_conformers self) conformer_id in
  let* moved := add_to_rows conf displacement in
  let* confs := setitem (_conformers self) conformer_id moved in
  Ok (set_conformers self confs).

Definition apply_rotation_about_axis (u : utilities) (self : Molecule)
    (theta : float) (axis origin : vector) (conformer_id : Z) : result Molecule :=
  let* self := apply_displacement self (neg origin) conformer_id in
  let rot_mat := rotation_matrix_arbitrary_axis u theta axis in
  let* conf := getitem (_conformers self) conformer_id in
  let* rotated := matmul rot_mat conf in
  let* confs := setitem (_conformers self) conformer_id rotated in
  apply_displacement (set_conformers self confs) origin conformer_id.

Definition z_axis : vector := [0; 0; 1]%float.
Definition zero3 : vector := [0; 0; 0]%float.

(** [np.array([t[0], t[1], 0])] *)
Definition xy_part (t : vector) : result vector :=
  let* t0 := getitem t 0 in
  let* t1 := getitem t 1 in
  Ok [t0; t1; 0%float].

Definition apply_rotation_to_minimize_theta (u : utilities) (self : Molecule)
    (start target axis origin : vector) (conformer_id : Z) : result Molecule :=
  if negb (forallb isfinite start) then Ok self
  else
    let* self := apply_displacement self (neg origin) conformer_id in
    let rotmat := rotation_matrix u axis z_axis in
    let* tstart := matvec rotmat start in
    let* tstart := xy_part tstart in
    if allclose tstart zero3 1e-8%float then
      apply_displacement self origin conformer_id
    else
      let* tend := matvec rotmat target in
      let* tend := xy_part tend in
      let angle := vector_theta u tstart tend in
      let r1 := rotation_matrix_arbitrary_axis u angle z_axis in
      let* s1 := matvec r1 tstart in
      let t1 := vector_theta u s1 tend in
      let r2 := rotation_matrix_arbitrary_axis u (- angle)%float z_axis in
      let* s2 := matvec r2 tstart in
      let t2 := vector_theta u s2 tend in
      let angle := if PrimFloat.ltb t2 t1 then (angle * -1)%float else angle in
      let rot_mat := rotation_matrix_arbitrary_axis u angle axis in
      let* conf := getitem (_conformers self) conformer_id in
      let* rotated := matmul rot_mat conf in
      let* confs := setitem (_conformers self) conformer_id rotated in
      apply_displacement (set_conformers self confs) origin conformer_id.

(** The generator [get_atom_coords], run to its end: the rows of
    [self._conformers[conformer_id][:, atom_ids].T]. *)
Definition get_atom_coords (self : Molecule) (atom_ids : option (list Z))
    (conformer_id : Z) : result (list vector) :=
  let atom_ids := resolve_atom_ids self atom_ids in
  let* conf := getitem (_conformers self) conformer_id in
  let* sel := take_columns conf atom_ids in
  Ok (columns (length atom_ids) sel).

(** A value that is a 0-d scalar or a 1-d array: [center] in
    [get_center_of_mass] starts as the scalar [0]. *)
Inductive ndvalue : Type :=
| Scalar (x : float)
| Array (v : vector).

(** [center += mass*coord] *)
Definition add_scaled (center : ndvalue) (m : float) (coord : vector) : ndvalue :=
  match center with
  | Scalar c => Array (map (fun x => (c + m * x)%float) coord)
  | Array v => Array (zip_with (fun c x => (c + m * x)%float) v coord)
  end.

(** [np.divide(center, total_mass)]: float64 division, no exception on a
    zero divisor. *)
Definition np_divide (center : ndvalue) (d : float) : ndvalue :=
  match center with
  | Scalar c => Scalar (c / d)%float
  | Array v => Array (map (fun x => (x / d)%float) v)
  end.

(** The loop [for atom_id, coord in zip(atom_ids, coords)]. *)
Fixpoint center_of_mass_loop (self : Molecule) (pairs : list (Z * vector))
    (center : ndvalue) (total_mass : float) : result (ndvalue * float) :=
  match pairs with
  | [] => Ok (center, total_mass)
  | (atom_id, coord) :: rest =>
      let* atom := getitem (atoms self) atom_id in
      let m := mass atom in
      center_of_mass_loop self rest (add_scaled center m coord) (total_mass + m)%float
  end.

(** [zip] asks [atom_ids] first: with no atom id the generator of the
    coordinates is never started. *)
Definition get_center_of_mass (self : Molecule) (atom_ids : option (list Z))
    (conformer_id : Z) : result ndvalue :=
  let atom_ids := resolve_atom_ids self atom_ids in
  let* coords :=
    match atom_ids with
    | [] => Ok []
    | _ => get_atom_coords self (Some atom_ids) conformer_id
    end in
  let* ct := center_of_mass_loop self (zip atom_ids coords) (Scalar 0%float) 0%float in
  Ok (np_divide (fst ct) (snd ct)).

Definition get_centroid (self : Molecule) (atom_ids : option (list Z))
    (conformer_id : Z) : result vector :=
  let atom_ids := resolve_atom_ids self atom_ids in
  let* conf := getitem (_conformers self) conformer_id in
  let* sel := take_columns conf atom_ids in
  let s := map np_sum sel in
  Ok (map (fun x => (x / float_of_nat (length atom_ids))%float) s).

Definition get_maximum_diameter (self : Molecule) (atom_ids : option (list Z))
    (conformer_id : Z) : result float :=
  let atom_ids := resolve_atom_ids self atom_ids in
  let* conf := getitem (_conformers self) conformer_id in
  let* coords := take_columns conf atom_ids in
  let* lo := for_each np_min coords in
  let* hi := for_each np_max coords in
  Ok (euclidean lo hi).

Definition get_position_matrix (self : Molecule) (conformer_id : Z) : result matrix :=
  let* conf := getitem (_conformers self) conformer_id in
  transpose conf.

(** [conformer_id] is [None] to add a conformer. *)
Definition set_position_matrix (self : Molecule) (position_matrix : matrix)
    (conformer_id : option Z) : result Molecule :=
  let* conf := transpose position_matrix in
  match conformer_id with
  | None => Ok (set_conformers self (_conformers self ++ [conf]))
  | Some i =>
      let* confs := setitem (_conformers self) i conf in
      Ok (set_conformers self confs)
  end.

Definition set_centroid (self : Molecule) (position : vector)
    (atom_ids : option (list Z)) (conformer_id : Z) : result Molecule :=
  let* centroid := get_centroid self atom_ids conformer_id in
  apply_displacement self (zip_with PrimFloat.sub position centroid) conformer_id.

(** What [apply_displacement(-origin)] followed by [apply_displacement(origin)]
    leaves in a conformer: every coordinate [x] of row [r] becomes
    [(x + -origin[r]) + origin[r]]. *)
Definition restored (conf : matrix) (origin : vector) : matrix :=
  zip_with (fun row o => map (fun x => (x + - o + o)%float) row) conf origin.

(** ** The points a geometry query talks about *)


(** The arithmetic mean of some points of dimension [dim]: their sum
    divided by their number. *)
Definition arithmetic_mean (dim : nat) (points : list vector) : vector :=
  let s := fold_left (zip_with PrimFloat.add) points (replicate dim 0%float) in
  map (fun x => (x / float_of_nat (length points))%float) s.

(** Four atoms on the corners of a square in the xy plane, as the vertices
    [(-50, 50, 0)], [(-50, -50, 0)], [(50, 50, 0)], [(50, -50, 0)] of
    [molecular/topologies/cage/three_plus_four.py]. *)
Definition carbon : Atom := {| symbol := "C"; mass := 12.011%float; charge := 0 |}.

Definition square : Molecule := {|
  atoms := [carbon; carbon; carbon; carbon];
  bonds := [];
  _conformers := [[[-50; -50; 50; 50]; [50; -50; 50; -50]; [0; 0; 0; 0]]%float]
|}.

Definition identity3 : matrix := [[1; 0; 0]; [0; 1; 0]; [0; 0; 1]]%float.

(** Modelled from the spec: the geometry kernel of [...utilities], which is
    not among the sources, where the examples below call it, on a vector and
    itself: the minimal rotation that maps a vector onto itself (section 4.1)
    is the identity.  The examples reach neither another pair of vectors nor
    the two angle functions. *)
Definition identity_kernel : utilities := {|
  rotation_matrix := fun _ _ => identity3;
  vector_theta := fun _ _ => 0%float;
  rotation_matrix_arbitrary_axis := fun _ _ => identity3
|}.

(** One atom at [(2^-70, 0, 0)]. *)
Definition speck : Molecule := {|
  atoms := [carbon];
  bonds := [];
  _conformers := [[[0x1p-70]; [0]; [0]]%float]
|}.

End Mol.

(* ===================================================================== *)
(** * MolFile: [Molecule.update_from_file] and the readers behind it       *)
(* ===================================================================== *)

Module MolFile.
Import Python Numpy Mol.
Import Stdlib.Strings.Ascii.

(** [os.path.splitext] on a POSIX path: the extension starts at the last
    dot of the last component, leading dots of that component apart. *)
Fixpoint rfind (c : ascii) (s : list ascii) (i : nat) (found : option nat) : option nat :=
  match s with
  | [] => found
  | x :: rest => rfind c rest (S i) (if Ascii.eqb x c then Some i else found)
  end.

Definition os_path_splitext (p : string) : string * string :=
  let cs := String.list_ascii_of_string p in
  let name_start := match rfind "/"%char cs 0 None with Some i => S i | None => 0 end in
  match rfind "."%char cs 0 None with
  | Some dot =>
      let name_before_dot := take (dot - name_start) (drop name_start cs) in
      if existsb (fun c => negb (Ascii.eqb c "."%char)) name_before_dot
      then (String.string_of_list_ascii (take dot cs),
            String.string_of_list_ascii (drop dot cs))
      else (p, ""%string)
  | None => (p, ""%string)
  end.

(** What the readers get from outside the repository: the file system, the
    parsing built-ins of Python, [periodic_table] of [...utilities], and the
    positions [mol.GetConformer().GetPositions()] (shape [(n, 3)]) of the
    rdkit molecule read from a [.mol], [.sdf] or [.mae] file. *)
Record externals : Type := {
  readlines : string -> result (list string);
  py_int : string -> result Z;
  py_float : string -> result float;
  py_split : string -> list string;
  py_isnumeric : string -> bool;
  periodic_table : Z -> result string;
  mol_file_positions : string -> result matrix;
  mae_file_positions : string -> result matrix
}.




(** [if element.isnumeric(): element = periodic_table[int(element)]] *)
Definition element_name (w : externals) (element : string) : result string :=
  if py_isnumeric w element
  then let* z := py_int w element in periodic_table w z
  else Ok element.

(** The two text formats: an [.xyz] line is [element, *coords], a
    Turbomole [.coord] line is [*coords, element] with coordinates in Bohr. *)
Inductive text_format : Type := Xyz | Turbomole.

Definition bohr_to_ang : float := 0.5291772105638411%float.

Definition unpack_line (fmt : text_format) (tokens : list string)
    : result (string * list string) :=
  match fmt with
  | Xyz =>
      match tokens with
      | [] => Raise ValueError
      | element :: coords => Ok (element, coords)
      end
  | Turbomole =>
      match last tokens with
      | None => Raise ValueError
      | Some element => Ok (element, removelast tokens)
      end
  end.

Definition read_coord (w : externals) (fmt : text_format) (s : string) : result float :=
  let* x := py_float w s in
  match fmt with
  | Xyz => Ok x
  | Turbomole => Ok (x * bohr_to_ang)%float
  end.

(** [for i, line in enumerate(content)]: the element of line [i] is
    compared with [self.atoms[i]], then the coordinates are read. *)
Fixpoint read_atom_lines (w : externals) (fmt : text_format) (self : Molecule)
    (content : list string) (i : nat) : result (list (list float)) :=
  match content with
  | [] => Ok []
  | line :: rest =>
      let* ec := unpack_line fmt (py_split w line) in
      let* element := element_name w (fst ec) in
      let* atom := getitem (atoms self) (Z.of_nat i) in
      if negb (String.eqb element (symbol atom)) then Raise RuntimeError
      else
        let* xyz := for_each (read_coord w fmt) (snd ec) in
        let* more := read_atom_lines w fmt self rest (S i) in
        Ok (xyz :: more)
  end.

(** After the loop, [i] is unbound when there was no line. *)
Definition check_line_count (self : Molecule) (content : list string) : result unit :=
  match content with
  | [] => Raise UnboundLocalError
  | _ =>
      if negb (Nat.eqb (length content) (length (atoms self)))
      then Raise RuntimeError else Ok tt
  end.

Definition _update_from_xyz (w : externals) (self : Molecule) (path : string)
    (conformer_id : option Z) : result Molecule :=
  let* lines := readlines w path in
  match lines with
  | atom_count :: _ :: content =>
      let* n := py_int w atom_count in
      if negb (Z.eqb n (Z.of_nat (length (atoms self)))) then Raise RuntimeError
      else
        let* new_coords := read_atom_lines w Xyz self content 0 in
        let* _ := check_line_count self content in
        set_position_matrix self new_coords conformer_id
  | _ => Raise ValueError
  end.

(** [_, *content, __ = f.readlines()] *)
Definition _update_from_turbomole (w : externals) (self : Molecule) (path : string)
    (conformer_id : option Z) : result Molecule :=
  let* lines := readlines w path in
  match lines with
  | _ :: (_ :: _) as rest =>
      let content := removelast rest in
      if negb (Nat.eqb (length content) (length (atoms self))) then Raise RuntimeError
      else
        let* new_coords := read_atom_lines w Turbomole self content 0 in
        let* _ := check_line_count self content in
        set_position_matrix self new_coords conformer_id
  | _ => Raise ValueError
  end.


(** ** When a text file agrees with the molecule *)

(** The file's atom count is the molecule's, there is one atom line per
    atom, and the element of every line is the element of its atom. *)
Definition line_agrees (w : externals) (fmt : text_format) (line : string)
    (atom : Atom) : Prop :=
  exists element coords,
    unpack_line fmt (py_split w line) = Ok (element, coords)
    /\ element_name w element = Ok (symbol atom).



(** ** Example files *)

Definition is_space (c : ascii) : bool :=
  existsb (Ascii.eqb c) [" "; "009"; "010"; "011"; "012"; "013"]%char.

(** [str.split()] on ASCII text. *)
Fixpoint split_words (cs : list ascii) (word : list ascii) : list string :=
  match cs with
  | [] => match word with [] => [] | _ => [String.string_of_list_ascii (rev word)] end
  | c :: rest =>
      if is_space c
      then match word with
           | [] => split_words rest []
           | _ => String.string_of_list_ascii (rev word) :: split_words rest []
           end
      else split_words rest (c :: word)
  end.

Definition digit_of (c : ascii) : option Z :=
  let n := Z.of_nat (nat_of_ascii c) in
  if ((48 <=? n) && (n <=? 57))%Z then Some (n - 48)%Z else None.

(** [int(s)] for an unsigned decimal numeral between white space. *)
Definition decimal_int (s : string) : result Z :=
  match split_words (String.list_ascii_of_string s) [] with
  | [word] =>
      match mapM digit_of (String.list_ascii_of_string word) with
      | Some (d :: ds) => Ok (fold_left (fun acc x => (10 * acc + x)%Z) (d :: ds) 0%Z)
      | _ => Raise ValueError
      end
  | _ => Raise ValueError
  end.

Definition decimal_isnumeric (s : string) : bool :=
  match String.list_ascii_of_string s with
  | [] => false
  | cs => forallb (fun c => bool_decide (is_Some (digit_of c))) cs
  end.

(** A directory with an [.xyz] file of two carbon atoms, one of one carbon
    atom with the atom count 2, one of a carbon and a nitrogen atom, and a
    [.mol] file holding a single atom.  Numbers are read as decimal
    integers, which is all these files hold. *)
Definition example_files : externals := {|
  readlines := fun path =>
    if String.eqb path "two.xyz" then Ok ["2"; ""; "C 0 0 0"; "6 3 4 0"]%string
    else if String.eqb path "short.xyz" then Ok ["2"; ""; "C 0 0 0"]%string
    else if String.eqb path "count.xyz" then Ok ["3"; ""; "C 0 0 0"; "C 3 4 0"]%string
    else if String.eqb path "cn.xyz" then Ok ["2"; ""; "C 0 0 0"; "N 3 4 0"]%string
    else Raise OSError;
  py_int := decimal_int;
  py_float := fun s => let* z := decimal_int s in Ok (float_of_nat (Z.to_nat z));
  py_split := fun s => split_words (String.list_ascii_of_string s) [];
  py_isnumeric := decimal_isnumeric;
  periodic_table := fun z =>
    if Z.eqb z 6 then Ok "C"%string else if Z.eqb z 7 then Ok "N"%string else Raise KeyError;
  mol_file_positions := fun path =>
    if String.eqb path "one.mol" then Ok [[7; 8; 9]%float] else Raise OSError;
  mae_file_positions := fun _ => Raise OSError
|}.

(** Two carbon atoms, one conformer. *)
Definition ethyne_carbons : Molecule := {|
  atoms := [carbon; carbon];
  bonds := [{| atom1 := 0; atom2 := 1; order := 3 |}];
  _conformers := [[[0; 1]; [0; 0]; [0; 0]]%float]
|}.

End MolFile.

(* ===================================================================== *)
(** * IdentityCache: the metaclasses [_Cached] and [Cached]                *)
(* ===================================================================== *)

Module IdentityCache.
Import Python.

Section Metaclass.

(** [Args] are the bound constructor arguments (defaults applied), [Key] the
    values of [_get_key], [Attrs] the attributes [__init__] stores. *)
Context {Args Key Attrs : Type}.
Context `{EqDecision Key} `{Countable Key} `{EqDecision Args} `{Countable Args}.

(** An object of a cached class: its [__dict__] once [__init__] has filled
    it, and [_key], which the metaclass sets. *)
Record instance : Type := {
  attrs : option Attrs;
  _key : option Key
}.

(** The objects ever made, by identity; the class attribute [_cache] of
    [molecule.py]; the [WeakValueDictionary] [__cache] of
    [classes/molecular.py]; and how many times construction logic ran. *)
Record heap : Type := {
  objects : list instance;
  _cache : gmap Key nat;
  __cache : gmap Args nat;
  init_runs : nat
}.

(** A class with the metaclass: [_get_key], the [use_cache] entry of the
    bound arguments, and [__init__], which gets [self] and may do anything
    to the heap. *)
Record class : Type := {
  _get_key : Args -> Key;
  use_cache : Args -> bool;
  __init__ : nat -> Args -> heap -> result heap
}.

Definition allocate (h : heap) : nat * heap :=
  (length (objects h),
   {| objects := objects h ++ [{| attrs := None; _key := None |}];
      _cache := _cache h; __cache := __cache h; init_runs := init_runs h |}).

Definition count_init (h : heap) : heap :=
  {| objects := objects h; _cache := _cache h; __cache := __cache h;
     init_runs := S (init_runs h) |}.

(** [type.__call__]: [__new__] makes the object, [__init__] fills it. *)
Definition type_call (cls : class) (args : Args) (h : heap) : result (nat * heap) :=
  let (obj, h) := allocate h in
  let* h := __init__ cls obj args (count_init h) in
  Ok (obj, h).

(** [obj._key = key] *)
Definition set_key (obj : nat) (key : Key) (h : heap) : heap :=
  {| objects := alter (fun o => {| attrs := attrs o; _key := Some key |}) obj (objects h);
     _cache := _cache h; __cache := __cache h; init_runs := init_runs h |}.

(** [_Cached.__call__] of [stk/molecular/molecules/molecule.py]. *)
Definition _Cached_call (cls : class) (args : Args) (h : heap) : result (nat * heap) :=
  let key := _get_key cls args in
  match (if use_cache cls args then _cache h !! key else None) with
  | Some cached => Ok (cached, h)
  | None =>
      let* oh := type_call cls args h in
      Ok (fst oh, set_key (fst oh) key (snd oh))
  end.

(** [Molecule.update_cache]: the cached object takes a copy of the
    attributes of [self], or [self] becomes the cached object. *)
Definition update_cache (self : nat) (h : heap) : result heap :=
  match objects h !! self with
  | None => Raise AttributeError
  | Some o =>
      match _key o with
      | None => Raise AttributeError
      | Some key =>
          match _cache h !! key with
          | Some cached =>
              Ok {| objects := <[cached:=o]> (objects h); _cache := _cache h;
                    __cache := __cache h; init_runs := init_runs h |}
          | None =>
              Ok {| objects := objects h; _cache := <[key:=self]> (_cache h);
                    __cache := __cache h; init_runs := init_runs h |}
          end
      end
  end.

(** [Cached.__call__] of [classes/molecular.py]: the key is the tuple of
    the arguments, and the new object is stored. *)
Definition Cached_call (cls : class) (args : Args) (h : heap) : result (nat * heap) :=
  match __cache h !! args with
  | Some cached => Ok (cached, h)
  | None =>
      let* oh := type_call cls args h in
      let h := snd oh in
      Ok (fst oh,
          {| objects := objects h; _cache := _cache h;
             __cache := <[args:=fst oh]> (__cache h); init_runs := init_runs h |})
  end.

(** The [WeakValueDictionary] drops an entry when its object is collected:
    a collection keeps the entries of the objects still [referenced]. *)
Definition collect (referenced : nat -> bool) (h : heap) : heap :=
  {| objects := objects h; _cache := _cache h;
     __cache := filter (fun kv => referenced (snd kv) = true) (__cache h);
     init_runs := init_runs h |}.

Definition empty_heap : heap :=
  {| objects := []; _cache := ∅; __cache := ∅; init_runs := 0 |}.

End Metaclass.

Arguments instance : clear implicits.
Arguments heap Args Key Attrs {_ _ _ _}.
Arguments class Args Key Attrs {_ _ _ _}.

(** A subclass of [Molecule] whose [__init__(self, smiles, use_cache=False)]
    stores its argument, as [Molecule.__init__] stores [atoms] and [bonds],
    and whose key is that argument. *)
Definition store_attrs (self : nat) (args : string * bool)
    (h : heap (string * bool) string string) : result (heap (string * bool) string string) :=
  Ok {| objects := alter (fun o => {| attrs := Some (fst args); _key := _key o |})
                         self (objects h);
        _cache := _cache h; __cache := __cache h; init_runs := init_runs h |}.

Definition Plain : class (string * bool) string string := {|
  _get_key := fst;
  use_cache := snd;
  __init__ := store_attrs
|}.

End IdentityCache.

(* ===================================================================== *)
(** * Units: [FGInfo] and [StructUnit] of classes/molecular.py             *)
(* ===================================================================== *)

Module Units.
Import Python MolFile.

Record FGInfo : Type := {
  name : string;
  smarts_start : string;
  smarts_end : string;
  target_atomic_num : nat;
  heavy_atomic_num : nat;
  target_symbol : string;
  heavy_symbol : string
}.

Definition functional_group_list : list FGInfo := [
  Build_FGInfo "aldehyde" "C(=O)[H]" "[Y]" 6 39 "C" "Y";
  Build_FGInfo "carboxylic acid" "C(=O)O[H]" "[Zr]=O" 6 40 "C" "Zr";
  Build_FGInfo "amide" "C(=O)N([H])[H]" "[Nb]=O" 6 41 "C" "Nb";
  Build_FGInfo "thioacid" "C(=O)S[H]" "[Mo]=O" 6 42 "C" "Mo";
  Build_FGInfo "alcohol" "O[H]" "[Tc]" 8 43 "O" "Tc";
  Build_FGInfo "thiol" "[S][H]" "[Ru]" 16 44 "S" "Ru";
  Build_FGInfo "amine" "[N]([H])[H]" "[Rh]" 7 45 "N" "Rh";
  Build_FGInfo "nitroso" "N=O" "[Pd]" 7 46 "N" "Pd";
  Build_FGInfo "boronic acid" "[B](O[H])O[H]" "[Ag]" 5 47 "B" "Ag"
]%string.

Definition double_bond_combs : list (string * string) :=
  [("Rh", "Y"); ("Nb", "Y"); ("Mb", "Rh")]%string.

(** [sub in s] for strings. *)
Fixpoint contains (s sub : string) : bool :=
  String.prefix sub s
  || match s with
     | EmptyString => false
     | String _ rest => contains rest sub
     end.

(** [next((x for x in table if x.name in prist_mol_file), None)] *)
Definition first_named (table : list FGInfo) (prist_mol_file : string) : option FGInfo :=
  List.find (fun x => contains prist_mol_file (name x)) table.

Section StructUnit.

(** rdkit is outside the repository: [Mol] are its molecules, and the calls
    the initializer makes are parameters.  [MolToMolFile] writes a file. *)
Context {Mol : Type}.

Record rdkit : Type := {
  MolFromMolFile : string -> result Mol;
  MolToSmiles : Mol -> result string;
  MolFromSmarts : string -> result Mol;
  ReplaceSubstructs : Mol -> Mol -> Mol -> result (list Mol);
  MolToMolFile : Mol -> string -> result unit
}.

Record StructUnit : Type := {
  prist_mol_file : string;
  prist_mol : Mol;
  prist_smiles : string;
  func_grp : option FGInfo;
  heavy_mol : Mol;
  heavy_mol_file : string;
  heavy_smiles : string
}.

(** [self.func_grp.smarts_start] and the like: [None] has no attributes. *)
Definition the_func_grp (func_grp : option FGInfo) : result FGInfo :=
  match func_grp with
  | Some fg => Ok fg
  | None => Raise AttributeError
  end.

(** [_make_atoms_heavy_in_heavy]: the new value of [heavy_mol]. *)
Definition _make_atoms_heavy_in_heavy (rd : rdkit) (prist_mol : Mol)
    (func_grp : option FGInfo) : result Mol :=
  let* fg := the_func_grp func_grp in
  let* func_grp_mol := MolFromSmarts rd (smarts_start fg) in
  let* fg := the_func_grp func_grp in
  let* func_grp_mol_end := MolFromSmarts rd (smarts_end fg) in
  let* rms := ReplaceSubstructs rd prist_mol func_grp_mol func_grp_mol_end in
  getitem rms 0.

(** ['_'.join([root, 'HEAVY', name, ext])] *)
Definition heavy_file_name (prist_mol_file : string) (fg : FGInfo) : string :=
  let (root, ext) := os_path_splitext prist_mol_file in
  String.concat "_" [root; "HEAVY"; name fg; ext]%string.

(** [StructUnit.__init__] with [_generate_heavy_attrs] inlined at its end;
    the second component is the file written by [MolToMolFile]. *)
Definition StructUnit_init (rd : rdkit) (table : list FGInfo) (file : string)
    : result (StructUnit * (string * Mol)) :=
  let* prist := MolFromMolFile rd file in
  let* smiles := MolToSmiles rd prist in
  let func_grp := first_named table file in
  (* _generate_heavy_attrs *)
  let* heavy := _make_atoms_heavy_in_heavy rd prist func_grp in
  let* fg := the_func_grp func_grp in
  let heavy_file := heavy_file_name file fg in
  let* _ := MolToMolFile rd heavy heavy_file in
  let* heavy_smi := MolToSmiles rd heavy in
  Ok ({| prist_mol_file := file; prist_mol := prist; prist_smiles := smiles;
         func_grp := func_grp; heavy_mol := heavy; heavy_mol_file := heavy_file;
         heavy_smiles := heavy_smi |},
      (heavy_file, heavy)).

End StructUnit.

Arguments rdkit : clear implicits.
Arguments StructUnit : clear implicits.

(** A stand-in for rdkit whose molecules are SMILES-like strings: reading a
    file gives its path as the molecule, and a substitution appends the
    replacement pattern.  Every call succeeds. *)
Definition toy_rdkit : rdkit string := {|
  MolFromMolFile := fun path => Ok path;
  MolToSmiles := fun m => Ok m;
  MolFromSmarts := fun smarts => Ok smarts;
  ReplaceSubstructs := fun m _ new => Ok [String.append m new];
  MolToMolFile := fun _ _ => Ok tt
|}.

End Units.

(* ===================================================================== *)
(** * GA: [Mutation] of classes/ga/mutation.py                             *)
(* ===================================================================== *)

Module GA.
Import Python Numpy.

(** ** Individuals *)

(** Modelled from the spec: [StructUnit2] and [StructUnit3] of [..molecular]
    are not among the sources.  A structural unit is identified by its class
    and its structure file (the identity key of section 3), so [==] on units
    is equality of the two. *)
Inductive unit_class : Type := StructUnit2 | StructUnit3.

Record StructUnit : Type := {
  class_of : unit_class;
  file : string
}.

#[global] Instance unit_class_eq_dec : EqDecision unit_class.
Proof. solve_decision. Defined.

#[global] Instance StructUnit_eq_dec : EqDecision StructUnit.
Proof. solve_decision. Defined.

(** A cage: its identity as an object, the structural units it was built
    from, the class of its topology, its file and its fitness. *)
Record Cage : Type := {
  cage_id : nat;
  building_blocks : list StructUnit;
  topology : string;
  prist_mol_file : string;
  fitness : option float
}.

Definition isinstance (x : StructUnit) (c : unit_class) : bool :=
  bool_decide (class_of x = c).

(** [next(x for x in cage.building_blocks if isinstance(x, c))] *)
Definition next_unit (cage : Cage) (c : unit_class) : result StructUnit :=
  match List.find (fun x => isinstance x c) (building_blocks cage) with
  | Some x => Ok x
  | None => Raise StopIteration
  end.

(** [bb] and [lk] of classes/molecular.py: the building-block* and the
    linker among the structural units of the cage. *)
Definition bb (cage : Cage) : option StructUnit :=
  List.find (fun x => isinstance x StructUnit3) (building_blocks cage).

Definition lk (cage : Cage) : option StructUnit :=
  List.find (fun x => isinstance x StructUnit2) (building_blocks cage).

(** [Cage.same_cage] *)
Definition same_cage (self other : Cage) : bool :=
  bool_decide (bb self = bb other)
  && bool_decide (lk self = lk other)
  && String.eqb (topology self) (topology other).

(** [Cage.__eq__]: [self.fitness == other.fitness] *)
Definition Cage_eq (self other : Cage) : bool :=
  match fitness self, fitness other with
  | None, None => true
  | Some a, Some b => PrimFloat.eqb a b
  | _, _ => false
  end.

(** Modelled from the spec: [Population.__sub__] is not among the sources;
    section 4.4 step 5 discards every mutant that is structurally identical,
    by the same-structure check, to a member of the source population. *)
Definition population_sub (mutants population : list Cage) : list Cage :=
  filter (fun m => existsb (same_cage m) population = false) mutants.

(** ** What a mutation function can see and change *)

(** The generators attached to cages as [_similar_bb_mols] and
    [_similar_lk_mols], by the identity of the cage: what each has still to
    yield.  [draws] counts the calls of [np.random.choice], [next_id] is the
    identity of the next cage made. *)
Record op_state : Type := {
  similar_bb_mols : gmap nat (list string);
  similar_lk_mols : gmap nat (list string);
  draws : nat;
  next_id : nat
}.

(** What lies outside the module: the working directory, the directory
    listings, the index that the [d]-th call of [np.random.choice] draws
    from a sequence of a given length, the files that
    [unit.similar_molecules(database)] yields, most similar first, and the
    exception, if any, that assembling a cage raises in [Cage(...)]. *)
Record environment : Type := {
  getcwd : string;
  listdir : string -> result (list string);
  random_index : nat -> nat -> nat;
  similar_molecules : StructUnit -> string -> list string;
  assemble : list StructUnit -> string -> string -> option exception
}.

(** A call returns, raises, or never ends. *)
Inductive outcome (A : Type) : Type :=
| Returns (a : A)
| Throws (e : exception)
| Diverges.

Arguments Returns {A} a.
Arguments Throws {A} e.
Arguments Diverges {A}.

Definition op (A : Type) : Type := op_state -> outcome A * op_state.

Definition op_ret {A : Type} (a : A) : op A := fun s => (Returns a, s).

Definition op_bind {A B : Type} (m : op A) (k : A -> op B) : op B :=
  fun s =>
    match m s with
    | (Returns a, s') => k a s'
    | (Throws e, s') => (Throws e, s')
    | (Diverges, s') => (Diverges, s')
    end.

Notation "'let!' x ':=' m 'in' k" := (op_bind m (fun x => k))
  (at level 10, x name, m at level 100, k at level 200).

Definition op_lift {A : Type} (r : result A) : op A :=
  fun s => match r with Ok a => (Returns a, s) | Raise e => (Throws e, s) end.

(** [np.random.choice(l)]: a non-empty sequence gives one of its items. *)
Definition np_random_choice {A : Type} (env : environment) (l : list A) : op A :=
  fun s =>
    match l !! (random_index env (draws s) (length l) mod length l) with
    | Some x =>
        (Returns x,
         {| similar_bb_mols := similar_bb_mols s; similar_lk_mols := similar_lk_mols s;
            draws := S (draws s); next_id := next_id s |})
    | None => (Throws ValueError, s)
    end.

(** What [np.random.choice(a, p=p)] asks of [p]: as many probabilities as
    items, none negative or NaN, and a sum of 1 within [sqrt(eps)]. *)
Definition probabilities_ok (size : nat) (p : list float) : bool :=
  Nat.eqb (length p) size
  && forallb (fun x => PrimFloat.leb 0 x) p
  && PrimFloat.leb (PrimFloat.abs (np_sum p - 1)) 1.4901161193847656e-08.

(** [np.random.choice(l, p=weights)]; which item the weights favour is the
    draw's business. *)
Definition np_random_choice_p {A : Type} (env : environment) (l : list A)
    (weights : option (list float)) : op A :=
  match weights with
  | None => np_random_choice env l
  | Some p =>
      if probabilities_ok (length l) p then np_random_choice env l
      else op_lift (Raise ValueError)
  end.

Definition endswith (s suffix : string) : bool :=
  bool_decide (String.list_ascii_of_string suffix
               `suffix_of` String.list_ascii_of_string s).

(** [while True: f = np.random.choice(os.listdir(database)); if
    f.endswith(".mol"): break].  An empty listing raises in
    [np.random.choice]; a listing without a [.mol] file is drawn from for
    ever; otherwise the loop ends with one of the [.mol] files, and which one
    is the draw. *)
Definition choose_mol_file (env : environment) (database : string) : op string :=
  let! files := op_lift (listdir env database) in
  match files with
  | [] => op_lift (Raise ValueError)
  | _ =>
      match filter (fun f => endswith f ".mol" = true) files with
      | [] => fun s => (Diverges, s)
      | mol_files => np_random_choice env mol_files
      end
  end.

(** [os.path.join(a, b)] for a relative [b]. *)
Definition os_path_join (a b : string) : string :=
  String.append a (String.append "/" b).

(** The keyword arguments [func_data.params] of a mutation function:
    [database=...], [topologies=...], or anything else. *)
Inductive kwargs : Type :=
| database_kw (database : string)
| topologies_kw (topologies : list string)
| other_kw.

Record FunctionData : Type := {
  name : string;
  params : kwargs
}.

(** The engine; its [name] is the constant ["mutation_{0}.mol"], which
    [mutant_file] formats. *)
Record Mutation : Type := {
  funcs : list FunctionData;
  weights : option (list float);
  num_mutations : Z;
  n_calls : nat
}.

(** [os.path.join(os.getcwd(), self.name.format(self.n_calls))] with
    [self.name = "mutation_{0}.mol"]. *)
Definition mutant_file (env : environment) (self : Mutation) : string :=
  os_path_join (getcwd env)
    (String.append "mutation_" (String.append (pretty (n_calls self)) ".mol")).

(** Modelled from the spec: the constructor [Cage(units, topology, file)] of
    [..molecular] is not among the sources; the topology assembler builds the
    molecule or raises (section 2), and a built cage is a new individual
    without a fitness. *)
Definition new_Cage (env : environment) (units : list StructUnit)
    (topology : string) (file : string) : op Cage :=
  fun s =>
    match assemble env units topology file with
    | Some e => (Throws e, s)
    | None =>
        (Returns {| cage_id := next_id s; building_blocks := units;
                    topology := topology; prist_mol_file := file; fitness := None |},
         {| similar_bb_mols := similar_bb_mols s; similar_lk_mols := similar_lk_mols s;
            draws := draws s; next_id := S (next_id s) |})
    end.

Definition random_bb (env : environment) (self : Mutation) (cage : Cage)
    (database : string) : op Cage :=
  let! bb_file := choose_mol_file env database in
  let bb_file := os_path_join database bb_file in
  let bb := {| class_of := StructUnit3; file := bb_file |} in
  let! lk := op_lift (next_unit cage StructUnit2) in
  new_Cage env [bb; lk] (topology cage) (mutant_file env self).

Definition random_lk (env : environment) (self : Mutation) (cage : Cage)
    (database : string) : op Cage :=
  let! lk_file := choose_mol_file env database in
  let lk_file := os_path_join database lk_file in
  let lk := {| class_of := StructUnit2; file := lk_file |} in
  let! bb := op_lift (next_unit cage StructUnit3) in
  new_Cage env [bb; lk] (topology cage) (mutant_file env self).

(** [tops.remove(x)]: the first [x] goes; without one, [ValueError]. *)
Fixpoint list_remove (x : string) (l : list string) : result (list string) :=
  match l with
  | [] => Raise ValueError
  | y :: rest =>
      if String.eqb y x then Ok rest
      else let* rest' := list_remove x rest in Ok (y :: rest')
  end.

Definition random_cage_topology (env : environment) (self : Mutation) (cage : Cage)
    (topologies : list string) : op Cage :=
  let! tops := op_lift (list_remove (topology cage) topologies) in
  let! topology := np_random_choice env tops in
  new_Cage env (building_blocks cage) topology (mutant_file env self).

(** [if not hasattr(cage, '_similar_bb_mols'): ...] *)
Definition attach_similar_bb (env : environment) (cage : Cage) (database : string)
    : op unit :=
  fun s =>
    match similar_bb_mols s !! cage_id cage with
    | Some _ => (Returns tt, s)
    | None =>
        match next_unit cage StructUnit3 with
        | Raise e => (Throws e, s)
        | Ok bb =>
            (Returns tt,
             {| similar_bb_mols :=
                  <[cage_id cage := similar_molecules env bb database]> (similar_bb_mols s);
                similar_lk_mols := similar_lk_mols s;
                draws := draws s; next_id := next_id s |})
        end
    end.

(** [next(cage._similar_bb_mols)] *)
Definition next_similar_bb (cage : Cage) : op string :=
  fun s =>
    match similar_bb_mols s !! cage_id cage with
    | Some (candidate :: rest) =>
        (Returns candidate,
         {| similar_bb_mols := <[cage_id cage := rest]> (similar_bb_mols s);
            similar_lk_mols := similar_lk_mols s;
            draws := draws s; next_id := next_id s |})
    | Some [] => (Throws StopIteration, s)
    | None => (Throws AttributeError, s)
    end.

Definition similar_bb (env : environment) (self : Mutation) (cage : Cage)
    (database : string) : op Cage :=
  let! _ := attach_similar_bb env cage database in
  let! new_file := next_similar_bb cage in
  let new_bb := {| class_of := StructUnit3; file := new_file |} in
  let! lk := op_lift (next_unit cage StructUnit2) in
  new_Cage env [new_bb; lk] (topology cage) (mutant_file env self).

Definition attach_similar_lk (env : environment) (cage : Cage) (database : string)
    : op unit :=
  fun s =>
    match similar_lk_mols s !! cage_id cage with
    | Some _ => (Returns tt, s)
    | None =>
        match next_unit cage StructUnit2 with
        | Raise e => (Throws e, s)
        | Ok lk =>
            (Returns tt,
             {| similar_bb_mols := similar_bb_mols s;
                similar_lk_mols :=
                  <[cage_id cage := similar_molecules env lk database]> (similar_lk_mols s);
                draws := draws s; next_id := next_id s |})
        end
    end.

Definition next_similar_lk (cage : Cage) : op string :=
  fun s =>
    match similar_lk_mols s !! cage_id cage with
    | Some (candidate :: rest) =>
        (Returns candidate,
         {| similar_bb_mols := similar_bb_mols s;
            similar_lk_mols := <[cage_id cage := rest]> (similar_lk_mols s);
            draws := draws s; next_id := next_id s |})
    | Some [] => (Throws StopIteration, s)
    | None => (Throws AttributeError, s)
    end.

Definition similar_lk (env : environment) (self : Mutation) (cage : Cage)
    (database : string) : op Cage :=
  let! _ := attach_similar_lk env cage database in
  let! new_file := next_similar_lk cage in
  let new_lk := {| class_of := StructUnit2; file := new_file |} in
  let! bb := op_lift (next_unit cage StructUnit3) in
  new_Cage env [new_lk; bb] (topology cage) (mutant_file env self).

(** [getattr(self, func_data.name)] for the names of the mutation functions,
    and the call [func(parent, **func_data.params)]: keyword arguments that
    are not the parameters of the function raise [TypeError]. *)
Definition getattr (func_name : string)
    : option (environment -> Mutation -> Cage -> kwargs -> op Cage) :=
  let with_database f :=
    fun env self cage kw =>
      match kw with
      | database_kw database => f env self cage database
      | _ => op_lift (Raise TypeError)
      end in
  if String.eqb func_name "random_bb" then Some (with_database random_bb)
  else if String.eqb func_name "random_lk" then Some (with_database random_lk)
  else if String.eqb func_name "similar_bb" then Some (with_database similar_bb)
  else if String.eqb func_name "similar_lk" then Some (with_database similar_lk)
  else if String.eqb func_name "random_cage_topology" then
    Some (fun env self cage kw =>
            match kw with
            | topologies_kw topologies => random_cage_topology env self cage topologies
            | _ => op_lift (Raise TypeError)
            end)
  else None.

(** ** The round *)

(** What one [func(parent, **func_data.params)] came to.  A [Raised] entry
    is what [MacroMolError(ex, parent, ...)] reports. *)
Inductive attempt : Type :=
| Mutant (mutant : Cage)
| Raised (e : exception)
| Hangs.

Record attempt_record : Type := {
  parent_of : nat;
  func_of : string;
  result_of : attempt
}.

(** The locals of [__call__] and the state they share with the mutation
    functions: [mutant_pop.members], the [Counter] of the parents by
    identity, [num_mutations], [self.n_calls]. *)
Record round : Type := {
  members : list Cage;
  counter : gmap nat nat;
  num_done : nat;
  calls : nat;
  ops : op_state
}.

Inductive ending : Type :=
| Finished
| Escaped (e : exception)
| Hung.

Definition set_n_calls (self : Mutation) (n : nat) : Mutation :=
  {| funcs := funcs self; weights := weights self;
     num_mutations := num_mutations self; n_calls := n |}.

(** [counter.update([parent])] *)
Definition counter_update (parent : Cage) (c : gmap nat nat) : gmap nat nat :=
  <[cage_id parent := S (default 0 (c !! cage_id parent))]> c.

Definition start_round (self : Mutation) (s : op_state) : round :=
  {| members := []; counter := ∅; num_done := 0; calls := n_calls self; ops := s |}.

(** [for parent in parent_pool: ...]: how the loop ends, the locals at the
    end and the attempts made, in order.  Choosing the function and looking
    it up stand outside the [try]; [self.n_calls += 1] and the call stand
    inside it. *)
Fixpoint parents_loop (env : environment) (self : Mutation) (parent_pool : list Cage)
    (r : round) : ending * round * list attempt_record :=
  match parent_pool with
  | [] => (Finished, r, [])
  | parent :: rest =>
      let counter := counter_update parent (counter r) in
      let at_choice s :=
        {| members := members r; counter := counter; num_done := num_done r;
           calls := calls r; ops := s |} in
      match np_random_choice_p env (funcs self) (weights self) (ops r) with
      | (Throws e, s) => (Escaped e, at_choice s, [])
      | (Diverges, s) => (Hung, at_choice s, [])
      | (Returns func_data, s) =>
          match getattr (name func_data) with
          | None => (Escaped AttributeError, at_choice s, [])
          | Some func =>
              let calls := S (calls r) in
              let entry x :=
                {| parent_of := cage_id parent; func_of := name func_data;
                   result_of := x |} in
              match func env (set_n_calls self calls) parent (params func_data) s with
              | (Returns mutant, s') =>
                  let r' :=
                    {| members := members r ++ [mutant]; counter := counter;
                       num_done := S (num_done r); calls := calls; ops := s' |} in
                  if (Z.of_nat (S (num_done r)) =? num_mutations self)%Z
                  then (Finished, r', [entry (Mutant mutant)])
                  else
                    let '(e, r'', log) := parents_loop env self rest r' in
                    (e, r'', entry (Mutant mutant) :: log)
              | (Throws ex, s') =>
                  let r' :=
                    {| members := members r; counter := counter;
                       num_done := num_done r; calls := calls; ops := s' |} in
                  let '(e, r'', log) := parents_loop env self rest r' in
                  (e, r'', entry (Raised ex) :: log)
              | (Diverges, s') =>
                  (Hung,
                   {| members := members r; counter := counter;
                      num_done := num_done r; calls := calls; ops := s' |},
                   [entry Hangs])
              end
          end
      end
  end.

(** How a call of the engine ends for its caller. *)
Inductive call_result : Type :=
| Returned (mutant_pop : list Cage)
| Escapes (e : exception)
| NeverReturns.

(** [for member in population: if member not in counter.keys():
    counter.update({member : 0})] *)
Definition counter_add_unselected (population : list Cage) (c : gmap nat nat)
    : gmap nat nat :=
  fold_left (fun c member =>
               match c !! cage_id member with
               | Some _ => c
               | None => <[cage_id member := 0]> c
               end) population c.

(** [Mutation.__call__]; [parent_pool] is what [population.select('mutation')]
    yields, which is the selection's business. *)
Definition Mutation_call (env : environment) (self : Mutation) (population : list Cage)
    (parent_pool : list Cage) (s : op_state)
    : call_result * round * list attempt_record :=
  let '(e, r, log) := parents_loop env self parent_pool (start_round self s) in
  match e with
  | Finished =>
      let mutant_pop := population_sub (members r) population in
      (Returned mutant_pop,
       {| members := mutant_pop;
          counter := counter_add_unselected population (counter r);
          num_done := num_done r; calls := calls r; ops := ops r |},
       log)
  | Escaped ex => (Escapes ex, r, log)
  | Hung => (NeverReturns, r, log)
  end.

(** ** What is asked of a configuration and of the attempts *)

(** The list of functions is not empty, every name is the name of a
    mutation function, and the weights, when there are any, are
    probabilities for the functions. *)
Definition well_configured (self : Mutation) : Prop :=
  funcs self <> []
  /\ Forall (fun f => is_Some (getattr (name f))) (funcs self)
  /\ match weights self with
     | None => True
     | Some p => probabilities_ok (length (funcs self)) p = true
     end.



Definition returns_or_raises (a : attempt_record) : Prop :=
  result_of a <> Hangs.

(** One mutation function called on the same cage once per engine state of
    [selfs], the state of the cages carried along: what every call came to. *)
Fixpoint invocations (f : Mutation -> op Cage) (selfs : list Mutation) (s : op_state)
    : list (outcome Cage) * op_state :=
  match selfs with
  | [] => ([], s)
  | self :: rest =>
      let (o, s') := f self s in
      let (os, s'') := invocations f rest s' in
      (o :: os, s'')
  end.

Definition units_of (o : outcome Cage) : option (list StructUnit) :=
  match o with
  | Returns mutant => Some (building_blocks mutant)
  | _ => None
  end.

(** What a cage has still to yield to [similar_bb] ([similar_lk]): the rest
    of its sequence when it has one, or the whole ranking that its first swap
    will attach. *)
Definition pending_bb (env : environment) (cage : Cage) (database : string)
    (bb_unit : StructUnit) (s : op_state) : list string :=
  default (similar_molecules env bb_unit database) (similar_bb_mols s !! cage_id cage).

Definition pending_lk (env : environment) (cage : Cage) (database : string)
    (lk_unit : StructUnit) (s : op_state) : list string :=
  default (similar_molecules env lk_unit database) (similar_lk_mols s !! cage_id cage).


(** ** Examples *)

Definition no_state : op_state :=
  {| similar_bb_mols := ∅; similar_lk_mols := ∅; draws := 0; next_id := 100 |}.

Definition unit3 (f : string) : StructUnit := {| class_of := StructUnit3; file := f |}.
Definition unit2 (f : string) : StructUnit := {| class_of := StructUnit2; file := f |}.

Definition cage (id : nat) (bb_file lk_file top : string) (fit : option float) : Cage :=
  {| cage_id := id; building_blocks := [unit3 bb_file; unit2 lk_file];
     topology := top; prist_mol_file := "cage.mol"; fitness := fit |}.

(** A laboratory: the directory [bbs] holds one building-block* file and a
    text file, [empty] holds nothing, the similarity search ranks three files
    of [db], every draw takes the first item, and every cage assembles. *)
Definition lab : environment := {|
  getcwd := "/run";
  listdir := fun d =>
    if String.eqb d "bbs" then Ok ["readme.txt"; "amine3.mol"]%string
    else if String.eqb d "empty" then Ok []
    else Raise OSError;
  random_index := fun _ _ => 0;
  similar_molecules := fun _ d =>
    if String.eqb d "db" then ["first.mol"; "second.mol"; "third.mol"]%string else [];
  assemble := fun _ _ _ => None
|}.

Definition engine (fs : list FunctionData) (k : Z) : Mutation :=
  {| funcs := fs; weights := None; num_mutations := k; n_calls := 0 |}.

Definition rank_bb : FunctionData := {| name := "similar_bb"; params := database_kw "db" |}.
Definition draw_nothing : FunctionData :=
  {| name := "random_bb"; params := database_kw "empty" |}.

Definition draw_topology : FunctionData :=
  {| name := "random_cage_topology";
     params := topologies_kw ["FourPlusSix"; "FourPlusSix"; "EightPlusTwelve"]%string |}.

Definition parent1 : Cage := cage 1 "bbs/amine3.mol" "lks/aldehyde2.mol" "FourPlusSix" None.
Definition parent2 : Cage := cage 2 "bbs/amine4.mol" "lks/aldehyde2.mol" "FourPlusSix" None.


(** A member of the population with the structure that the second similar
    swap on [parent1] gives, and a fitness. *)
Definition rival : Cage :=
  cage 7 "second.mol" "lks/aldehyde2.mol" "FourPlusSix" (Some 1%float).

End GA.

(* ===================================================================== *)
(** * MolShape: a molecule but for one conformer                           *)
(* ===================================================================== *)

Module MolShape.
Import Python Numpy Mol.

(** [self'] is [self] but for what conformer [k] holds. *)
Definition same_but_conformer (k : nat) (self self' : Molecule) : Prop :=
  atoms self' = atoms self
  /\ bonds self' = bonds self
  /\ length (_conformers self') = length (_conformers self)
  /\ forall j, j <> k -> _conformers self' !! j = _conformers self !! j.

End MolShape.

(* ===================================================================== *)
(** * Samples: more files and molecules for the examples                   *)
(* ===================================================================== *)

Module Samples.
Import Python Numpy Mol MolFile.

(** A directory with a Turbomole [.coord] file of two carbon atoms, an
    [.xyz] file of two carbon atoms with a third atom line, and an [.xyz]
    file that ends after its comment line.  Numbers are decimal integers. *)
Definition more_files : externals := {|
  readlines := fun path =>
    if String.eqb path "two.coord"
    then Ok ["$coord"; "0 0 0 C"; "2 0 0 C"; "$end"]%string
    else if String.eqb path "long.xyz"
    then Ok ["2"; ""; "C 0 0 0"; "C 3 4 0"; "C 5 5 5"]%string
    else if String.eqb path "bare.xyz" then Ok ["2"; ""]%string
    else readlines example_files path;
  py_int := py_int example_files;
  py_float := py_float example_files;
  py_split := py_split example_files;
  py_isnumeric := py_isnumeric example_files;
  periodic_table := periodic_table example_files;
  mol_file_positions := mol_file_positions example_files;
  mae_file_positions := mae_file_positions example_files
|}.

(** Three carbon atoms, no conformer yet. *)
Definition three_carbons : Molecule := {|
  atoms := [carbon; carbon; carbon];
  bonds := [];
  _conformers := []
|}.

End Samples.

(* ===================================================================== *)
(** * CacheShape: what the cache of a class looks like between calls      *)
(* ===================================================================== *)

Module CacheShape.
Import Python IdentityCache.

Section Metaclass.
Context {Args Key Attrs : Type}.
Context `{EqDecision Key} `{Countable Key} `{EqDecision Args} `{Countable Args}.

(** Every entry of [_cache] leads to an object, and that object carries, as
    its [_key], the key it is cached under. *)
Definition keyed (h : heap Args Key Attrs) : Prop :=
  forall key cached,
    _cache h !! key = Some cached ->
    exists o, objects h !! cached = Some o /\ _key o = Some key.

(** An [__init__] that leaves the cache and the objects that were there
    before [self] as they are: it fills [self], and may make new objects. *)
Definition init_keeps_others (cls : class Args Key Attrs) : Prop :=
  forall obj args h h',
    __init__ cls obj args h = Ok h' ->
    _cache h' = _cache h
    /\ length (objects h) <= length (objects h')
    /\ forall i, i < obj -> objects h' !! i = objects h !! i.

End Metaclass.

(** Two objects made from the same SMILES string; the first is cached, the
    second has been changed since. *)
Definition two_copies : heap (string * bool) string string := {|
  objects := [{| attrs := Some "NCCN"%string; _key := Some "NCCN"%string |};
              {| attrs := Some "NCCN optimized"%string; _key := Some "NCCN"%string |}];
  _cache := {["NCCN"%string := 0]};
  __cache := ∅;
  init_runs := 2
|}.

End CacheShape.

(* ===================================================================== *)
(** * RoundShape: reading the log of a mutation round                      *)
(* ===================================================================== *)

Module RoundShape.
Import Python GA.

(** The mutants that the attempts of a log returned, in their order. *)
Definition mutant_of (a : attempt_record) : option Cage :=
  match result_of a with
  | Mutant mutant => Some mutant
  | _ => None
  end.

Definition mutants_of (log : list attempt_record) : list Cage := omap mutant_of log.

(** How many attempts of a log were made on the cage with identity [id]. *)
Definition attempts_on (id : nat) (log : list attempt_record) : nat :=
  length (filter (fun a => parent_of a = id) log).

(** An engine that has been called [n] times before. *)
Definition engine_after (n : nat) (fs : list FunctionData) (k : Z) : Mutation :=
  {| funcs := fs; weights := None; num_mutations := k; n_calls := n |}.


(** A laboratory in which no cage assembles. *)
Definition broken_lab : environment := {|
  getcwd := getcwd lab;
  listdir := listdir lab;
  random_index := random_index lab;
  similar_molecules := similar_molecules lab;
  assemble := fun _ _ _ => Some RuntimeError
|}.

End RoundShape.

(* ===================================================================== *)
(** * Registry: the subclasses of [Molecule] by name                       *)
(* ===================================================================== *)

Module Registry.
Import Python.

Section Subclasses.

(** [Obj] are the molecules that [_json_init] makes, [Key] the keys of the
    caches. *)
Context {Obj Key : Type} `{EqDecision Key} `{Countable Key}.

(** A JSON [dict], as far as [init_from_dict] looks at it: its entries
    that are strings. *)
Definition json_dict : Type := gmap string string.

(** A subclass of [Molecule]: its [__name__] and its [_json_init]. *)
Record subclass : Type := {
  __name__ : string;
  _json_init : json_dict -> result Obj
}.

(** The class attribute [Molecule.subclasses], and the [_cache] of every
    subclass, by the name of the subclass. *)
Record classes : Type := {
  subclasses : gmap string subclass;
  caches : gmap string (gmap Key nat)
}.

Inductive defined : Type :=
| Defines (cs : classes)
| MoleculeSubclassError.

(** [Molecule.__init_subclass__], run when the class [cls] is defined. *)
Definition __init_subclass__ (cs : classes) (cls : subclass) : defined :=
  match subclasses cs !! __name__ cls with
  | Some _ => MoleculeSubclassError
  | None =>
      Defines {| subclasses := <[__name__ cls := cls]> (subclasses cs);
                 caches := <[__name__ cls := ∅]> (caches cs) |}
  end.

(** [d[k]] on a [dict] *)
Definition dict_getitem {V : Type} (d : gmap string V) (k : string) : result V :=
  match d !! k with
  | Some v => Ok v
  | None => Raise KeyError
  end.

(** [Molecule.init_from_dict] *)
Definition init_from_dict (cs : classes) (d : json_dict) : result Obj :=
  let* class_name := dict_getitem d "class" in
  let* c := dict_getitem (subclasses cs) class_name in
  _json_init c d.

(** The classes are defined one after the other; the first definition that
    raises ends the module. *)
Fixpoint define_all (cs : classes) (new : list subclass) : defined :=
  match new with
  | [] => Defines cs
  | cls :: rest =>
      match __init_subclass__ cs cls with
      | Defines cs' => define_all cs' rest
      | MoleculeSubclassError => MoleculeSubclassError
      end
  end.

Definition no_classes : classes := {| subclasses := ∅; caches := ∅ |}.

End Subclasses.

Arguments subclass : clear implicits.
Arguments classes Obj Key {_ _}.
Arguments defined Obj Key {_ _}.

(** Two classes whose [_json_init] returns the name of the class. *)
Definition building_block_class : subclass string :=
  {| __name__ := "BuildingBlock"; _json_init := fun _ => Ok "a BuildingBlock"%string |}.

Definition constructed_class : subclass string :=
  {| __name__ := "ConstructedMolecule";
     _json_init := fun _ => Ok "a ConstructedMolecule"%string |}.

End Registry.

(* ===================================================================== *)
(** * TestCage: [Cage.__init__] and [Cage.init_empty] of classes/molecular.py *)
(* ===================================================================== *)

Module TestCage.
Import Python IdentityCache.

(** The attributes a cage can have; an attribute that was never set is
    [None] here, and [fitness] is [Some None] once it was set to [None]. *)
Record cage_attrs : Type := {
  bb : option string;
  lk : option string;
  topology : option string;
  fitness : option (option float)
}.

Definition no_attrs : cage_attrs :=
  {| bb := None; lk := None; topology := None; fitness := None |}.

(** The arguments are a tuple of strings, the key of [molecule.py] plays
    no part. *)
Definition cage_heap : Type := heap (list string) unit cage_attrs.

(** [obj.a = v], for the attributes that [f] sets. *)
Definition setattrs (obj : nat) (f : cage_attrs -> cage_attrs) (h : cage_heap) : cage_heap :=
  {| objects := alter (fun o => {| attrs := Some (f (default no_attrs (attrs o)));
                                    _key := _key o |}) obj (objects h);
     _cache := _cache h; __cache := __cache h; init_runs := init_runs h |}.

(** [testing_init(self, bb_str, lk_str, topology_str)] *)
Definition testing_init (self : nat) (args : list string) (h : cage_heap)
    : result cage_heap :=
  match args with
  | [bb_str; lk_str; topology_str] =>
      Ok (setattrs self (fun a => {| bb := Some bb_str; lk := Some lk_str;
                                     topology := Some topology_str;
                                     fitness := fitness a |}) h)
  | _ => Raise TypeError
  end.

(** [Cage.__init__(self, *args)]; [std_init] builds the units and the
    topology, assembles the cage and reads it back with rdkit, all of which
    lies outside. *)
Definition Cage_init (std_init : nat -> list string -> cage_heap -> result cage_heap)
    (self : nat) (args : list string) (h : cage_heap) : result cage_heap :=
  let* h := if Nat.eqb (length args) 3 then testing_init self args h else Ok h in
  let* h := if Nat.eqb (length args) 4 then std_init self args h else Ok h in
  Ok (setattrs self (fun a => {| bb := bb a; lk := lk a; topology := topology a;
                                 fitness := Some None |}) h).

(** [class Cage(metaclass=Cached)] *)
Definition Cage (std_init : nat -> list string -> cage_heap -> result cage_heap)
    : class (list string) unit cage_attrs :=
  {| _get_key := fun _ => tt; use_cache := fun _ => false;
     __init__ := Cage_init std_init |}.

(** [Cage.init_empty]; [bb_draw] and [lk_draw] are what
    [np.random.choice(string)] gives, [sample] what [np.random.sample()]
    gives. *)
Definition init_empty (std_init : nat -> list string -> cage_heap -> result cage_heap)
    (bb_draw lk_draw : string) (sample : float) (h : cage_heap)
    : result (nat * cage_heap) :=
  let* oh := Cached_call (Cage std_init) [] h in
  let obj := fst oh in
  Ok (obj,
      setattrs obj (fun a => {| bb := Some bb_draw; lk := Some lk_draw;
                                topology := topology a;
                                fitness := Some (Some (PrimFloat.abs sample)) |})
               (snd oh)).

(** A [std_init] that is never reached in the examples. *)
Definition no_std_init (self : nat) (args : list string) (h : cage_heap)
    : result cage_heap := Raise OSError.

End TestCage.

(* ===================================================================== *)
(** * MolMore: two more operations of [Molecule]                           *)
(* ===================================================================== *)

Module MolMore.
Import Python Numpy Mol.

(** [conf[:, atom_id]] *)
Definition column (conf : matrix) (atom_id : Z) : result vector :=
  for_each (fun row => getitem row atom_id) conf.

(** [Molecule.get_atom_distance] *)
Definition get_atom_distance (self : Molecule) (atom1_id atom2_id : Z)
    (conformer_id : Z) : result float :=
  let* conf := getitem (_conformers self) conformer_id in
  let* u := column conf atom1_id in
  let* v := column conf atom2_id in
  Ok (euclidean u v).

(** [Molecule.apply_rotation_between_vectors]; [normalize_vector] is
    imported from [...utilities], as [rotation_matrix] is. *)
Definition apply_rotation_between_vectors (u : utilities)
    (normalize_vector : vector -> vector) (self : Molecule)
    (start target origin : vector) (conformer_id : Z) : result Molecule :=
  let start := normalize_vector start in
  let target := normalize_vector target in
  let* self := apply_displacement self (neg origin) conformer_id in
  let rot_mat := rotation_matrix u start target in
  let* conf := getitem (_conformers self) conformer_id in
  let* rotated := matmul rot_mat conf in
  let* confs := setitem (_conformers self) conformer_id rotated in
  apply_displacement (set_conformers self confs) origin conformer_id.

End MolMore.

(* ===================================================================== *)
(** * MolWrite: [Molecule.write] and the writers behind it                 *)
(* ===================================================================== *)

Module MolWrite.
Import Python Numpy Mol MolFile MolMore.

(** The newline character. *)
Definition nl : string := String (Ascii.ascii_of_nat 10) EmptyString.

(** How Python formats a float: ['{:.4f}'] and ['{:f}']. *)
Record formats : Type := {
  format_4f : float -> string;
  format_f : float -> string
}.

(** [x, y, z = v] *)
Definition unpack3 (v : vector) : result (float * float * float) :=
  match v with
  | [x; y; z] => Ok (x, y, z)
  | _ => Raise ValueError
  end.

(** [f' CHG={charge}' if charge else ''] *)
Definition charge_field (charge : Z) : string :=
  if Z.eqb charge 0 then ""%string else String.append " CHG=" (pretty charge).

(** ['M  V30 {} {} {:.4f} {:.4f} {:.4f} 0{}\n'.format(atom_id+1, symbol, x,
    y, z, charge)] *)
Definition mdl_atom_line (fm : formats) (atom_id : Z) (atom : Atom)
    (xyz : float * float * float) : string :=
  let '(x, y, z) := xyz in
  String.concat ""
    ["M  V30 "; pretty (atom_id + 1)%Z; " "; symbol atom; " ";
     format_4f fm x; " "; format_4f fm y; " "; format_4f fm z;
     " 0"; charge_field (charge atom); nl]%string.

(** [f'M  V30 {bond_id+1} {bond.order} {a1+1} {a2+1}\n'] *)
Definition mdl_bond_line (bond_id : nat) (bond : Bond) : string :=
  String.concat ""
    ["M  V30 "; pretty (bond_id + 1); " "; pretty (order bond); " ";
     pretty (atom1 bond + 1); " "; pretty (atom2 bond + 1); nl]%string.

(** The loop over [enumerate(atom_ids, 1)] of [to_mdl_mol_block]: the atom
    lines. *)
Fixpoint mdl_atom_loop (fm : formats) (self : Molecule) (conf : matrix)
    (atom_ids : list Z) : result (list string) :=
  match atom_ids with
  | [] => Ok []
  | atom_id :: rest =>
      let* col := column conf atom_id in
      let* xyz := unpack3 col in
      let* atom := getitem (atoms self) atom_id in
      let* lines := mdl_atom_loop fm self conf rest in
      Ok (mdl_atom_line fm atom_id atom xyz :: lines)
  end.

(** After a loop over [enumerate(atom_ids, 1)], [i] is the number of the
    atom ids, and unbound when there was none. *)
Definition last_i (atom_ids : list Z) : result nat :=
  match atom_ids with
  | [] => Raise UnboundLocalError
  | _ => Ok (length atom_ids)
  end.

(** The loop over [enumerate(self.bonds)]: [atoms] is the set of the atom
    ids, [all_atoms] is [num_atoms == len(self.atoms)]. *)
Fixpoint mdl_bond_loop (all_atoms : bool) (atoms : gset Z) (bonds : list Bond)
    (bond_idx : nat) (bond_lines : list string) : list string :=
  match bonds with
  | [] => bond_lines
  | bond :: rest =>
      if bool_decide (Z.of_nat (atom1 bond) ∈ atoms)
         && bool_decide (Z.of_nat (atom2 bond) ∈ atoms)
      then
        let bond_id := if all_atoms then bond_idx else length bond_lines in
        mdl_bond_loop all_atoms atoms rest (S bond_idx)
                      (bond_lines ++ [mdl_bond_line bond_id bond])
      else mdl_bond_loop all_atoms atoms rest (S bond_idx) bond_lines
  end.

(** What [to_mdl_mol_block] has collected when it comes to its [return]. *)
Record mdl_parts : Type := {
  num_atoms : nat;
  atom_lines : list string;
  bond_lines : list string
}.

Definition to_mdl_parts (fm : formats) (self : Molecule) (atom_ids : option (list Z))
    (conformer_id : Z) : result mdl_parts :=
  let atom_ids := resolve_atom_ids self atom_ids in
  let* conf := getitem (_conformers self) conformer_id in
  let* atom_lines := mdl_atom_loop fm self conf atom_ids in
  let* num_atoms := last_i atom_ids in
  let all_atoms := Nat.eqb num_atoms (length (atoms self)) in
  Ok {| num_atoms := num_atoms;
        atom_lines := atom_lines;
        bond_lines := mdl_bond_loop all_atoms (list_to_set atom_ids) (bonds self) 0 [] |}.

(** The string that is returned. *)
Definition mdl_block (p : mdl_parts) : string :=
  String.concat ""
    [nl;
     "     RDKit          3D"; nl;
     nl;
     "  0  0  0  0  0  0  0  0  0  0999 V3000"; nl;
     "M  V30 BEGIN CTAB"; nl;
     "M  V30 COUNTS "; pretty (num_atoms p); " "; pretty (length (bond_lines p));
       " 0 0 0"; nl;
     "M  V30 BEGIN ATOM"; nl;
     String.concat "" (atom_lines p);
     "M  V30 END ATOM"; nl;
     "M  V30 BEGIN BOND"; nl;
     String.concat "" (bond_lines p);
     "M  V30 END BOND"; nl;
     "M  V30 END CTAB"; nl;
     "M  END"; nl;
     nl;
     "$$$$"; nl]%string.

(** [Molecule.to_mdl_mol_block] *)
Definition to_mdl_mol_block (fm : formats) (self : Molecule)
    (atom_ids : option (list Z)) (conformer_id : Z) : result string :=
  let* p := to_mdl_parts fm self atom_ids conformer_id in
  Ok (mdl_block p).

(** The files, by their path. *)
Definition files : Type := gmap string string.

(** [with open(path, 'w') as f]: the file is there and empty from the
    moment it is opened. *)
Definition open_w (path : string) (fs : files) : files := <[path := ""%string]> fs.

(** [Molecule._write_mdl_mol_file]: the file is opened, then the block is
    made, then it is written. *)
Definition _write_mdl_mol_file (fm : formats) (self : Molecule) (path : string)
    (atom_ids : option (list Z)) (conformer_id : Z) (fs : files)
    : result unit * files :=
  let fs := open_w path fs in
  match to_mdl_mol_block fm self atom_ids conformer_id with
  | Ok block => (Ok tt, <[path := block]> fs)
  | Raise e => (Raise e, fs)
  end.

(** [f'{symbol} {x:f} {y:f} {z:f}\n'] *)
Definition xyz_line (fm : formats) (atom : Atom) (xyz : float * float * float) : string :=
  let '(x, y, z) := xyz in
  String.concat ""
    [symbol atom; " "; format_f fm x; " "; format_f fm y; " "; format_f fm z; nl]%string.

Fixpoint xyz_loop (fm : formats) (self : Molecule) (conf : matrix)
    (atom_ids : list Z) : result (list string) :=
  match atom_ids with
  | [] => Ok []
  | atom_id :: rest =>
      let* col := column conf atom_id in
      let* xyz := unpack3 col in
      let* atom := getitem (atoms self) atom_id in
      let* lines := xyz_loop fm self conf rest in
      Ok (xyz_line fm atom xyz :: lines)
  end.

(** What [_write_xyz_file] writes: [content[0] = f'{i}\n\n'], then the
    atom lines. *)
Definition xyz_content (fm : formats) (self : Molecule) (atom_ids : option (list Z))
    (conformer_id : Z) : result (list string) :=
  let atom_ids := resolve_atom_ids self atom_ids in
  let* conf := getitem (_conformers self) conformer_id in
  let* lines := xyz_loop fm self conf atom_ids in
  let* i := last_i atom_ids in
  Ok (String.concat "" [pretty i; nl; nl] :: lines).

(** [Molecule._write_xyz_file]: the file is opened when the content is
    complete. *)
Definition _write_xyz_file (fm : formats) (self : Molecule) (path : string)
    (atom_ids : option (list Z)) (conformer_id : Z) (fs : files)
    : result unit * files :=
  match xyz_content fm self atom_ids conformer_id with
  | Ok content => (Ok tt, <[path := String.concat "" content]> (open_w path fs))
  | Raise e => (Raise e, fs)
  end.

(** [Molecule.write]; [_write_pdb_file] asks for [bond.atom1.id] and for
    the [str] of a float, and is taken as it comes. *)
Definition write
    (_write_pdb_file : Molecule -> string -> option (list Z) -> Z -> files
                       -> result unit * files)
    (fm : formats) (self : Molecule) (path : string) (atom_ids : option (list Z))
    (conformer_id : Z) (fs : files) : result unit * files :=
  let ext := snd (os_path_splitext path) in
  if String.eqb ext ".mol" then _write_mdl_mol_file fm self path atom_ids conformer_id fs
  else if String.eqb ext ".sdf" then
    _write_mdl_mol_file fm self path atom_ids conformer_id fs
  else if String.eqb ext ".xyz" then _write_xyz_file fm self path atom_ids conformer_id fs
  else if String.eqb ext ".pdb" then _write_pdb_file self path atom_ids conformer_id fs
  else (Raise KeyError, fs).

(** The bonds of [bonds] whose two atoms are among [atom_ids], each with
    its index in [bonds] counted from [from]. *)
Definition selected_bonds (atom_ids : list Z) (bonds : list Bond) (from : nat)
    : list (nat * Bond) :=
  filter (fun ib => Z.of_nat (atom1 (snd ib)) ∈ atom_ids
                    /\ Z.of_nat (atom2 (snd ib)) ∈ atom_ids)
         (zip (seq from (length bonds)) bonds).

(** A stand-in for the formats, under which every number prints as zero,
    and a chain of three carbon atoms. *)
Definition zeros : formats := {|
  format_4f := fun _ => "0.0000"%string;
  format_f := fun _ => "0.000000"%string
|}.

Definition propane_carbons : Molecule := {|
  atoms := [carbon; carbon; carbon];
  bonds := [{| atom1 := 0; atom2 := 1; order := 1 |};
            {| atom1 := 1; atom2 := 2; order := 1 |}];
  _conformers := [[[0; 1; 2]; [0; 0; 0]; [0; 0; 0]]%float]
|}.

Definition no_pdb (self : Molecule) (path : string) (atom_ids : option (list Z))
    (conformer_id : Z) (fs : files) : result unit * files := (Raise AttributeError, fs).

End MolWrite.

(* ===================================================================== *)
(** * Facts about Python results and numpy arrays                          *)
(* ===================================================================== *)

Module PythonFacts.
Import Python.

Lemma bind_Ok {A B : Type} (a : A) (k : A -> result B) : bind (Ok a) k = k a.
Proof. reflexivity. Qed.

Lemma bind_Ok_inv {A B : Type} (r : result A) (k : A -> result B) (b : B) :
  bind r k = Ok b -> exists a, r = Ok a /\ k a = Ok b.
Proof. destruct r as [a|e]; simpl; [eauto | discriminate]. Qed.

Lemma for_each_length {A B : Type} (f : A -> result B) (xs : list A) (ys : list B) :
  for_each f xs = Ok ys -> length ys = length xs.
Proof.
  revert ys. induction xs as [|x xs IH]; intros ys H; simpl in H.
  - by inversion H.
  - apply bind_Ok_inv in H as (y & _ & H).
    apply bind_Ok_inv in H as (ys' & Hys & H).
    inversion H; subst. simpl. f_equal. by apply IH.
Qed.

Lemma for_each_Forall {A B : Type} (P : B -> Prop) (f : A -> result B)
    (xs : list A) (ys : list B) :
  (forall x y, f x = Ok y -> P y) -> for_each f xs = Ok ys -> Forall P ys.
Proof.
  intros Hf. revert ys. induction xs as [|x xs IH]; intros ys H; simpl in H.
  - inversion H. constructor.
  - apply bind_Ok_inv in H as (y & Hy & H).
    apply bind_Ok_inv in H as (ys' & Hys & H).
    inversion H; subst. constructor; eauto.
Qed.

Lemma py_index_lt (len : nat) (i : Z) (k : nat) :
  py_index len i = Ok k -> k < len.
Proof.
  unfold py_index. intros H.
  destruct (0 <=? i)%Z eqn:H0.
  - destruct (i <? Z.of_nat len)%Z eqn:H1; inversion H; subst. lia.
  - destruct (- Z.of_nat len <=? i)%Z eqn:H1; inversion H; subst. lia.
Qed.

Lemma getitem_Ok_inv {A : Type} (l : list A) (i : Z) (x : A) :
  getitem l i = Ok x -> exists k, py_index (length l) i = Ok k /\ l !! k = Some x.
Proof.
  unfold getitem. intros H. apply bind_Ok_inv in H as (k & Hk & H).
  exists k. split; [done|]. destruct (l !! k); by inversion H.
Qed.

Lemma getitem_of_lookup {A : Type} (l : list A) (i : Z) (k : nat) (x : A) :
  py_index (length l) i = Ok k -> l !! k = Some x -> getitem l i = Ok x.
Proof. unfold getitem. intros Hk Hl. rewrite Hk. simpl. by rewrite Hl. Qed.

End PythonFacts.

Module NumpyFacts.
Import Python Numpy PythonFacts.

Lemma take_columns_row_lengths (m sel : matrix) (ids : list Z) :
  take_columns m ids = Ok sel -> Forall (fun row => length row = length ids) sel.
Proof.
  apply for_each_Forall. intros row r. apply for_each_length.
Qed.

(** Folding every row from its own start value is folding the columns from
    the vector of the start values: the reduction along [axis=1] of a
    [(rows, k)] array, read per point. *)
Lemma fold_rows_columns (f : float -> float -> float) (k : nat) :
  forall (m : matrix) (acc : vector),
    Forall (fun row => length row = k) m ->
    length acc = length m ->
    zip_with (fun a row => fold_left f row a) acc m
    = fold_left (zip_with f) (columns k m) acc.
Proof.
  induction k as [|k IH]; intros m acc Hm Hlen; simpl.
  - revert acc Hlen. induction Hm as [|row m Hrow Hm IHm]; intros [|a acc] Hlen;
      simpl in *; try done.
    apply nil_length_inv in Hrow. subst. f_equal. apply IHm. lia.
  - rewrite <- IH.
    + clear IH. revert acc Hlen.
      induction Hm as [|row m Hrow Hm IHm]; intros [|a acc] Hlen; simpl in *; try done.
      destruct row as [|x row]; [done|]. simpl. f_equal. apply IHm. lia.
    + clear -Hm. induction Hm as [|row m Hrow Hm IHm]; simpl; constructor; [|done].
      destruct row; simpl in *; lia.
    + rewrite length_zip_with, !length_map. lia.
Qed.

Lemma columns_length (k : nat) (m : matrix) : length (columns k m) = k.
Proof. revert m. induction k as [|k IH]; intros m; simpl; [done|]. by rewrite IH. Qed.

Lemma map_np_sum_columns (k : nat) (m : matrix) :
  Forall (fun row => length row = k) m ->
  map np_sum m
  = fold_left (zip_with PrimFloat.add) (columns k m) (replicate (length m) 0%float).
Proof.
  intros Hm. rewrite <- fold_rows_columns; [|done|by rewrite length_replicate].
  clear Hm. induction m as [|row m IH]; simpl; [done|]. by rewrite IH.
Qed.


End NumpyFacts.

(* ===================================================================== *)
(** * Facts about the molecule's geometry queries and rotations            *)
(* ===================================================================== *)

Module MolFacts.
Import Python Numpy Mol PythonFacts NumpyFacts.

Lemma get_atom_coords_inv (self : Molecule) (atom_ids : option (list Z))
    (cid : Z) (pts : list vector) :
  get_atom_coords self atom_ids cid = Ok pts ->
  exists conf sel,
    getitem (_conformers self) cid = Ok conf
    /\ take_columns conf (resolve_atom_ids self atom_ids) = Ok sel
    /\ pts = columns (length (resolve_atom_ids self atom_ids)) sel.
Proof.
  unfold get_atom_coords. intros H.
  apply bind_Ok_inv in H as (conf & Hconf & H).
  apply bind_Ok_inv in H as (sel & Hsel & H).
  inversion H. eauto.
Qed.



Lemma take_columns_nil (conf : matrix) :
  take_columns conf [] = Ok (map (fun _ => []) conf).
Proof.
  unfold take_columns. induction conf as [|row conf IH]; simpl; [done|].
  by rewrite IH.
Qed.

Lemma add_to_rows_back (conf moved : matrix) (origin : vector) :
  add_to_rows conf (neg origin) = Ok moved ->
  add_to_rows moved origin = Ok (restored conf origin).
Proof.
  unfold add_to_rows, neg. rewrite length_map.
  destruct (Nat.eqb (length conf) (length origin)) eqn:Hlen; [|discriminate].
  intros H. inversion H; subst; clear H.
  rewrite length_zip_with, length_map.
  apply Nat.eqb_eq in Hlen. rewrite <- Hlen, Nat.min_id, Nat.eqb_refl. f_equal.
  unfold restored. clear Hlen. revert origin.
  induction conf as [|row conf IH]; intros [|o origin]; simpl; try done.
  f_equal; [|apply IH]. rewrite map_map. reflexivity.
Qed.

Lemma apply_displacement_back (self moved : Molecule) (origin : vector) (cid : Z)
    (conf : matrix) :
  getitem (_conformers self) cid = Ok conf ->
  apply_displacement self (neg origin) cid = Ok moved ->
  exists k,
    py_index (length (_conformers self)) cid = Ok k
    /\ apply_displacement moved origin cid
       = Ok (set_conformers self (<[k:=restored conf origin]> (_conformers self))).
Proof.
  intros Hconf Hmoved.
  apply getitem_Ok_inv in Hconf as (k & Hk & Hlook).
  exists k. split; [done|].
  unfold apply_displacement in Hmoved.
  rewrite (getitem_of_lookup _ _ _ _ Hk Hlook) in Hmoved. simpl in Hmoved.
  apply bind_Ok_inv in Hmoved as (m1 & Hm1 & Hmoved).
  unfold setitem in Hmoved. rewrite Hk in Hmoved. simpl in Hmoved.
  inversion Hmoved; subst; clear Hmoved.
  unfold apply_displacement. simpl.
  assert (Hk' : py_index (length (<[k:=m1]> (_conformers self))) cid = Ok k)
    by (by rewrite length_insert).
  rewrite (getitem_of_lookup _ _ _ m1 Hk').
  2: { apply list_lookup_insert_eq. by apply py_index_lt in Hk. }
  simpl. rewrite (add_to_rows_back _ _ _ Hm1). simpl.
  unfold setitem. rewrite Hk'. simpl.
  by rewrite list_insert_insert_eq.
Qed.



(** With no atom selected there are no corners: the reduction of a
    zero-size array raises in numpy. *)
Example get_maximum_diameter_of_nothing :
  get_maximum_diameter square (Some []) 0 = Raise ValueError.
Proof. reflexivity. Qed.

(** C10: for a non-empty selection [get_centroid] divides by the positive
    number of selected atoms and returns the arithmetic mean of their
    positions; [get_center_of_mass] with a positive total mass divides by a
    non-zero number; an explicitly passed empty selection makes both divide
    zero by zero (the float64 division gives nan, nothing is raised). *)
Theorem get_centroid_is_mean (self : Molecule) (atom_ids : option (list Z))
    (cid : Z) (conf : matrix) (pts : list vector) :
  getitem (_conformers self) cid = Ok conf ->
  get_atom_coords self atom_ids cid = Ok pts ->
  pts <> [] ->
  (get_centroid self atom_ids cid = Ok (arithmetic_mean (length conf) pts)
   /\ length pts = length (resolve_atom_ids self atom_ids)
   /\ 0 < length pts)
  /\ (forall (center : ndvalue) (total : float),
        center_of_mass_loop self (zip (resolve_atom_ids self atom_ids) pts)
                            (Scalar 0%float) 0%float = Ok (center, total) ->
        PrimFloat.ltb 0 total = true ->
        get_center_of_mass self atom_ids cid = Ok (np_divide center total)
        /\ total <> 0%float /\ total <> (-0)%float)
  /\ get_centroid self (Some []) cid = Ok (map (fun _ => (0 / 0)%float) conf)
  /\ get_center_of_mass self (Some []) cid = Ok (Scalar (0 / 0)%float).
Proof.
  intros Hconf Hpts Hne.
  pose proof Hpts as Hinv.
  apply get_atom_coords_inv in Hinv as (conf' & sel & Hconf' & Hsel & Heq).
  rewrite Hconf in Hconf'. inversion Hconf'; subst conf'; clear Hconf'.
  assert (Hlen : length pts = length (resolve_atom_ids self atom_ids))
    by (subst pts; apply columns_length).
  repeat split.
  - unfold get_centroid. rewrite Hconf. simpl. rewrite Hsel. simpl.
    unfold arithmetic_mean. rewrite Hlen. do 2 f_equal.
    rewrite (map_np_sum_columns (length (resolve_atom_ids self atom_ids)) sel).
    + unfold take_columns in Hsel. apply for_each_length in Hsel.
      rewrite Hsel. by subst pts.
    + by apply (take_columns_row_lengths conf).
  - done.
  - destruct pts; [done|simpl; lia].
  - unfold get_center_of_mass.
    destruct (resolve_atom_ids self atom_ids) as [|i ids] eqn:Hids.
    { destruct pts; [done|discriminate]. }
    replace (get_atom_coords self (Some (i :: ids)) cid) with (Ok pts).
    2: { rewrite <- Hpts. unfold get_atom_coords. simpl. by rewrite Hids. }
    rewrite bind_Ok. rewrite H. reflexivity.
  - intros ->. discriminate.
  - intros ->. discriminate.
  - unfold get_centroid. simpl. rewrite Hconf. simpl.
    rewrite take_columns_nil. simpl. f_equal.
    rewrite !map_map. reflexivity.
Qed.

Lemma get_centroid_is_mean_witness :
  get_centroid square (Some [0; 3]%Z) 0 = Ok [0; 0; 0]%float
  /\ get_centroid square (Some []) 0 = Ok [nan; nan; nan].
Proof.
  pose proof (get_centroid_is_mean square (Some [0; 3]%Z) 0
                [[-50; -50; 50; 50]; [50; -50; 50; -50]; [0; 0; 0; 0]]%float
                [[-50; 50; 0]; [50; -50; 0]]%float
                eq_refl eq_refl ltac:(discriminate)) as [[H _] [_ [H0 _]]].
  split; [exact H | exact H0].
Defined.

Lemma set_conformers_same (self : Molecule) :
  set_conformers self (_conformers self) = self.
Proof. by destruct self. Qed.

(** C6, as the code has it: a [start] with a non-finite component returns
    the molecule untouched; a finite [start] whose projection on the plane
    orthogonal to [axis] passes the [allclose] test against zero is not
    rotated, the conformer is shifted by [-origin] and back by [origin], so
    every coordinate [x] of row [r] becomes [(x + -origin[r]) + origin[r]],
    the other conformers, the atoms and the bonds stay, and the molecule is
    the same whenever that round trip gives back every coordinate. *)
Theorem degenerate_rotation_restores (u : utilities) (self : Molecule)
    (start target axis origin : vector) (cid : Z) :
  (forallb isfinite start = false ->
   apply_rotation_to_minimize_theta u self start target axis origin cid = Ok self)
  /\ (forall (conf : matrix) (t tstart : vector),
        forallb isfinite start = true ->
        getitem (_conformers self) cid = Ok conf ->
        length conf = length origin ->
        matvec (rotation_matrix u axis z_axis) start = Ok t ->
        xy_part t = Ok tstart ->
        allclose tstart zero3 1e-8 = true ->
        exists k,
          py_index (length (_conformers self)) cid = Ok k
          /\ apply_rotation_to_minimize_theta u self start target axis origin cid
             = Ok (set_conformers self (<[k:=restored conf origin]> (_conformers self)))
          /\ (restored conf origin = conf ->
              apply_rotation_to_minimize_theta u self start target axis origin cid
              = Ok self)).
Proof.
  split.
  - intros Hfin. unfold apply_rotation_to_minimize_theta. by rewrite Hfin.
  - intros conf t tstart Hfin Hconf Hshape Ht Htstart Hclose.
    assert (Hmoved : exists moved, apply_displacement self (neg origin) cid = Ok moved).
    { unfold apply_displacement. rewrite Hconf. simpl.
      unfold add_to_rows, neg. rewrite length_map, Hshape, Nat.eqb_refl. simpl.
      apply getitem_Ok_inv in Hconf as (k & Hk & _).
      unfold setitem. rewrite Hk. simpl. eauto. }
    destruct Hmoved as (moved & Hmoved).
    destruct (apply_displacement_back self moved origin cid conf Hconf Hmoved)
      as (k & Hk & Hback).
    assert (Hrun : apply_rotation_to_minimize_theta u self start target axis origin cid
                   = Ok (set_conformers self
                           (<[k:=restored conf origin]> (_conformers self)))).
    { unfold apply_rotation_to_minimize_theta. rewrite Hfin. simpl negb. cbv iota.
      rewrite Hmoved, bind_Ok, Ht, bind_Ok, Htstart, bind_Ok, Hclose. exact Hback. }
    exists k. repeat split; [done..|].
    intros Hsame. rewrite Hrun, Hsame. f_equal.
    apply getitem_Ok_inv in Hconf as (k' & Hk' & Hlook).
    rewrite Hk in Hk'. inversion Hk'; subst k'.
    rewrite list_insert_id by done. apply set_conformers_same.
Qed.

Lemma degenerate_rotation_restores_witness :
  apply_rotation_to_minimize_theta identity_kernel square [nan; 0; 1]%float
    [1; 0; 0]%float z_axis [1; 2; 3]%float 0 = Ok square
  /\ apply_rotation_to_minimize_theta identity_kernel square z_axis
       [1; 0; 0]%float z_axis zero3 0 = Ok square.
Proof.
  pose proof (degenerate_rotation_restores identity_kernel square [nan; 0; 1]%float
                [1; 0; 0]%float z_axis [1; 2; 3]%float 0) as [Ha _].
  pose proof (degenerate_rotation_restores identity_kernel square z_axis
                [1; 0; 0]%float z_axis zero3 0) as [_ Hb].
  split; [exact (Ha eq_refl)|].
  destruct (Hb [[-50; -50; 50; 50]; [50; -50; 50; -50]; [0; 0; 0; 0]]%float
               z_axis zero3 eq_refl eq_refl eq_refl eq_refl eq_refl eq_refl)
    as (k & _ & _ & Hsame).
  apply Hsame. reflexivity.
Defined.

(** C6 as stated fails in the parallel case: [start] and [axis] both point
    along z, the projection of [start] is exactly zero, the call returns,
    and the x coordinate [2^-70] of the only atom has become [0]:
    [(2^-70 - 1) + 1] is [0] in float64. *)
Lemma parallel_start_moves_positions :
  forallb isfinite z_axis = true
  /\ matvec (rotation_matrix identity_kernel z_axis z_axis) z_axis = Ok z_axis
  /\ xy_part z_axis = Ok zero3
  /\ get_position_matrix speck 0 = Ok [[0x1p-70; 0; 0]%float]
  /\ exists mol' : Molecule,
       apply_rotation_to_minimize_theta identity_kernel speck z_axis
         [1; 0; 0]%float z_axis [1; 0; 0]%float 0 = Ok mol'
       /\ get_position_matrix mol' 0 = Ok [[0; 0; 0]%float]
       /\ mol' <> speck.
Proof.
  repeat split.
  eexists. repeat split.
  - vm_compute. discriminate.
Qed.

End MolFacts.

(* ===================================================================== *)
(** * Facts about the structure-file updates                               *)
(* ===================================================================== *)

Module MolFileFacts.
Import Python Numpy Mol MolFile PythonFacts.




Lemma getitem_nat_lookup {A : Type} (l : list A) (i : nat) (x : A) :
  getitem l (Z.of_nat i) = Ok x -> l !! i = Some x.
Proof.
  intros H. apply getitem_Ok_inv in H as (k & Hk & Hx).
  unfold py_index in Hk.
  destruct (0 <=? Z.of_nat i)%Z eqn:H0; [|apply Z.leb_gt in H0; lia].
  destruct (Z.of_nat i <? Z.of_nat (length l))%Z; inversion Hk; subst.
  by rewrite Nat2Z.id in Hx.
Qed.

(** Every line that the loop accepted names the element of the atom at its
    position. *)
Lemma read_atom_lines_agree (w : externals) (fmt : text_format) (self : Molecule) :
  forall (content : list string) (i : nat) (coords : list (list float)),
    read_atom_lines w fmt self content i = Ok coords ->
    forall (j : nat) (line : string),
      content !! j = Some line ->
      exists atom, atoms self !! (i + j) = Some atom /\ line_agrees w fmt line atom.
Proof.
  induction content as [|line0 content IH]; intros i coords H j line Hj; [done|].
  simpl in H.
  apply bind_Ok_inv in H as ([element cs] & Hunpack & H).
  apply bind_Ok_inv in H as (name & Hname & H).
  apply bind_Ok_inv in H as (atom & Hatom & H). simpl in H.
  destruct (String.eqb name (symbol atom)) eqn:Hsym; [|discriminate]. simpl in H.
  apply bind_Ok_inv in H as (xyz & _ & H).
  apply bind_Ok_inv in H as (more & Hmore & _).
  destruct j as [|j]; simpl in Hj.
  - inversion Hj; subst line0. exists atom. split.
    + rewrite Nat.add_0_r. by apply getitem_nat_lookup.
    + exists element, cs. split; [done|].
      apply String.eqb_eq in Hsym. by rewrite <- Hsym.
  - destruct (IH (S i) more Hmore j line Hj) as (a & Ha & Hagree).
    exists a. split; [|done]. by replace (i + S j) with (S i + j) by lia.
Qed.



Lemma removelast_snoc {A : Type} (x : A) (l : list A) :
  l <> [] -> exists final, x :: l = x :: removelast l ++ [final].
Proof.
  intros Hl. destruct (exists_last Hl) as (l' & final & ->).
  exists final. by rewrite removelast_last.
Qed.





End MolFileFacts.

(* ===================================================================== *)
(** * Facts about the identity cache                                       *)
(* ===================================================================== *)

Module IdentityCacheFacts.
Import Python IdentityCache PythonFacts.

Section Metaclass.
Context {Args Key Attrs : Type}.
Context `{EqDecision Key} `{Countable Key} `{EqDecision Args} `{Countable Args}.

Implicit Types (cls : class Args Key Attrs) (h : heap Args Key Attrs).

(** A key that is in the cache is returned as it is: no object is made,
    [__init__] does not run, the heap stays. *)
Lemma _Cached_call_hit cls (args : Args) h (cached : nat) :
  use_cache cls args = true ->
  _cache h !! _get_key cls args = Some cached ->
  _Cached_call cls args h = Ok (cached, h).
Proof. intros Huse Hin. unfold _Cached_call. by rewrite Huse, Hin. Qed.

(** Without [use_cache] the cache is not looked at: the object is the one
    [type.__call__] makes, with a new identity. *)
Lemma _Cached_call_no_cache cls (args : Args) h :
  use_cache cls args = false ->
  _Cached_call cls args h
  = bind (type_call cls args h)
         (fun oh => Ok (fst oh, set_key (fst oh) (_get_key cls args) (snd oh)))
  /\ forall obj h', _Cached_call cls args h = Ok (obj, h') ->
       obj = length (objects h) /\ objects h !! obj = None.
Proof.
  intros Huse. unfold _Cached_call. rewrite Huse. split; [done|].
  intros obj h' Hcall. unfold type_call in Hcall. simpl in Hcall.
  apply bind_Ok_inv in Hcall as ([o h1] & Hcall & Hret).
  apply bind_Ok_inv in Hcall as (h2 & _ & Hcall).
  inversion Hcall; subst. inversion Hret; subst. simpl.
  split; [done|]. by apply lookup_ge_None.
Qed.

(** [Cached.__call__] of classes/molecular.py stores what it makes: the
    next call with the same arguments returns the same object and changes
    nothing, also across a collection that the object survives. *)
Lemma Cached_call_again cls (args : Args) h (h1 : heap Args Key Attrs) (obj : nat) :
  Cached_call cls args h = Ok (obj, h1) ->
  Cached_call cls args h1 = Ok (obj, h1)
  /\ forall referenced : nat -> bool,
       referenced obj = true ->
       Cached_call cls args (collect referenced h1) = Ok (obj, collect referenced h1).
Proof.
  unfold Cached_call. intros Hcall.
  assert (Hin : __cache h1 !! args = Some obj).
  { destruct (__cache h !! args) as [cached|] eqn:Hlook.
    - by inversion Hcall; subst.
    - apply bind_Ok_inv in Hcall as ([o h2] & _ & Hcall).
      inversion Hcall; subst. simpl. apply lookup_insert_eq. }
  split.
  - by rewrite Hin.
  - intros referenced Href. simpl.
    assert (Hkept : filter (fun kv => referenced (snd kv) = true) (__cache h1) !! args
                    = Some obj)
      by (by apply map_lookup_filter_Some).
    by rewrite Hkept.
Qed.

End Metaclass.

(** C1 (failing input): the subclass [Plain] is constructed twice with the
    same arguments and [use_cache=True], starting from an empty cache.
    [_Cached.__call__] builds two objects, 0 and 1, runs [__init__] twice and
    leaves the cache empty; the two objects have the same attributes and the
    same key.  [Cached.__call__] of classes/molecular.py, on the same class
    and arguments, returns object 0 both times and runs [__init__] once. *)
Theorem use_cache_twice_builds_two_instances :
  (exists h1 h2,
     _Cached_call Plain ("NCCN"%string, true) empty_heap = Ok (0, h1)
     /\ _Cached_call Plain ("NCCN"%string, true) h1 = Ok (1, h2)
     /\ _cache h1 = ∅ /\ _cache h2 = ∅
     /\ init_runs h2 = 2
     /\ objects h2 !! 0 = objects h2 !! 1)
  /\ (exists h1,
        Cached_call Plain ("NCCN"%string, true) empty_heap = Ok (0, h1)
        /\ Cached_call Plain ("NCCN"%string, true) h1 = Ok (0, h1)
        /\ init_runs h1 = 1).
Proof.
  split.
  - eexists _, _. repeat split; reflexivity.
  - eexists. repeat split; reflexivity.
Qed.

(** What does enter an object into [_cache] is [update_cache]: after it,
    the construction with the same arguments returns the first object. *)
Example update_cache_then_hit :
  exists h1 h2,
    _Cached_call Plain ("NCCN"%string, true) empty_heap = Ok (0, h1)
    /\ update_cache 0 h1 = Ok h2
    /\ _Cached_call Plain ("NCCN"%string, true) h2 = Ok (0, h2)
    /\ init_runs h2 = 1.
Proof. eexists _, _. repeat split; reflexivity. Qed.

End IdentityCacheFacts.

(* ===================================================================== *)
(** * Facts about structural units                                         *)
(* ===================================================================== *)

Module UnitsFacts.
Import Python MolFile Units PythonFacts.

Lemma prefix_app (s1 s2 : string) :
  String.prefix s1 s2 = true <-> exists post, s2 = String.append s1 post.
Proof.
  revert s2. induction s1 as [|a s1 IH]; intros s2; simpl.
  - split; [intros _; by exists s2 | by destruct s2].
  - destruct s2 as [|b s2]; simpl.
    + split; [done | intros (post & Hpost); discriminate].
    + destruct (Ascii.ascii_dec a b) as [->|Hne].
      * rewrite IH. split; intros (post & Hpost); exists post; [by subst | by inversion Hpost].
      * split; [done | intros (post & Hpost); inversion Hpost; by subst].
Qed.

(** [contains s sub] says that [sub] occurs in [s]. *)
Lemma contains_occurs (s sub : string) :
  contains s sub = true
  <-> exists pre post, s = String.append pre (String.append sub post).
Proof.
  induction s as [|c s IH]; cbn [contains].
  - rewrite orb_false_r, prefix_app. split.
    + intros (post & Hpost). by exists ""%string, post.
    + intros (pre & post & Hs). destruct pre; simpl in Hs; [by exists post | discriminate].
  - rewrite orb_true_iff, prefix_app, IH. split.
    + intros [(post & Hpost) | (pre & post & Hs)].
      * by exists ""%string, post.
      * exists (String c pre), post. simpl. by rewrite Hs.
    + intros (pre & post & Hs). destruct pre as [|c' pre]; simpl in Hs.
      * left. by exists post.
      * right. inversion Hs. by exists pre, post.
Qed.

Lemma first_named_Some (table : list FGInfo) (path : string) (g : FGInfo) :
  first_named table path = Some g
  <-> exists before after,
        table = before ++ g :: after
        /\ contains path (name g) = true
        /\ Forall (fun x => contains path (name x) = false) before.
Proof.
  unfold first_named. induction table as [|x table IH]; simpl.
  - split; [done | intros ([|] & after & Heq & _); discriminate].
  - destruct (contains path (name x)) eqn:Hx.
    + split.
      * intros Hg. inversion Hg; subst. by exists [], table.
      * intros (before & after & Heq & Hg & Hbefore).
        destruct before as [|y before]; inversion Heq; subst; [done|].
        inversion Hbefore; congruence.
    + rewrite IH. split.
      * intros (before & after & -> & Hg & Hbefore).
        exists (x :: before), after. repeat split; [done|]. by constructor.
      * intros (before & after & Heq & Hg & Hbefore).
        destruct before as [|y before]; inversion Heq; subst; [congruence|].
        exists before, after. repeat split; [done|]. by inversion Hbefore.
Qed.

Lemma first_named_None (table : list FGInfo) (path : string) :
  first_named table path = None
  <-> Forall (fun x => contains path (name x) = false) table.
Proof.
  unfold first_named. induction table as [|x table IH]; simpl.
  - split; [constructor | done].
  - destruct (contains path (name x)) eqn:Hx.
    + split; [done | intros Hall; inversion Hall; congruence].
    + rewrite IH. split; [by constructor | by inversion 1].
Qed.

Section StructUnit.
Context {Mol : Type}.

(** C8, as the code has it: [func_grp] is the first entry of the table
    whose name occurs in the path of the file, and [None] when no name
    occurs in it; with an entry, and rdkit doing its part, construction
    completes and the unit holds the substituted molecule (the first result
    of the replacement), the file name [root_HEAVY_name_ext], to which that
    molecule is written, and its SMILES string; without an entry the
    initializer raises instead of returning a unit. *)
Theorem func_grp_is_first_named (rd : rdkit Mol) (table : list FGInfo) (path : string) :
  (forall g,
     first_named table path = Some g
     <-> exists before after,
           table = before ++ g :: after
           /\ contains path (name g) = true
           /\ Forall (fun x => contains path (name x) = false) before)
  /\ (first_named table path = None
      <-> Forall (fun x => contains path (name x) = false) table)
  /\ (forall g prist smi pattern replacement heavy others heavy_smi,
        first_named table path = Some g ->
        MolFromMolFile rd path = Ok prist ->
        MolToSmiles rd prist = Ok smi ->
        MolFromSmarts rd (smarts_start g) = Ok pattern ->
        MolFromSmarts rd (smarts_end g) = Ok replacement ->
        ReplaceSubstructs rd prist pattern replacement = Ok (heavy :: others) ->
        MolToMolFile rd heavy (heavy_file_name path g) = Ok tt ->
        MolToSmiles rd heavy = Ok heavy_smi ->
        StructUnit_init rd table path
        = Ok ({| prist_mol_file := path; prist_mol := prist; prist_smiles := smi;
                 func_grp := Some g; heavy_mol := heavy;
                 heavy_mol_file := heavy_file_name path g;
                 heavy_smiles := heavy_smi |},
              (heavy_file_name path g, heavy)))
  /\ (first_named table path = None -> raises (StructUnit_init rd table path)).
Proof.
  split; [intros g; apply first_named_Some|].
  split; [apply first_named_None|].
  split.
  - intros g prist smi pattern replacement heavy others heavy_smi
      Hg Hprist Hsmi Hpat Hrep Hsub Hwrite Hheavy.
    unfold StructUnit_init, _make_atoms_heavy_in_heavy.
    rewrite Hprist, bind_Ok, Hsmi, bind_Ok, Hg. simpl the_func_grp.
    rewrite !bind_Ok, Hpat, bind_Ok. simpl the_func_grp.
    rewrite bind_Ok, Hrep, bind_Ok, Hsub, bind_Ok.
    change (getitem (heavy :: others) 0) with (Ok heavy).
    rewrite bind_Ok. simpl the_func_grp.
    by rewrite bind_Ok, Hwrite, bind_Ok, Hheavy.
  - intros Hnone. unfold raises, StructUnit_init, _make_atoms_heavy_in_heavy.
    rewrite Hnone.
    destruct (MolFromMolFile rd path) as [prist|e]; [|by exists e].
    rewrite bind_Ok.
    destruct (MolToSmiles rd prist) as [smi|e]; [|by exists e].
    by exists AttributeError.
Qed.

End StructUnit.

Lemma func_grp_is_first_named_witness :
  first_named functional_group_list "db/amines/tri_amide.mol"
  = nth_error functional_group_list 2
  /\ exists unit written,
       StructUnit_init toy_rdkit functional_group_list "db/amines/tri_amide.mol"
       = Ok (unit, written)
       /\ heavy_mol_file unit = "db/amines/tri_amide_HEAVY_amide_.mol"%string.
Proof.
  split; [reflexivity|].
  pose proof (func_grp_is_first_named toy_rdkit functional_group_list
                "db/amines/tri_amide.mol") as (_ & _ & Hinit & _).
  eexists _, _. split.
  - refine (Hinit _ _ _ _ _ _ [] _ eq_refl eq_refl eq_refl eq_refl eq_refl eq_refl
                  eq_refl eq_refl).
  - reflexivity.
Defined.

(** C8 as stated fails when no name occurs in the path: every rdkit call
    would succeed, [func_grp] is [None], and the initializer raises
    [AttributeError] where the substitution asks for [func_grp.smarts_start]. *)
Lemma no_functional_group_no_unit :
  first_named functional_group_list "db/misc/benzene.mol" = None
  /\ MolFromMolFile toy_rdkit "db/misc/benzene.mol" = Ok "db/misc/benzene.mol"%string
  /\ StructUnit_init toy_rdkit functional_group_list "db/misc/benzene.mol"
     = Raise AttributeError.
Proof. repeat split. Qed.

End UnitsFacts.

(* ===================================================================== *)
(** * Facts about the mutation engine                                      *)
(* ===================================================================== *)

Module GAFacts.
Import Python GA.

Lemma np_random_choice_nonempty {A : Type} (env : environment) (l : list A)
    (s : op_state) :
  l <> [] ->
  exists x s', np_random_choice env l s = (Returns x, s') /\ x ∈ l.
Proof.
  intros Hl. unfold np_random_choice.
  assert (Hlt : random_index env (draws s) (length l) mod length l < length l).
  { apply Nat.mod_upper_bound. destruct l; simpl; [done|lia]. }
  apply lookup_lt_is_Some_2 in Hlt as [x Hx]. rewrite Hx.
  eexists _, _. split; [done|]. by eapply list_elem_of_lookup_2.
Qed.

(** The function of a well-configured engine is chosen and found. *)
Lemma choose_function (env : environment) (self : Mutation) (s : op_state) :
  well_configured self ->
  exists func_data s' func,
    np_random_choice_p env (funcs self) (weights self) s = (Returns func_data, s')
    /\ getattr (name func_data) = Some func.
Proof.
  intros (Hne & Hall & Hweights).
  destruct (np_random_choice_nonempty env (funcs self) s Hne) as (f & s' & Hf & Hin).
  rewrite Forall_forall in Hall. destruct (Hall f Hin) as [func Hfunc].
  exists f, s', func. split; [|done].
  unfold np_random_choice_p. destruct (weights self) as [p|]; [|done].
  by rewrite Hweights.
Qed.

Ltac step_loop H :=
  match type of H with
  | context [parents_loop ?env ?self ?rest ?r] =>
      let e := fresh "e" in
      let r1 := fresh "r" in
      let log := fresh "log" in
      let Hrest := fresh "Hrest" in
      destruct (parents_loop env self rest r) as [[e r1] log] eqn:Hrest;
      inversion H; subst; clear H
  end.

Ltac enter_loop H Hcfg :=
  let f := fresh "func_data" in
  let s' := fresh "s" in
  let func := fresh "func" in
  let Hchoice := fresh "Hchoice" in
  let Hfunc := fresh "Hfunc" in
  cbn [parents_loop] in H;
  match type of H with
  | context [np_random_choice_p ?env ?fs ?w ?s] =>
      destruct (choose_function env _ s Hcfg) as (f & s' & func & Hchoice & Hfunc);
      rewrite Hchoice, Hfunc in H
  end.


(** Whatever the attempts raise, nothing escapes the loop. *)
Lemma parents_loop_no_escape (env : environment) (self : Mutation) :
  well_configured self ->
  forall (pool : list Cage) (r r' : round) (e : ending) (log : list attempt_record),
    parents_loop env self pool r = (e, r', log) ->
    Forall returns_or_raises log ->
    e = Finished.
Proof.
  intros Hcfg. induction pool as [|parent rest IH]; intros r r' e log Hrun Hlog.
  - by inversion Hrun.
  - enter_loop Hrun Hcfg.
    destruct (func env _ parent (params func_data) s) as [[mutant|ex|] s'] eqn:Hcall.
    + destruct (Z.of_nat (S (num_done r)) =? num_mutations self)%Z.
      * by inversion Hrun.
      * step_loop Hrun. inversion Hlog; subst. eauto.
    + step_loop Hrun. inversion Hlog; subst. eauto.
    + inversion Hrun; subst. inversion Hlog as [|? ? Hbad _]; subst. by destruct Hbad.
Qed.






(** Two cages of equal fitness and unlike structure, and two of like
    structure and unequal fitness: [==] and [same_cage] tell different
    things. *)
Example fitness_is_not_structure :
  Cage_eq (cage 1 "a.mol" "l.mol" "FourPlusSix" (Some 1%float))
          (cage 2 "b.mol" "l.mol" "FourPlusSix" (Some 1%float)) = true
  /\ same_cage (cage 1 "a.mol" "l.mol" "FourPlusSix" (Some 1%float))
               (cage 2 "b.mol" "l.mol" "FourPlusSix" (Some 1%float)) = false
  /\ Cage_eq (cage 1 "a.mol" "l.mol" "FourPlusSix" (Some 1%float))
             (cage 3 "a.mol" "l.mol" "FourPlusSix" (Some 2%float)) = false
  /\ same_cage (cage 1 "a.mol" "l.mol" "FourPlusSix" (Some 1%float))
               (cage 3 "a.mol" "l.mol" "FourPlusSix" (Some 2%float)) = true.
Proof. repeat split. Qed.

Lemma engine_well_configured (f : FunctionData) (k : Z) :
  is_Some (getattr (name f)) -> well_configured (engine [f] k).
Proof. intros Hf. split; [done|]. split; [by repeat constructor | done]. Qed.








(** ** The similarity-ranked swaps *)

Section Similar.
Context (env : environment) (cage : Cage) (database : string).
Context (bb_unit lk_unit : StructUnit).
Hypothesis Hbb : next_unit cage StructUnit3 = Ok bb_unit.
Hypothesis Hlk : next_unit cage StructUnit2 = Ok lk_unit.
Hypothesis Hassemble : forall units top file, assemble env units top file = None.

Lemma similar_bb_next (self : Mutation) (s : op_state) (candidate : string)
    (rest : list string) :
  pending_bb env cage database bb_unit s = candidate :: rest ->
  exists mutant s',
    similar_bb env self cage database s = (Returns mutant, s')
    /\ building_blocks mutant = [unit3 candidate; lk_unit]
    /\ similar_bb_mols s' !! cage_id cage = Some rest.
Proof.
  unfold pending_bb. intros Hpending.
  unfold similar_bb, op_bind, attach_similar_bb, next_similar_bb.
  destruct (similar_bb_mols s !! cage_id cage) as [l|] eqn:Hentry; simpl in Hpending.
  - subst l. rewrite Hentry, Hlk. simpl. unfold new_Cage. rewrite Hassemble.
    eexists _, _. repeat split. simpl. by rewrite lookup_insert_eq.
  - rewrite Hbb. simpl. rewrite lookup_insert_eq, Hpending, Hlk. simpl.
    unfold new_Cage. rewrite Hassemble.
    eexists _, _. repeat split. simpl. by rewrite lookup_insert_eq.
Qed.

Lemma similar_bb_exhausted (self : Mutation) (s : op_state) :
  pending_bb env cage database bb_unit s = [] ->
  fst (similar_bb env self cage database s) = Throws StopIteration.
Proof.
  unfold pending_bb. intros Hpending.
  unfold similar_bb, op_bind, attach_similar_bb, next_similar_bb.
  destruct (similar_bb_mols s !! cage_id cage) as [l|] eqn:Hentry; simpl in Hpending.
  - subst l. by rewrite Hentry.
  - rewrite Hbb. simpl. by rewrite lookup_insert_eq, Hpending.
Qed.

Lemma similar_bb_walk (selfs : list Mutation) :
  forall (s : op_state),
    length selfs = length (pending_bb env cage database bb_unit s) ->
    exists outs s',
      invocations (fun self => similar_bb env self cage database) selfs s = (outs, s')
      /\ map units_of outs
         = map (fun c => Some [unit3 c; lk_unit]) (pending_bb env cage database bb_unit s)
      /\ pending_bb env cage database bb_unit s' = [].
Proof.
  induction selfs as [|self selfs IH]; intros s Hlen.
  - exists [], s. destruct (pending_bb env cage database bb_unit s); [done|discriminate].
  - destruct (pending_bb env cage database bb_unit s) as [|candidate rest] eqn:Hpending;
      [discriminate|].
    destruct (similar_bb_next self s candidate rest Hpending)
      as (mutant & s1 & Hcall & Hunits & Hrest).
    assert (Hpending1 : pending_bb env cage database bb_unit s1 = rest)
      by (unfold pending_bb; by rewrite Hrest).
    destruct (IH s1) as (outs & s' & Hrun & Houts & Hend).
    { rewrite Hpending1. simpl in Hlen. lia. }
    exists (Returns mutant :: outs), s'. simpl. rewrite Hcall, Hrun.
    repeat split; [|done]. simpl. by rewrite Hunits, Houts, Hpending1.
Qed.

Lemma similar_lk_next (self : Mutation) (s : op_state) (candidate : string)
    (rest : list string) :
  pending_lk env cage database lk_unit s = candidate :: rest ->
  exists mutant s',
    similar_lk env self cage database s = (Returns mutant, s')
    /\ building_blocks mutant = [unit2 candidate; bb_unit]
    /\ similar_lk_mols s' !! cage_id cage = Some rest.
Proof.
  unfold pending_lk. intros Hpending.
  unfold similar_lk, op_bind, attach_similar_lk, next_similar_lk.
  destruct (similar_lk_mols s !! cage_id cage) as [l|] eqn:Hentry; simpl in Hpending.
  - subst l. rewrite Hentry, Hbb. simpl. unfold new_Cage. rewrite Hassemble.
    eexists _, _. repeat split. simpl. by rewrite lookup_insert_eq.
  - rewrite Hlk. simpl. rewrite lookup_insert_eq, Hpending, Hbb. simpl.
    unfold new_Cage. rewrite Hassemble.
    eexists _, _. repeat split. simpl. by rewrite lookup_insert_eq.
Qed.

Lemma similar_lk_exhausted (self : Mutation) (s : op_state) :
  pending_lk env cage database lk_unit s = [] ->
  fst (similar_lk env self cage database s) = Throws StopIteration.
Proof.
  unfold pending_lk. intros Hpending.
  unfold similar_lk, op_bind, attach_similar_lk, next_similar_lk.
  destruct (similar_lk_mols s !! cage_id cage) as [l|] eqn:Hentry; simpl in Hpending.
  - subst l. by rewrite Hentry.
  - rewrite Hlk. simpl. by rewrite lookup_insert_eq, Hpending.
Qed.

Lemma similar_lk_walk (selfs : list Mutation) :
  forall (s : op_state),
    length selfs = length (pending_lk env cage database lk_unit s) ->
    exists outs s',
      invocations (fun self => similar_lk env self cage database) selfs s = (outs, s')
      /\ map units_of outs
         = map (fun c => Some [unit2 c; bb_unit]) (pending_lk env cage database lk_unit s)
      /\ pending_lk env cage database lk_unit s' = [].
Proof.
  induction selfs as [|self selfs IH]; intros s Hlen.
  - exists [], s. destruct (pending_lk env cage database lk_unit s); [done|discriminate].
  - destruct (pending_lk env cage database lk_unit s) as [|candidate rest] eqn:Hpending;
      [discriminate|].
    destruct (similar_lk_next self s candidate rest Hpending)
      as (mutant & s1 & Hcall & Hunits & Hrest).
    assert (Hpending1 : pending_lk env cage database lk_unit s1 = rest)
      by (unfold pending_lk; by rewrite Hrest).
    destruct (IH s1) as (outs & s' & Hrun & Houts & Hend).
    { rewrite Hpending1. simpl in Hlen. lia. }
    exists (Returns mutant :: outs), s'. simpl. rewrite Hcall, Hrun.
    repeat split; [|done]. simpl. by rewrite Hunits, Houts, Hpending1.
Qed.

End Similar.

(** C5, as the code has it: the first [similar_bb] on a cage attaches the
    ranking of the database, most similar first, to the cage and uses its
    first file; every later call on the same cage uses the next file, so as
    many calls as the ranking has files return cages built from these files
    in order, each keeping the linker of the parent, and the call after them
    raises [StopIteration]: with three candidates the first three calls
    return the three candidates and the fourth raises.  [similar_lk] does the
    same for the linker. *)
Theorem similar_swaps_walk_the_ranking (env : environment) (cage : Cage)
    (database : string) (bb_unit lk_unit : StructUnit) (selfs : list Mutation)
    (self_after : Mutation) (s : op_state) :
  next_unit cage StructUnit3 = Ok bb_unit ->
  next_unit cage StructUnit2 = Ok lk_unit ->
  (forall units top file, assemble env units top file = None) ->
  (similar_bb_mols s !! cage_id cage = None ->
   (forall self candidate rest,
      similar_molecules env bb_unit database = candidate :: rest ->
      exists mutant s1,
        similar_bb env self cage database s = (Returns mutant, s1)
        /\ building_blocks mutant = [unit3 candidate; lk_unit]
        /\ similar_bb_mols s1 !! cage_id cage = Some rest)
   /\ (length selfs = length (similar_molecules env bb_unit database) ->
       exists outs s',
         invocations (fun self => similar_bb env self cage database) selfs s = (outs, s')
         /\ map units_of outs
            = map (fun c => Some [unit3 c; lk_unit]) (similar_molecules env bb_unit database)
         /\ fst (similar_bb env self_after cage database s') = Throws StopIteration))
  /\ (similar_lk_mols s !! cage_id cage = None ->
      (forall self candidate rest,
         similar_molecules env lk_unit database = candidate :: rest ->
         exists mutant s1,
           similar_lk env self cage database s = (Returns mutant, s1)
           /\ building_blocks mutant = [unit2 candidate; bb_unit]
           /\ similar_lk_mols s1 !! cage_id cage = Some rest)
      /\ (length selfs = length (similar_molecules env lk_unit database) ->
          exists outs s',
            invocations (fun self => similar_lk env self cage database) selfs s = (outs, s')
            /\ map units_of outs
               = map (fun c => Some [unit2 c; bb_unit])
                     (similar_molecules env lk_unit database)
            /\ fst (similar_lk env self_after cage database s') = Throws StopIteration)).
Proof.
  intros Hbb Hlk Hassemble. split; intros Hnew.
  - assert (Hpending : pending_bb env cage database bb_unit s
                       = similar_molecules env bb_unit database)
      by (unfold pending_bb; by rewrite Hnew).
    split.
    + intros self candidate rest Hranking.
      apply (similar_bb_next env cage database bb_unit lk_unit Hbb Hlk Hassemble).
      by rewrite Hpending.
    + intros Hlen. rewrite <- Hpending in *.
      destruct (similar_bb_walk env cage database bb_unit lk_unit Hbb Hlk Hassemble
                  selfs s Hlen) as (outs & s' & Hrun & Houts & Hend).
      exists outs, s'. repeat split; [done..|].
      by apply (similar_bb_exhausted env cage database bb_unit).
  - assert (Hpending : pending_lk env cage database lk_unit s
                       = similar_molecules env lk_unit database)
      by (unfold pending_lk; by rewrite Hnew).
    split.
    + intros self candidate rest Hranking.
      apply (similar_lk_next env cage database bb_unit lk_unit Hbb Hlk Hassemble).
      by rewrite Hpending.
    + intros Hlen. rewrite <- Hpending in *.
      destruct (similar_lk_walk env cage database bb_unit lk_unit Hbb Hlk Hassemble
                  selfs s Hlen) as (outs & s' & Hrun & Houts & Hend).
      exists outs, s'. repeat split; [done..|].
      by apply (similar_lk_exhausted env cage database lk_unit).
Qed.

Lemma similar_swaps_walk_the_ranking_witness :
  exists outs s',
    invocations (fun self => similar_bb lab self parent1 "db")
                [engine [rank_bb] 9; engine [rank_bb] 9; engine [rank_bb] 9] no_state
    = (outs, s')
    /\ map units_of outs
       = map (fun c => Some [unit3 c; unit2 "lks/aldehyde2.mol"])
             ["first.mol"; "second.mol"; "third.mol"]%string
    /\ fst (similar_bb lab (engine [rank_bb] 9) parent1 "db" s') = Throws StopIteration.
Proof.
  destruct (similar_swaps_walk_the_ranking lab parent1 "db"
              (unit3 "bbs/amine3.mol") (unit2 "lks/aldehyde2.mol")
              [engine [rank_bb] 9; engine [rank_bb] 9; engine [rank_bb] 9]
              (engine [rank_bb] 9) no_state eq_refl eq_refl (fun _ _ _ => eq_refl))
    as [Hbb _].
  destruct (Hbb eq_refl) as [_ Hwalk].
  exact (Hwalk eq_refl).
Defined.

(** C5 as stated fails on the third call: the database ranks three
    candidates, the calls are made on the same parent one after the other,
    and the third returns the cage built from the third candidate; it is the
    fourth that raises [StopIteration]. *)
Lemma third_similar_swap_returns_a_cage :
  similar_molecules lab (unit3 "bbs/amine3.mol") "db"
  = ["first.mol"; "second.mol"; "third.mol"]%string
  /\ exists m1 m2 m3 s1 s2 s3,
       similar_bb lab (engine [rank_bb] 9) parent1 "db" no_state = (Returns m1, s1)
       /\ similar_bb lab (engine [rank_bb] 9) parent1 "db" s1 = (Returns m2, s2)
       /\ similar_bb lab (engine [rank_bb] 9) parent1 "db" s2 = (Returns m3, s3)
       /\ map building_blocks [m1; m2; m3]
          = map (fun c => [unit3 c; unit2 "lks/aldehyde2.mol"])
                ["first.mol"; "second.mol"; "third.mol"]%string
       /\ similar_bb lab (engine [rank_bb] 9) parent1 "db" s3
          = (Throws StopIteration, s3).
Proof.
  split; [reflexivity|].
  eexists _, _, _, _, _, _.
  split; [vm_compute; reflexivity|].
  split; [vm_compute; reflexivity|].
  split; [vm_compute; reflexivity|].
  split; vm_compute; reflexivity.
Qed.

(** In a round, the exhausted sequence is one more failed attempt: four
    parents that are the same cage give three mutants and one report, and the
    call returns. *)
Example exhaustion_is_caught_by_the_round :
  exists mutant_pop r log,
    Mutation_call lab (engine [rank_bb] 9) [parent1]
                  [parent1; parent1; parent1; parent1] no_state
    = (Returned mutant_pop, r, log)
    /\ length mutant_pop = 3
    /\ map result_of (drop 3 log) = [Raised StopIteration].
Proof.
  eexists _, _, _. split; [vm_compute; reflexivity|].
  split; vm_compute; reflexivity.
Qed.

End GAFacts.

(* ===================================================================== *)
(** * More facts about the position store                                  *)
(* ===================================================================== *)

Module MolStoreFacts.
Import Python Numpy Mol MolShape PythonFacts NumpyFacts MolFacts.

Lemma py_index_out_of_range (len : nat) (i : Z) :
  (i < - Z.of_nat len \/ Z.of_nat len <= i)%Z <-> py_index len i = Raise IndexError.
Proof.
  unfold py_index. split.
  - intros Hout. destruct (0 <=? i)%Z eqn:H0.
    + apply Z.leb_le in H0.
      destruct (i <? Z.of_nat len)%Z eqn:H1; [apply Z.ltb_lt in H1; lia | done].
    + apply Z.leb_gt in H0.
      destruct (- Z.of_nat len <=? i)%Z eqn:H1; [apply Z.leb_le in H1; lia | done].
  - destruct (0 <=? i)%Z eqn:H0.
    + destruct (i <? Z.of_nat len)%Z eqn:H1; [discriminate|].
      apply Z.ltb_ge in H1. lia.
    + destruct (- Z.of_nat len <=? i)%Z eqn:H1; [discriminate|].
      apply Z.leb_gt in H1. lia.
Qed.

Lemma getitem_out_of_range {A : Type} (l : list A) (i : Z) :
  (i < - Z.of_nat (length l) \/ Z.of_nat (length l) <= i)%Z ->
  getitem l i = Raise IndexError.
Proof.
  intros Hout. unfold getitem.
  by apply py_index_out_of_range in Hout as ->.
Qed.

Lemma getitem_in_range {A : Type} (l : list A) (i : Z) :
  (- Z.of_nat (length l) <= i < Z.of_nat (length l))%Z ->
  exists x, getitem l i = Ok x.
Proof.
  intros Hin. unfold getitem.
  destruct (py_index (length l) i) as [k|e] eqn:Hk.
  - pose proof (py_index_lt _ _ _ Hk) as Hlt.
    apply lookup_lt_is_Some_2 in Hlt as [x Hx]. exists x. simpl. by rewrite Hx.
  - unfold py_index in Hk.
    destruct (0 <=? i)%Z eqn:H0.
    + destruct (i <? Z.of_nat (length l))%Z eqn:H1; [discriminate|].
      apply Z.ltb_ge in H1. lia.
    + destruct (- Z.of_nat (length l) <=? i)%Z eqn:H1; [discriminate|].
      apply Z.leb_gt in H1. lia.
Qed.

(** ** [apply_displacement] *)

Lemma add_to_rows_shape (conf moved : matrix) (d : vector) :
  add_to_rows conf d = Ok moved ->
  Forall2 (fun row row' => length row' = length row) conf moved.
Proof.
  unfold add_to_rows. destruct (Nat.eqb (length conf) (length d)) eqn:Hlen; [|done].
  apply Nat.eqb_eq in Hlen. intros H. inversion H; subst; clear H.
  revert d Hlen. induction conf as [|row conf IH]; intros [|x d] Hlen; simpl in *;
    try discriminate; constructor.
  - by rewrite length_map.
  - apply IH. lia.
Qed.

(** A displacement replaces the one conformer it is asked for by a matrix of
    the same shape; the other conformers, the atoms and the bonds stay, and
    so does the number of conformers. *)
Theorem apply_displacement_one_conformer (self self' : Molecule) (d : vector) (cid : Z) :
  apply_displacement self d cid = Ok self' ->
  atoms self' = atoms self
  /\ bonds self' = bonds self
  /\ length (_conformers self') = length (_conformers self)
  /\ exists k conf conf',
       py_index (length (_conformers self)) cid = Ok k
       /\ _conformers self !! k = Some conf
       /\ _conformers self' !! k = Some conf'
       /\ Forall2 (fun row row' => length row' = length row) conf conf'
       /\ forall j, j <> k -> _conformers self' !! j = _conformers self !! j.
Proof.
  unfold apply_displacement. intros H.
  apply bind_Ok_inv in H as (conf & Hconf & H).
  apply bind_Ok_inv in H as (moved & Hmoved & H).
  apply bind_Ok_inv in H as (confs & Hset & H).
  inversion H; subst; clear H. simpl.
  apply getitem_Ok_inv in Hconf as (k & Hk & Hlook).
  unfold setitem in Hset. rewrite Hk in Hset. inversion Hset; subst; clear Hset.
  repeat split; [by rewrite length_insert|].
  exists k, conf, moved. repeat split; [done..| | |].
  - apply list_lookup_insert_eq. by apply py_index_lt in Hk.
  - by apply (add_to_rows_shape _ _ d).
  - intros j Hj. by apply list_lookup_insert_ne.
Qed.

Lemma apply_displacement_one_conformer_witness :
  exists self',
    apply_displacement square [1; 2; 3]%float (-1) = Ok self'
    /\ length (_conformers self') = 1.
Proof.
  eexists. split; [reflexivity|].
  exact (proj1 (proj2 (proj2 (apply_displacement_one_conformer square _
                                [1; 2; 3]%float (-1) eq_refl)))).
Defined.

(** Every operation that reads [self._conformers[conformer_id]] raises
    [IndexError] for an id outside [-n .. n-1], [n] the number of conformers;
    so they all do on a molecule that has no conformer yet, where only
    [set_position_matrix] without an id adds one.  [get_center_of_mass] with
    an empty selection is the exception: it never looks at the conformers. *)
Theorem missing_conformer_raises (u : utilities) (self : Molecule) (cid : Z)
    (d axis : vector) (theta : float) (atom_ids : option (list Z)) (m : matrix) :
  (cid < - Z.of_nat (length (_conformers self))
   \/ Z.of_nat (length (_conformers self)) <= cid)%Z ->
  apply_displacement self d cid = Raise IndexError
  /\ apply_rotation_about_axis u self theta axis d cid = Raise IndexError
  /\ get_atom_coords self atom_ids cid = Raise IndexError
  /\ get_centroid self atom_ids cid = Raise IndexError
  /\ get_maximum_diameter self atom_ids cid = Raise IndexError
  /\ get_position_matrix self cid = Raise IndexError
  /\ set_centroid self d atom_ids cid = Raise IndexError
  /\ (rectangular m = true -> set_position_matrix self m (Some cid) = Raise IndexError)
  /\ (resolve_atom_ids self atom_ids <> [] ->
      get_center_of_mass self atom_ids cid = Raise IndexError)
  /\ get_center_of_mass self (Some []) cid = Ok (Scalar (0 / 0)%float).
Proof.
  intros Hout.
  pose proof (getitem_out_of_range (_conformers self) cid Hout) as Hget.
  assert (Hdisp : forall v, apply_displacement self v cid = Raise IndexError)
    by (intros v; unfold apply_displacement; by rewrite Hget).
  assert (Hcentroid : get_centroid self atom_ids cid = Raise IndexError)
    by (unfold get_centroid; by rewrite Hget).
  assert (Hcoords : forall ids, get_atom_coords self ids cid = Raise IndexError)
    by (intros ids; unfold get_atom_coords; by rewrite Hget).
  repeat split; try done.
  - unfold apply_rotation_about_axis. by rewrite Hdisp.
  - unfold get_maximum_diameter. by rewrite Hget.
  - unfold get_position_matrix. by rewrite Hget.
  - unfold set_centroid. by rewrite Hcentroid.
  - intros Hrect. unfold set_position_matrix, transpose, setitem. rewrite Hrect. simpl.
    by apply py_index_out_of_range in Hout as ->.
  - intros Hne. unfold get_center_of_mass.
    destruct (resolve_atom_ids self atom_ids) as [|i ids]; [done|].
    by rewrite Hcoords.
Qed.

Lemma missing_conformer_raises_witness :
  get_centroid {| atoms := [carbon]; bonds := []; _conformers := [] |} None 0
  = Raise IndexError.
Proof.
  exact (proj1 (proj2 (proj2 (proj2
    (missing_conformer_raises identity_kernel
       {| atoms := [carbon]; bonds := []; _conformers := [] |} 0 [] [] 0%float None []
       ltac:(simpl; lia)))))).
Defined.

(** ** Transposition *)

Lemma columns_lookup (k : nat) :
  forall (m : matrix) (j : nat),
    j < k -> columns k m !! j = Some (map (fun row => nth j row 0%float) m).
Proof.
  induction k as [|k IH]; intros m j Hj; [lia|].
  destruct j as [|j]; simpl.
  - f_equal. apply map_ext. by intros [|x row].
  - rewrite IH by lia. f_equal. rewrite map_map. apply map_ext.
    intros [|x row]; [by destruct j | done].
Qed.

Lemma columns_row_lengths (k : nat) (m : matrix) :
  Forall (fun col => length col = length m) (columns k m).
Proof.
  revert m. induction k as [|k IH]; intros m; simpl; constructor.
  - by rewrite length_map.
  - specialize (IH (map (@tl float) m)). by rewrite length_map in IH.
Qed.

Lemma rectangular_rows (m : matrix) :
  rectangular m = true <-> Forall (fun row => length row = ncols m) m.
Proof.
  unfold rectangular. rewrite forallb_forall, Forall_forall. split.
  - intros H row Hrow. apply Nat.eqb_eq, H. by apply list_elem_of_In.
  - intros H row Hrow. apply Nat.eqb_eq, H. by apply list_elem_of_In.
Qed.

(** Transposing twice gives the matrix back, when it has a column. *)
Lemma columns_columns (m : matrix) :
  Forall (fun row => length row = ncols m) m ->
  ncols m <> 0 ->
  columns (length m) (columns (ncols m) m) = m.
Proof.
  intros Hrect Hcols.
  apply (nth_ext _ _ [] []); [by rewrite columns_length|].
  rewrite columns_length. intros i Hi.
  rewrite (nth_lookup_Some _ _ _ _ (columns_lookup _ _ i Hi)).
  assert (Hrow : length (nth i m []) = ncols m).
  { rewrite Forall_forall in Hrect. apply Hrect, list_elem_of_In, nth_In, Hi. }
  apply (nth_ext _ _ 0%float 0%float).
  - by rewrite length_map, columns_length.
  - rewrite length_map, columns_length. intros j Hj.
    rewrite (nth_indep _ 0%float (nth i [] 0%float)) by (by rewrite length_map, columns_length).
    rewrite (map_nth (fun col => nth i col 0%float)).
    rewrite (nth_lookup_Some _ _ _ _ (columns_lookup _ _ j Hj)).
    rewrite (nth_indep _ 0%float (nth j [] 0%float)) by (by rewrite length_map).
    by rewrite (map_nth (fun row => nth j row 0%float)).
Qed.

Lemma transpose_transpose (m t : matrix) :
  ncols m <> 0 ->
  transpose m = Ok t ->
  transpose t = Ok m.
Proof.
  unfold transpose. intros Hcols.
  destruct (rectangular m) eqn:Hrect; [|done]. intros H. inversion H; subst; clear H.
  apply rectangular_rows in Hrect.
  assert (Hn : ncols (columns (ncols m) m) = length m).
  { destruct (ncols m) as [|c] eqn:Hc; [done|]. simpl. by rewrite length_map. }
  assert (Hrect' : rectangular (columns (ncols m) m) = true).
  { apply rectangular_rows. rewrite Hn. apply columns_row_lengths. }
  rewrite Hrect', Hn. f_equal. by apply columns_columns.
Qed.

(** ** [set_position_matrix] and [get_position_matrix] *)

Lemma getitem_after_setitem {A : Type} (l l' : list A) (i : Z) (x : A) :
  setitem l i x = Ok l' -> getitem l' i = Ok x.
Proof.
  unfold setitem. intros H. apply bind_Ok_inv in H as (k & Hk & H).
  inversion H; subst; clear H.
  apply (getitem_of_lookup _ _ k); [by rewrite length_insert|].
  apply list_lookup_insert_eq. by apply py_index_lt in Hk.
Qed.

Lemma getitem_appended {A : Type} (l : list A) (x : A) :
  getitem (l ++ [x]) (Z.of_nat (length l)) = Ok x
  /\ getitem (l ++ [x]) (-1) = Ok x.
Proof.
  assert (Hlook : (l ++ [x]) !! length l = Some x).
  { rewrite lookup_app_r by lia. by rewrite Nat.sub_diag. }
  split; apply (getitem_of_lookup _ _ (length l)); try done;
    unfold py_index; rewrite length_app; simpl.
  - destruct (0 <=? Z.of_nat (length l))%Z eqn:H0; [|apply Z.leb_gt in H0; lia].
    destruct (Z.of_nat (length l) <? Z.of_nat (length l + 1))%Z eqn:H1;
      [|apply Z.ltb_ge in H1; lia].
    by rewrite Nat2Z.id.
  - destruct (- Z.of_nat (length l + 1) <=? -1)%Z eqn:H1; [|apply Z.leb_gt in H1; lia].
    f_equal. lia.
Qed.

(** The position matrix that was set is the position matrix that is got,
    from the conformer whose id was given, or, when none was given, from the
    conformer that was added at the end (which is also conformer [-1]).  The
    matrix has a column: a matrix without coordinates does not come back. *)
Theorem position_matrix_round_trip (self self' : Molecule) (m : matrix)
    (conformer_id : option Z) :
  ncols m <> 0 ->
  set_position_matrix self m conformer_id = Ok self' ->
  match conformer_id with
  | Some cid => get_position_matrix self' cid = Ok m
  | None =>
      length (_conformers self') = S (length (_conformers self))
      /\ get_position_matrix self' (Z.of_nat (length (_conformers self))) = Ok m
      /\ get_position_matrix self' (-1) = Ok m
  end.
Proof.
  intros Hcols. unfold set_position_matrix, get_position_matrix. intros H.
  apply bind_Ok_inv in H as (conf & Hconf & H).
  pose proof (transpose_transpose m conf Hcols Hconf) as Hback.
  destruct conformer_id as [cid|].
  - apply bind_Ok_inv in H as (confs & Hset & H). inversion H; subst; clear H.
    simpl. by rewrite (getitem_after_setitem _ _ _ _ Hset).
  - inversion H; subst; clear H. simpl.
    destruct (getitem_appended (_conformers self) conf) as [Hlast Hminus].
    rewrite length_app, Hlast, Hminus. simpl. split; [lia|]. by split.
Qed.

Lemma position_matrix_round_trip_witness :
  exists self',
    set_position_matrix square [[1; 2; 3]; [4; 5; 6]]%float None = Ok self'
    /\ get_position_matrix self' (-1) = Ok [[1; 2; 3]; [4; 5; 6]]%float.
Proof.
  eexists. split; [reflexivity|].
  exact (proj2 (proj2 (position_matrix_round_trip square _ [[1; 2; 3]; [4; 5; 6]]%float
                         None ltac:(discriminate) eq_refl))).
Defined.

(** ** [get_atom_coords] *)

Lemma for_each_lookup {A B : Type} (f : A -> result B) (xs : list A) (ys : list B)
    (j : nat) (x : A) :
  for_each f xs = Ok ys -> xs !! j = Some x ->
  exists y, ys !! j = Some y /\ f x = Ok y.
Proof.
  revert ys j. induction xs as [|x' xs IH]; intros ys j H Hj; [done|].
  simpl in H. apply bind_Ok_inv in H as (y & Hy & H).
  apply bind_Ok_inv in H as (ys' & Hys & H). inversion H; subst; clear H.
  destruct j as [|j]; simpl in *.
  - inversion Hj; subst. eauto.
  - eauto.
Qed.

Lemma take_columns_column (ids : list Z) (j : nat) (id : Z) (n i : nat) :
  ids !! j = Some id ->
  py_index n id = Ok i ->
  forall (conf sel : matrix),
    Forall (fun row => length row = n) conf ->
    take_columns conf ids = Ok sel ->
    map (fun row => nth j row 0%float) sel = map (fun row => nth i row 0%float) conf.
Proof.
  intros Hj Hi. unfold take_columns.
  induction conf as [|row conf IH]; intros sel Hrect H; simpl in H.
  - by inversion H.
  - apply bind_Ok_inv in H as (s & Hs & H).
    apply bind_Ok_inv in H as (sel' & Hsel' & H). inversion H; subst; clear H.
    inversion Hrect as [|? ? Hrow Hrest]; subst. simpl. f_equal; [|by apply IH].
    destruct (for_each_lookup _ _ _ _ _ Hs Hj) as (x & Hx & Hget).
    apply getitem_Ok_inv in Hget as (i' & Hi' & Hrowi).
    rewrite Hi in Hi'. inversion Hi'; subst.
    by rewrite (nth_lookup_Some _ _ _ _ Hx), (nth_lookup_Some _ _ _ _ Hrowi).
Qed.

(** The coordinates [get_atom_coords] yields are rows of the position
    matrix: one per requested atom id, in the order of the ids, the [j]-th
    being row [atom_ids[j]] of [get_position_matrix] (a negative id counting
    from the last atom, an id given twice yielding its row twice). *)
Theorem get_atom_coords_are_position_rows (self : Molecule)
    (atom_ids : option (list Z)) (cid : Z) (pts : list vector) (P : matrix) :
  get_atom_coords self atom_ids cid = Ok pts ->
  get_position_matrix self cid = Ok P ->
  P <> [] ->
  length pts = length (resolve_atom_ids self atom_ids)
  /\ forall (j : nat) (id : Z),
       resolve_atom_ids self atom_ids !! j = Some id ->
       exists p, pts !! j = Some p /\ getitem P id = Ok p.
Proof.
  intros Hpts HP Hne.
  apply get_atom_coords_inv in Hpts as (conf & sel & Hconf & Hsel & ->).
  unfold get_position_matrix in HP. rewrite Hconf in HP. simpl in HP.
  unfold transpose in HP. destruct (rectangular conf) eqn:Hrect; [|done].
  inversion HP; subst; clear HP. apply rectangular_rows in Hrect.
  split; [apply columns_length|].
  intros j id Hj.
  pose proof (lookup_lt_Some _ _ _ Hj) as Hjlt.
  destruct conf as [|row conf]; [done|].
  pose proof Hsel as Hsel0. unfold take_columns in Hsel0. simpl in Hsel0.
  apply bind_Ok_inv in Hsel0 as (s & Hs & _).
  destruct (for_each_lookup _ _ _ _ _ Hs Hj) as (x & _ & Hget).
  apply getitem_Ok_inv in Hget as (i & Hi & _).
  exists (map (fun r => nth i r 0%float) (row :: conf)). split.
  - rewrite (columns_lookup _ _ j Hjlt). f_equal.
    by apply (take_columns_column (resolve_atom_ids self atom_ids) j id (length row) i).
  - apply (getitem_of_lookup _ _ i).
    + by rewrite columns_length.
    + apply columns_lookup. by apply py_index_lt in Hi.
Qed.

Lemma get_atom_coords_are_position_rows_witness :
  exists pts P,
    get_atom_coords square (Some [-1; 0]%Z) 0 = Ok pts
    /\ get_position_matrix square 0 = Ok P
    /\ length pts = 2.
Proof.
  eexists. eexists. split; [reflexivity|]. split; [reflexivity|].
  exact (proj1 (get_atom_coords_are_position_rows square (Some [-1; 0]%Z) 0 _ _
                  eq_refl eq_refl ltac:(discriminate))).
Defined.

(** ** The operations that move a molecule *)

Lemma same_but_conformer_trans (k : nat) (a b c : Molecule) :
  same_but_conformer k a b -> same_but_conformer k b c -> same_but_conformer k a c.
Proof.
  intros (Ha & Hb & Hl & Hj) (Ha' & Hb' & Hl' & Hj').
  split; [congruence|]. split; [congruence|]. split; [congruence|].
  intros j Hne. by rewrite Hj', Hj.
Qed.

Lemma setitem_same (self : Molecule) (cid : Z) (conf : matrix) (confs : list matrix) :
  setitem (_conformers self) cid conf = Ok confs ->
  exists k, py_index (length (_conformers self)) cid = Ok k
            /\ same_but_conformer k self (set_conformers self confs).
Proof.
  unfold setitem. intros H. apply bind_Ok_inv in H as (k & Hk & H).
  inversion H; subst; clear H. exists k. split; [done|].
  split; [done|]. split; [done|]. simpl. split; [by rewrite length_insert|].
  intros j Hne. by apply list_lookup_insert_ne.
Qed.

Lemma apply_displacement_same (self self' : Molecule) (d : vector) (cid : Z) :
  apply_displacement self d cid = Ok self' ->
  exists k, py_index (length (_conformers self)) cid = Ok k
            /\ same_but_conformer k self self'.
Proof.
  unfold apply_displacement. intros H.
  apply bind_Ok_inv in H as (conf & _ & H).
  apply bind_Ok_inv in H as (moved & _ & H).
  apply bind_Ok_inv in H as (confs & Hset & H).
  inversion H; subst; clear H. by apply setitem_same in Hset.
Qed.

Lemma rotate_conformer_same (self self' : Molecule) (rot : matrix) (origin : vector)
    (cid : Z) :
  bind (getitem (_conformers self) cid)
       (fun conf =>
          bind (matmul rot conf)
               (fun rotated =>
                  bind (setitem (_conformers self) cid rotated)
                       (fun confs =>
                          apply_displacement (set_conformers self confs) origin cid)))
  = Ok self' ->
  exists k, py_index (length (_conformers self)) cid = Ok k
            /\ same_but_conformer k self self'.
Proof.
  intros H.
  apply bind_Ok_inv in H as (conf & _ & H).
  apply bind_Ok_inv in H as (rotated & _ & H).
  apply bind_Ok_inv in H as (confs & Hset & H).
  apply setitem_same in Hset as (k & Hk & Hsame).
  apply apply_displacement_same in H as (k' & Hk' & Hsame').
  destruct Hsame as (Ha & Hb & Hl & Hj). rewrite Hl, Hk in Hk'.
  inversion Hk'; subst k'. exists k. split; [done|].
  by apply (same_but_conformer_trans k self (set_conformers self confs)).
Qed.

(** The operations that move or replace the coordinates of a conformer
    leave everything else as it is: the atoms, the bonds, the number of
    conformers and every other conformer.  This holds for a rotation about
    an axis, for [set_centroid], for [set_position_matrix] with a conformer
    id and for [apply_rotation_to_minimize_theta] (which returns the
    molecule as it is when [start] is not finite, without looking at the
    conformer id).  [set_position_matrix] without an id keeps every
    conformer and adds one at the end. *)
Theorem moves_touch_one_conformer (u : utilities) (self self' : Molecule) (cid : Z) :
  (forall theta axis origin,
     apply_rotation_about_axis u self theta axis origin cid = Ok self' ->
     exists k, py_index (length (_conformers self)) cid = Ok k
               /\ same_but_conformer k self self')
  /\ (forall position atom_ids,
        set_centroid self position atom_ids cid = Ok self' ->
        exists k, py_index (length (_conformers self)) cid = Ok k
                  /\ same_but_conformer k self self')
  /\ (forall m,
        set_position_matrix self m (Some cid) = Ok self' ->
        exists k, py_index (length (_conformers self)) cid = Ok k
                  /\ same_but_conformer k self self')
  /\ (forall start target axis origin,
        apply_rotation_to_minimize_theta u self start target axis origin cid = Ok self' ->
        self' = self
        \/ exists k, py_index (length (_conformers self)) cid = Ok k
                     /\ same_but_conformer k self self')
  /\ (forall m,
        set_position_matrix self m None = Ok self' ->
        atoms self' = atoms self
        /\ bonds self' = bonds self
        /\ length (_conformers self') = S (length (_conformers self))
        /\ forall j, j < length (_conformers self) ->
                     _conformers self' !! j = _conformers self !! j).
Proof.
  split; [|split; [|split; [|split]]].
  - intros theta axis origin H. unfold apply_rotation_about_axis in H.
    apply bind_Ok_inv in H as (self1 & Hfirst & H).
    apply apply_displacement_same in Hfirst as (k & Hk & Hsame).
    apply rotate_conformer_same in H as (k' & Hk' & Hsame').
    destruct Hsame as (Ha & Hb & Hl & Hj). rewrite Hl, Hk in Hk'.
    inversion Hk'; subst k'. exists k. split; [done|].
    by apply (same_but_conformer_trans k self self1).
  - intros position atom_ids H. unfold set_centroid in H.
    apply bind_Ok_inv in H as (centroid & _ & H).
    by apply apply_displacement_same in H.
  - intros m H. unfold set_position_matrix in H.
    apply bind_Ok_inv in H as (conf & _ & H).
    apply bind_Ok_inv in H as (confs & Hset & H). inversion H; subst; clear H.
    by apply setitem_same in Hset.
  - intros start target axis origin H. unfold apply_rotation_to_minimize_theta in H.
    destruct (negb (forallb isfinite start)); [left; by inversion H|]. right.
    apply bind_Ok_inv in H as (self1 & Hfirst & H).
    apply apply_displacement_same in Hfirst as (k & Hk & Hsame).
    assert (Hlen : length (_conformers self1) = length (_conformers self))
      by (by destruct Hsame as (_ & _ & Hl & _)).
    exists k. split; [done|].
    apply (same_but_conformer_trans k self self1); [done|].
    apply bind_Ok_inv in H as (tstart & _ & H).
    apply bind_Ok_inv in H as (tstart' & _ & H).
    destruct (allclose tstart' zero3 1e-8).
    + apply apply_displacement_same in H as (k' & Hk' & Hsame').
      rewrite Hlen, Hk in Hk'. by inversion Hk'; subst k'.
    + apply bind_Ok_inv in H as (tend & _ & H).
      apply bind_Ok_inv in H as (tend' & _ & H).
      apply bind_Ok_inv in H as (s1 & _ & H).
      apply bind_Ok_inv in H as (s2 & _ & H).
      apply rotate_conformer_same in H as (k' & Hk' & Hsame').
      rewrite Hlen, Hk in Hk'. by inversion Hk'; subst k'.
  - intros m H. unfold set_position_matrix in H.
    apply bind_Ok_inv in H as (conf & _ & H). inversion H; subst; clear H. simpl.
    rewrite length_app. simpl. split; [done|]. split; [done|]. split; [lia|].
    intros j Hj. by apply lookup_app_l.
Qed.

Lemma moves_touch_one_conformer_witness :
  exists self',
    set_centroid square [1; 1; 1]%float None (-1) = Ok self'
    /\ same_but_conformer 0 square self'.
Proof.
  eexists. split; [reflexivity|].
  destruct (proj1 (proj2 (moves_touch_one_conformer identity_kernel square _ (-1)))
              [1; 1; 1]%float None eq_refl) as (k & Hk & Hsame).
  inversion Hk; subst k. exact Hsame.
Defined.

End MolStoreFacts.

(* ===================================================================== *)
(** * More facts about the text readers                                    *)
(* ===================================================================== *)

Module MolFileReadFacts.
Import Python Numpy Mol MolFile Samples PythonFacts MolFileFacts MolStoreFacts.

Lemma for_each_ext {A B : Type} (f g : A -> result B) (xs : list A) :
  (forall x, f x = g x) -> for_each f xs = for_each g xs.
Proof. intros Hfg. induction xs as [|x xs IH]; simpl; [done|]. by rewrite Hfg, IH. Qed.

Lemma read_coord_xyz (w : externals) (s : string) : read_coord w Xyz s = py_float w s.
Proof. unfold read_coord. by destruct (py_float w s). Qed.

Lemma for_each_read_coord_turbomole (w : externals) (cs : list string) (row : list float) :
  for_each (read_coord w Turbomole) cs = Ok row ->
  exists xs, for_each (py_float w) cs = Ok xs
             /\ row = map (fun x => (x * bohr_to_ang)%float) xs.
Proof.
  revert row. induction cs as [|c cs IH]; intros row H; simpl in H.
  - inversion H. by exists [].
  - apply bind_Ok_inv in H as (y & Hy & H).
    apply bind_Ok_inv in H as (ys & Hys & H). inversion H; subst; clear H.
    unfold read_coord in Hy. apply bind_Ok_inv in Hy as (x & Hx & Hy).
    inversion Hy; subst; clear Hy.
    destruct (IH ys Hys) as (xs & Hxs & ->).
    exists (x :: xs). simpl. by rewrite Hx, Hxs.
Qed.

(** What the loop leaves in [new_coords]: one row per line, read from the
    coordinate fields of the line. *)
Lemma read_atom_lines_rows (w : externals) (fmt : text_format) (self : Molecule) :
  forall (content : list string) (i : nat) (coords : list (list float)),
    read_atom_lines w fmt self content i = Ok coords ->
    Forall2 (fun line row =>
               exists element cs,
                 unpack_line fmt (py_split w line) = Ok (element, cs)
                 /\ for_each (read_coord w fmt) cs = Ok row)
            content coords.
Proof.
  induction content as [|line content IH]; intros i coords H; simpl in H.
  - inversion H. constructor.
  - apply bind_Ok_inv in H as ([element cs] & Hunpack & H).
    apply bind_Ok_inv in H as (name & _ & H).
    apply bind_Ok_inv in H as (atom & _ & H). simpl in H.
    destruct (String.eqb name (symbol atom)); [|discriminate]. simpl in H.
    apply bind_Ok_inv in H as (xyz & Hxyz & H).
    apply bind_Ok_inv in H as (more & Hmore & H). inversion H; subst; clear H.
    constructor; [by exists element, cs | by apply (IH (S i))].
Qed.

Lemma check_line_count_Ok (self : Molecule) (content : list string) :
  check_line_count self content = Ok tt ->
  content <> [] /\ length content = length (atoms self).
Proof.
  unfold check_line_count. destruct content as [|line content]; [discriminate|].
  destruct (Nat.eqb (length (line :: content)) (length (atoms self))) eqn:E;
    [|discriminate].
  apply Nat.eqb_eq in E. by split.
Qed.

Lemma set_position_matrix_atoms (self self' : Molecule) (m : matrix) (cid : option Z) :
  set_position_matrix self m cid = Ok self' ->
  atoms self' = atoms self /\ bonds self' = bonds self.
Proof.
  unfold set_position_matrix. intros H.
  apply bind_Ok_inv in H as (conf & _ & H).
  destruct cid as [c|].
  - apply bind_Ok_inv in H as (confs & _ & H). by inversion H.
  - by inversion H.
Qed.

Lemma set_position_matrix_installed (self self' : Molecule) (m : matrix)
    (cid : option Z) :
  ncols m <> 0 ->
  set_position_matrix self m cid = Ok self' ->
  get_position_matrix self' (default (-1)%Z cid) = Ok m.
Proof.
  intros Hcols. unfold set_position_matrix, get_position_matrix. intros Hset.
  apply bind_Ok_inv in Hset as (conf & Hconf & Hset).
  apply (transpose_transpose m conf Hcols) in Hconf.
  destruct cid as [c|]; simpl.
  - apply bind_Ok_inv in Hset as (confs & Hset & H). inversion H; subst; clear H.
    simpl. by rewrite (getitem_after_setitem _ _ _ _ Hset).
  - inversion Hset; subst; clear Hset. simpl.
    by rewrite (proj2 (getitem_appended (_conformers self) conf)).
Qed.

(** ** [_update_from_xyz] *)

(** After an update from an [.xyz] file the position matrix of the updated
    conformer (the last one, when a conformer was added) is what the file
    holds: row [j] is the list of the numbers that follow the element on
    atom line [j], read by [float], and there is a row for every atom.  The
    atoms and the bonds are the ones the molecule had.  (The rows have a
    number in them: lines with an element only leave no coordinates.) *)
Theorem xyz_update_installs_the_file (w : externals) (self self' : Molecule)
    (path : string) (cid : option Z) :
  _update_from_xyz w self path cid = Ok self' ->
  exists atom_count comment content coords,
    readlines w path = Ok (atom_count :: comment :: content)
    /\ Forall2 (fun line row =>
                  exists element cs,
                    unpack_line Xyz (py_split w line) = Ok (element, cs)
                    /\ for_each (py_float w) cs = Ok row)
               content coords
    /\ length coords = length (atoms self)
    /\ atoms self' = atoms self
    /\ bonds self' = bonds self
    /\ (ncols coords <> 0 ->
        get_position_matrix self' (default (-1)%Z cid) = Ok coords).
Proof.
  unfold _update_from_xyz. intros H.
  apply bind_Ok_inv in H as (lines & Hlines & H).
  destruct lines as [|atom_count [|comment content]]; try discriminate.
  apply bind_Ok_inv in H as (n & Hn & H).
  destruct (Z.eqb n (Z.of_nat (length (atoms self)))); [|discriminate].
  simpl in H.
  apply bind_Ok_inv in H as (coords & Hread & H).
  apply bind_Ok_inv in H as ([] & Hcheck & Hset).
  apply check_line_count_Ok in Hcheck as [_ Hlen].
  pose proof (read_atom_lines_rows w Xyz self content 0 coords Hread) as Hrows.
  exists atom_count, comment, content, coords.
  split; [done|]. split.
  { eapply Forall2_impl; [exact Hrows|]. simpl.
    intros line row (element & cs & Hunpack & Hcs).
    exists element, cs. split; [done|].
    by rewrite <- (for_each_ext _ _ cs (read_coord_xyz w)). }
  split; [by rewrite <- (Forall2_length _ _ _ Hrows)|].
  destruct (set_position_matrix_atoms _ _ _ _ Hset) as [Hatoms Hbonds].
  split; [done|]. split; [done|].
  intros Hcols. by apply (set_position_matrix_installed self).
Qed.

Lemma xyz_update_installs_the_file_witness :
  exists self',
    _update_from_xyz example_files ethyne_carbons "two.xyz" None = Ok self'
    /\ atoms self' = atoms ethyne_carbons.
Proof.
  eexists. split; [reflexivity|].
  destruct (xyz_update_installs_the_file example_files ethyne_carbons _ "two.xyz" None
              eq_refl) as (? & ? & ? & ? & _ & _ & _ & Hatoms & _).
  exact Hatoms.
Defined.

Lemma read_atom_lines_app (w : externals) (fmt : text_format) (self : Molecule)
    (more : list string) :
  forall (good : list string) (i : nat) (coords : list (list float)),
    read_atom_lines w fmt self good i = Ok coords ->
    read_atom_lines w fmt self (good ++ more) i
    = bind (read_atom_lines w fmt self more (i + length good))
           (fun rows => Ok (coords ++ rows)).
Proof.
  induction good as [|line good IH]; intros i coords H; simpl in H.
  - inversion H. simpl. rewrite Nat.add_0_r.
    by destruct (read_atom_lines w fmt self more i).
  - apply bind_Ok_inv in H as ([element cs] & Hunpack & H).
    apply bind_Ok_inv in H as (name & Hname & H).
    apply bind_Ok_inv in H as (atom & Hatom & H). simpl in H.
    destruct (String.eqb name (symbol atom)) eqn:Hsym; [|discriminate]. simpl in H.
    apply bind_Ok_inv in H as (xyz & Hxyz & H).
    apply bind_Ok_inv in H as (rows & Hrows & H). inversion H; subst; clear H.
    simpl in Hname, Hxyz.
    simpl. rewrite Hunpack, bind_Ok. simpl fst. rewrite Hname, bind_Ok, Hatom, bind_Ok.
    rewrite Hsym. simpl negb. cbv iota. simpl snd. rewrite Hxyz, bind_Ok.
    rewrite (IH (S i) rows Hrows).
    replace (S i + length good) with (i + S (length good)) by lia.
    by destruct (read_atom_lines w fmt self more (i + S (length good))).
Qed.

Lemma read_atom_lines_length (w : externals) (fmt : text_format) (self : Molecule) :
  forall (content : list string) (i : nat) (coords : list (list float)),
    read_atom_lines w fmt self content i = Ok coords ->
    content = [] \/ i + length content <= length (atoms self).
Proof.
  intros content i coords H.
  destruct content as [|line content]; [by left|]. right.
  destruct (exists_last (l := line :: content) ltac:(done)) as (front & final & Heq).
  rewrite Heq in *. rewrite length_app. simpl.
  destruct (read_atom_lines_agree w fmt self _ i coords H (length front) final)
    as (atom & Hatom & _).
  { rewrite lookup_app_r by lia. by rewrite Nat.sub_diag. }
  apply lookup_lt_Some in Hatom. lia.
Qed.

(** How an [.xyz] file whose first line gives the right atom count but
    whose atom lines are too few or too many is refused.  With no atom line
    at all the loop variable is never bound and the check after the loop
    raises [UnboundLocalError]; with fewer lines than atoms, all of them
    good, that check raises [RuntimeError]; with more lines than atoms the
    first line past the atoms raises [IndexError] where the loop asks for
    [self.atoms[i]], before the check is reached.  In no case is the
    molecule updated. *)
Theorem xyz_atom_lines_miscounted (w : externals) (self : Molecule) (path : string)
    (cid : option Z) (atom_count comment : string) (content : list string) :
  readlines w path = Ok (atom_count :: comment :: content) ->
  py_int w atom_count = Ok (Z.of_nat (length (atoms self))) ->
  (content = [] -> _update_from_xyz w self path cid = Raise UnboundLocalError)
  /\ (forall coords,
        read_atom_lines w Xyz self content 0 = Ok coords ->
        content <> [] ->
        length content <> length (atoms self) ->
        length content < length (atoms self)
        /\ _update_from_xyz w self path cid = Raise RuntimeError)
  /\ (forall good extra rest coords element cs name,
        content = good ++ extra :: rest ->
        length good = length (atoms self) ->
        read_atom_lines w Xyz self good 0 = Ok coords ->
        unpack_line Xyz (py_split w extra) = Ok (element, cs) ->
        element_name w element = Ok name ->
        _update_from_xyz w self path cid = Raise IndexError).
Proof.
  intros Hlines Hcount.
  unfold _update_from_xyz. rewrite Hlines, bind_Ok, Hcount, bind_Ok, Z.eqb_refl.
  simpl negb. cbv iota.
  split; [by intros ->|]. split.
  - intros coords Hread Hne Hlen.
    destruct (read_atom_lines_length w Xyz self content 0 coords Hread) as [|Hle];
      [done|].
    split; [simpl in Hle; lia|].
    rewrite Hread, bind_Ok. unfold check_line_count.
    destruct content as [|line content]; [done|].
    by apply Nat.eqb_neq in Hlen as ->.
  - intros good extra rest coords element cs name -> Hlen Hread Hunpack Hname.
    rewrite (read_atom_lines_app w Xyz self (extra :: rest) good 0 coords Hread).
    cbn [read_atom_lines]. rewrite Hunpack. cbn [bind fst].
    rewrite Hname. cbn [bind]. rewrite Hlen.
    rewrite (getitem_out_of_range (atoms self)) by lia. done.
Qed.

Lemma xyz_atom_lines_miscounted_witness :
  _update_from_xyz more_files ethyne_carbons "bare.xyz" (Some 0%Z)
  = Raise UnboundLocalError
  /\ _update_from_xyz more_files ethyne_carbons "short.xyz" (Some 0%Z)
     = Raise RuntimeError
  /\ _update_from_xyz more_files ethyne_carbons "long.xyz" (Some 0%Z)
     = Raise IndexError.
Proof.
  split; [|split].
  - exact (proj1 (xyz_atom_lines_miscounted more_files ethyne_carbons "bare.xyz"
                    (Some 0%Z) "2" "" [] eq_refl eq_refl) eq_refl).
  - refine (proj2 (proj1 (proj2 (xyz_atom_lines_miscounted more_files ethyne_carbons
                    "short.xyz" (Some 0%Z) "2" "" ["C 0 0 0"%string] eq_refl eq_refl))
                    _ eq_refl _ _)); simpl; [discriminate | lia].
  - refine (proj2 (proj2 (xyz_atom_lines_miscounted more_files ethyne_carbons
                    "long.xyz" (Some 0%Z) "2" ""
                    ["C 0 0 0"; "C 3 4 0"; "C 5 5 5"]%string eq_refl eq_refl))
                  ["C 0 0 0"; "C 3 4 0"]%string "C 5 5 5"%string [] _ _ _ _
                  eq_refl eq_refl eq_refl eq_refl eq_refl).
Defined.

(** ** [_update_from_turbomole] *)

(** An update from a [.coord] file skips the first and the last line.  The
    number of the lines between them is compared with the number of atoms
    before any line is read: a different number raises [RuntimeError]
    whatever the lines hold, and a file of fewer than two lines cannot be
    unpacked ([ValueError]).  After an update the position matrix of the
    updated conformer has a row for every atom, and row [j] is the list of
    the numbers that precede the element on line [j], each multiplied by
    [bohr_to_ang]; atoms and bonds are kept. *)
Theorem coord_update_converts_bohr (w : externals) (self : Molecule) (path : string)
    (cid : option Z) :
  (forall first content final,
     readlines w path = Ok (first :: content ++ [final]) ->
     length content <> length (atoms self) ->
     _update_from_turbomole w self path cid = Raise RuntimeError)
  /\ (forall lines,
        readlines w path = Ok lines -> length lines < 2 ->
        _update_from_turbomole w self path cid = Raise ValueError)
  /\ (forall self',
        _update_from_turbomole w self path cid = Ok self' ->
        exists first content final coords,
          readlines w path = Ok (first :: content ++ [final])
          /\ Forall2 (fun line row =>
                        exists element cs xs,
                          unpack_line Turbomole (py_split w line) = Ok (element, cs)
                          /\ for_each (py_float w) cs = Ok xs
                          /\ row = map (fun x => (x * bohr_to_ang)%float) xs)
                     content coords
          /\ length coords = length (atoms self)
          /\ atoms self' = atoms self
          /\ bonds self' = bonds self
          /\ (ncols coords <> 0 ->
              get_position_matrix self' (default (-1)%Z cid) = Ok coords)).
Proof.
  unfold _update_from_turbomole. split; [|split].
  - intros first content final Hlines Hlen. rewrite Hlines, bind_Ok.
    destruct (content ++ [final]) as [|second rest] eqn:Hrest;
      [by destruct content|].
    rewrite <- Hrest, removelast_last. cbv zeta.
    by apply Nat.eqb_neq in Hlen as ->.
  - intros lines Hlines Hlen. rewrite Hlines, bind_Ok.
    destruct lines as [|first [|second rest]]; [done..|]. simpl in Hlen. lia.
  - intros self' H.
    apply bind_Ok_inv in H as (lines & Hlines & H).
    destruct lines as [|first [|second rest]]; try discriminate.
    destruct (removelast_snoc first (second :: rest)) as (final & Hsplit); [done|].
    set (content := removelast (second :: rest)) in *.
    destruct (Nat.eqb (length content) (length (atoms self))); [|discriminate].
    cbv zeta in H. simpl negb in H. cbv iota in H.
    apply bind_Ok_inv in H as (coords & Hread & H).
    apply bind_Ok_inv in H as ([] & Hcheck & Hset).
    apply check_line_count_Ok in Hcheck as [_ Hlen].
    pose proof (read_atom_lines_rows w Turbomole self content 0 coords Hread) as Hrows.
    exists first, content, final, coords.
    split; [by rewrite Hlines, Hsplit|]. split.
    { eapply Forall2_impl; [exact Hrows|]. simpl.
      intros line row (element & cs & Hunpack & Hcs).
      apply for_each_read_coord_turbomole in Hcs as (xs & Hxs & ->).
      by exists element, cs, xs. }
    split; [by rewrite <- (Forall2_length _ _ _ Hrows)|].
    destruct (set_position_matrix_atoms _ _ _ _ Hset) as [Hatoms Hbonds].
    split; [done|]. split; [done|].
    intros Hcols. by apply (set_position_matrix_installed self).
Qed.

Lemma coord_update_converts_bohr_witness :
  _update_from_turbomole more_files three_carbons "two.coord" (Some 0%Z)
  = Raise RuntimeError.
Proof.
  exact (proj1 (coord_update_converts_bohr more_files three_carbons "two.coord"
                  (Some 0%Z))
               "$coord" ["0 0 0 C"; "2 0 0 C"] "$end" eq_refl ltac:(simpl; lia))%string.
Defined.

End MolFileReadFacts.

(* ===================================================================== *)
(** * More facts about the identity cache                                  *)
(* ===================================================================== *)

Module CacheShapeFacts.
Import Python IdentityCache CacheShape PythonFacts.

Section Metaclass.
Context {Args Key Attrs : Type}.
Context `{EqDecision Key} `{Countable Key} `{EqDecision Args} `{Countable Args}.

Implicit Types (cls : class Args Key Attrs) (h : heap Args Key Attrs).

(** [update_cache] on an object that has a key: afterwards the key is in
    the cache, the object it leads to holds what [self] holds (attributes
    and key), and it is the object that was cached before when there was
    one, [self] otherwise; the entries of the other keys stay.  So the next
    construction with [use_cache] and this key returns that object without
    running [__init__], and a second [update_cache] changes nothing. *)
Theorem update_cache_publishes_self h (self : nat) (o : instance Key Attrs) (key : Key) :
  keyed h ->
  objects h !! self = Some o ->
  _key o = Some key ->
  exists h' cached,
    update_cache self h = Ok h'
    /\ cached = default self (_cache h !! key)
    /\ _cache h' !! key = Some cached
    /\ objects h' !! cached = Some o
    /\ (forall key', key' <> key -> _cache h' !! key' = _cache h !! key')
    /\ init_runs h' = init_runs h
    /\ keyed h'
    /\ update_cache self h' = Ok h'
    /\ forall cls args,
         use_cache cls args = true -> _get_key cls args = key ->
         _Cached_call cls args h' = Ok (cached, h').
Proof.
  intros Hkeyed Hself Hkey. unfold update_cache. rewrite Hself, Hkey.
  destruct (_cache h !! key) as [c|] eqn:Hc; simpl.
  - destruct (Hkeyed key c Hc) as (oc & Hoc & Hkc).
    pose proof (lookup_lt_Some _ _ _ Hoc) as Hlt.
    eexists _, c. split; [done|]. split; [done|]. simpl.
    split; [done|]. split; [by apply list_lookup_insert_eq|].
    split; [done|]. split; [done|].
    assert (Hself' : <[c:=o]> (objects h) !! self = Some o).
    { destruct (decide (c = self)) as [->|Hne].
      - by apply list_lookup_insert_eq.
      - by rewrite list_lookup_insert_ne. }
    split; [|split].
    + intros key' c' Hc'. simpl in *.
      destruct (decide (c' = c)) as [->|Hne].
      * exists o. rewrite list_lookup_insert_eq by done. split; [done|].
        destruct (Hkeyed key' c Hc') as (o' & Ho' & Hk').
        rewrite Hoc in Ho'. inversion Ho'; subst. congruence.
      * rewrite list_lookup_insert_ne by done. by apply Hkeyed.
    + rewrite Hself', Hkey. simpl. rewrite Hc.
      by rewrite list_insert_insert_eq.
    + intros cls args Huse Hget. unfold _Cached_call. rewrite Huse, Hget. simpl.
      by rewrite Hc.
  - eexists _, self. split; [done|]. split; [done|]. simpl.
    split; [by apply lookup_insert_eq|]. split; [done|].
    split; [by intros key' Hne; apply lookup_insert_ne|]. split; [done|].
    split; [|split].
    + intros key' c' Hc'. simpl in *.
      destruct (decide (key' = key)) as [->|Hne].
      * rewrite lookup_insert_eq in Hc'. inversion Hc'; subst. by exists o.
      * rewrite lookup_insert_ne in Hc' by done. by apply Hkeyed.
    + rewrite Hself, Hkey. simpl. rewrite lookup_insert_eq.
      by rewrite list_insert_id.
    + intros cls args Huse Hget. unfold _Cached_call. rewrite Huse, Hget. simpl.
      by rewrite lookup_insert_eq.
Qed.

(** The object [_Cached.__call__] returns carries the key of the arguments
    it was called with, whether it was made or found, and the cache stays
    [keyed], for a class whose [__init__] leaves the cache and the older
    objects alone. *)
Theorem constructed_objects_carry_their_key cls (args : Args) h (obj : nat)
    (h' : heap Args Key Attrs) :
  init_keeps_others cls ->
  keyed h ->
  _Cached_call cls args h = Ok (obj, h') ->
  keyed h'
  /\ _cache h' = _cache h
  /\ exists o, objects h' !! obj = Some o /\ _key o = Some (_get_key cls args).
Proof.
  intros Hinit Hkeyed. unfold _Cached_call.
  destruct (if use_cache cls args then _cache h !! _get_key cls args else None)
    as [cached|] eqn:Hlook.
  - intros Hcall. inversion Hcall; subst. split; [done|]. split; [done|].
    destruct (use_cache cls args); [|done]. by apply Hkeyed.
  - intros Hcall. unfold type_call in Hcall. simpl in Hcall.
    apply bind_Ok_inv in Hcall as ([o1 h1] & Hcall & Hret).
    apply bind_Ok_inv in Hcall as (h2 & Hrun & Hcall).
    inversion Hcall; subst; clear Hcall. inversion Hret; subst; clear Hret. simpl.
    destruct (Hinit _ _ _ _ Hrun) as (Hcache & Hlen & Hold). simpl in *.
    rewrite length_app in Hlen. simpl in Hlen.
    split; [|split; [done|]].
    + intros key c Hc. simpl in *. rewrite Hcache in Hc.
      destruct (Hkeyed key c Hc) as (o & Ho & Hk).
      pose proof (lookup_lt_Some _ _ _ Ho) as Hlt.
      exists o. split; [|done].
      rewrite list_lookup_alter_ne by lia. rewrite Hold by done.
      by rewrite lookup_app_l.
    + destruct (lookup_lt_is_Some_2 (objects h1) (length (objects h))) as [o Ho]; [lia|].
      eexists. rewrite list_lookup_alter_eq, Ho. simpl. by split.
Qed.

(** [Cached.__call__] of classes/molecular.py holds its objects weakly: a
    collection drops the entries of the objects that are no longer
    referenced, and only those.  The next call with the arguments of a
    dropped entry constructs again and stores what it made; a call with the
    arguments of an entry whose object is alive still returns that object. *)
Theorem collected_objects_are_rebuilt cls (args : Args) h (obj : nat)
    (referenced : nat -> bool) :
  __cache h !! args = Some obj ->
  (referenced obj = false ->
   Cached_call cls args (collect referenced h)
   = bind (type_call cls args (collect referenced h))
          (fun oh => Ok (fst oh,
                         {| objects := objects (snd oh); _cache := _cache (snd oh);
                            __cache := <[args:=fst oh]> (__cache (snd oh));
                            init_runs := init_runs (snd oh) |})))
  /\ (referenced obj = true ->
      Cached_call cls args (collect referenced h) = Ok (obj, collect referenced h)).
Proof.
  intros Hin. unfold Cached_call. split; intros Href.
  - assert (Hgone : __cache (collect referenced h) !! args = None).
    { simpl. apply map_lookup_filter_None. right. intros x Hx.
      rewrite Hin in Hx. inversion Hx; subst. simpl. by rewrite Href. }
    by rewrite Hgone.
  - assert (Hkept : __cache (collect referenced h) !! args = Some obj)
      by (simpl; by apply map_lookup_filter_Some).
    by rewrite Hkept.
Qed.

End Metaclass.

Lemma two_copies_keyed : keyed two_copies.
Proof.
  intros key cached Hin. simpl in Hin.
  apply lookup_singleton_Some in Hin as [<- <-]. eexists. by split.
Qed.

Lemma store_attrs_keeps_others : init_keeps_others Plain.
Proof.
  intros obj args h h' Hrun. simpl in Hrun. unfold store_attrs in Hrun.
  inversion Hrun; subst; clear Hrun. simpl.
  split; [done|]. split; [by rewrite length_alter|].
  intros i Hi. apply list_lookup_alter_ne. lia.
Qed.

Lemma update_cache_publishes_self_witness :
  exists h',
    update_cache 1 two_copies = Ok h'
    /\ objects h' !! 0 = Some {| attrs := Some "NCCN optimized"%string;
                                 _key := Some "NCCN"%string |}.
Proof.
  destruct (update_cache_publishes_self two_copies 1 _ "NCCN"%string
              two_copies_keyed eq_refl eq_refl)
    as (h' & cached & Hupdate & Hcached & _ & Hobject & _).
  exists h'. split; [exact Hupdate|].
  rewrite Hcached in Hobject. exact Hobject.
Defined.

Lemma constructed_objects_carry_their_key_witness :
  exists h' o,
    _Cached_call Plain ("CCO"%string, true) two_copies = Ok (2, h')
    /\ objects h' !! 2 = Some o
    /\ _key o = Some "CCO"%string.
Proof.
  destruct (constructed_objects_carry_their_key Plain ("CCO"%string, true) two_copies 2 _
              store_attrs_keeps_others two_copies_keyed eq_refl)
    as (_ & _ & o & Ho & Hk).
  eexists _, o. split; [reflexivity|]. split; [exact Ho | exact Hk].
Defined.

Lemma collected_objects_are_rebuilt_witness :
  exists h1 h2,
    Cached_call Plain ("NCCN"%string, true) empty_heap = Ok (0, h1)
    /\ Cached_call Plain ("NCCN"%string, true) (collect (fun _ => false) h1) = Ok (1, h2)
    /\ init_runs h2 = 2.
Proof.
  eexists _, _. split; [reflexivity|]. split.
  - match goal with
    | |- Cached_call _ _ (collect _ ?h1) = _ =>
        rewrite (proj1 (collected_objects_are_rebuilt Plain ("NCCN"%string, true) h1 0
                          (fun _ => false) eq_refl) eq_refl)
    end.
    reflexivity.
  - reflexivity.
Defined.

End CacheShapeFacts.

(* ===================================================================== *)
(** * More facts about the mutation round                                  *)
(* ===================================================================== *)

Module RoundFacts.
Import Python GA RoundShape GAFacts.

(** The cases of one turn of the loop of [parents_loop] in [H]. *)
Ltac loop_cases H :=
  cbn [parents_loop] in H;
  match type of H with
  | context [np_random_choice_p ?env ?fs ?w ?s] =>
      let f := fresh "func_data" in
      let ex := fresh "ex" in
      let s1 := fresh "s" in
      destruct (np_random_choice_p env fs w s) as [[f|ex|] s1] eqn:?;
      [ let func := fresh "func" in
        destruct (getattr (name f)) as [func|] eqn:?;
        [ match type of H with
          | context [func ?env' ?self' ?parent ?kw s1] =>
              let mutant := fresh "mutant" in
              let ex' := fresh "ex" in
              let s2 := fresh "s" in
              destruct (func env' self' parent kw s1) as [[mutant|ex'|] s2] eqn:?;
              [ match type of H with
                | context [(?a =? ?b)%Z] =>
                    destruct (a =? b)%Z eqn:?; [inversion H; subst; clear H | step_loop H]
                end
              | step_loop H
              | inversion H; subst; clear H ]
          end
        | inversion H; subst; clear H ]
      | inversion H; subst; clear H
      | inversion H; subst; clear H ]
  end.

Lemma mutants_of_length (log : list attempt_record) :
  length (mutants_of log) <= length log.
Proof.
  unfold mutants_of. induction log as [|a log IH]; [done|].
  change (omap mutant_of (a :: log))
    with (match mutant_of a with
          | Some m => m :: omap mutant_of log
          | None => omap mutant_of log
          end).
  destruct (mutant_of a); cbn [length]; lia.
Qed.

Lemma parents_loop_bookkeeping (env : environment) (self : Mutation) :
  forall (pool : list Cage) (r r' : round) (e : ending) (log : list attempt_record),
    parents_loop env self pool r = (e, r', log) ->
    calls r' = calls r + length log
    /\ members r' = members r ++ mutants_of log
    /\ num_done r' = num_done r + length (mutants_of log)
    /\ length log <= length pool.
Proof.
  induction pool as [|parent rest IH]; intros r r' e log Hrun.
  - inversion Hrun; subst. simpl. rewrite app_nil_r. repeat split; lia.
  - loop_cases Hrun; simpl; rewrite ?app_nil_r;
      try solve [repeat split; first [done | lia]].
    + destruct (IH _ _ _ _ Hrest) as (Hcalls & Hmem & Hnum & Hlen). simpl in *.
      rewrite Hmem, <- app_assoc. split; [lia|]. split; [reflexivity|lia].
    + destruct (IH _ _ _ _ Hrest) as (Hcalls & Hmem & Hnum & Hlen). simpl in *.
      split; [lia|]. split; [done|lia].
Qed.

Lemma parents_loop_quota (env : environment) (self : Mutation) :
  forall (pool : list Cage) (r r' : round) (e : ending) (log : list attempt_record),
    parents_loop env self pool r = (e, r', log) ->
    (Z.of_nat (num_done r) < num_mutations self)%Z ->
    (Z.of_nat (num_done r') <= num_mutations self)%Z.
Proof.
  induction pool as [|parent rest IH]; intros r r' e log Hrun Hlt.
  - inversion Hrun; subst. lia.
  - loop_cases Hrun; simpl;
      try match goal with
          | H : (_ =? _)%Z = true |- _ => apply Z.eqb_eq in H
          | H : (_ =? _)%Z = false |- _ => apply Z.eqb_neq in H
          end;
      try lia.
    + apply (IH _ _ _ _ Hrest). simpl. lia.
    + by apply (IH _ _ _ _ Hrest).
Qed.

(** The books of a round, whatever its attempts came to and however it
    ended: [self.n_calls] has grown by one for every attempt, those that
    raised included; [mutant_pop.members] holds the mutants of the attempts
    that returned, in the order of the attempts; [num_mutations] is their
    number; no parent is tried twice over; and with a quota of at least one
    there are never more mutants than the quota. *)
Theorem round_keeps_the_books (env : environment) (self : Mutation) (pool : list Cage)
    (s : op_state) (e : ending) (r : round) (log : list attempt_record) :
  parents_loop env self pool (start_round self s) = (e, r, log) ->
  calls r = n_calls self + length log
  /\ members r = mutants_of log
  /\ num_done r = length (members r)
  /\ length (members r) <= length log <= length pool
  /\ ((1 <= num_mutations self)%Z -> (Z.of_nat (num_done r) <= num_mutations self)%Z).
Proof.
  intros Hrun.
  destruct (parents_loop_bookkeeping env self pool _ r e log Hrun)
    as (Hcalls & Hmem & Hnum & Hlen).
  simpl in *. rewrite Hmem.
  split; [done|]. split; [done|]. split; [done|]. split.
  - split; [apply mutants_of_length | done].
  - intros Hk. apply (parents_loop_quota env self pool _ r e log Hrun). simpl. lia.
Qed.

Lemma round_keeps_the_books_witness :
  exists r log,
    parents_loop lab (engine_after 7 [draw_nothing; rank_bb] 2)
                 [parent1; parent1; parent2]
                 (start_round (engine_after 7 [draw_nothing; rank_bb] 2) no_state)
    = (Finished, r, log)
    /\ calls r = 7 + length log.
Proof.
  eexists _, _. split; [vm_compute; reflexivity|].
  match goal with
  | |- calls ?r = 7 + length ?log =>
      exact (proj1 (round_keeps_the_books lab (engine_after 7 [draw_nothing; rank_bb] 2)
                      [parent1; parent1; parent2] no_state Finished r log
                      ltac:(vm_compute; reflexivity)))
  end.
Defined.

(** ** How the round stops *)

Lemma parents_loop_stop (env : environment) (self : Mutation) :
  forall (pool : list Cage) (r r' : round) (e : ending) (log : list attempt_record),
    parents_loop env self pool r = (e, r', log) ->
    (exists ex, e = Escaped ex)
    \/ e = Hung
    \/ (e = Finished
        /\ ((Z.of_nat (num_done r') = num_mutations self
             /\ exists front a mutant, log = front ++ [a] /\ result_of a = Mutant mutant)
            \/ map parent_of log = map cage_id pool)).
Proof.
  induction pool as [|parent rest IH]; intros r r' e log Hrun.
  - inversion Hrun; subst. right. right. split; [done|]. by right.
  - loop_cases Hrun.
    + right. right. split; [done|]. left. simpl. split.
      * match goal with H : (_ =? _)%Z = true |- _ => by apply Z.eqb_eq in H end.
      * by eexists [], _, _.
    + destruct (IH _ _ _ _ Hrest)
        as [Hesc | [-> | (-> & [(Hk & front & a & m & -> & Ha) | Hall])]].
      * by left.
      * right. by left.
      * right. right. split; [done|]. left. split; [done|].
        by eexists (_ :: front), a, m.
      * right. right. split; [done|]. right. simpl. by rewrite Hall.
    + destruct (IH _ _ _ _ Hrest)
        as [Hesc | [-> | (-> & [(Hk & front & a & m & -> & Ha) | Hall])]].
      * by left.
      * right. by left.
      * right. right. split; [done|]. left. split; [done|].
        by eexists (_ :: front), a, m.
      * right. right. split; [done|]. right. simpl. by rewrite Hall.
    + right. by left.
    + left. by eexists.
    + left. by eexists.
    + right. by left.
Qed.

(** With a well-configured engine and no attempt that hangs, the round ends
    by itself in one of two ways: at the attempt that returned the mutant
    which made [num_mutations] equal to the quota, that attempt being the
    last one made, or after an attempt on every parent of the pool.  With a
    quota of zero or less the first never happens: every parent is tried,
    however many mutants there are. *)
Theorem round_stops_at_quota_or_end (env : environment) (self : Mutation)
    (pool : list Cage) (s : op_state) (e : ending) (r : round)
    (log : list attempt_record) :
  well_configured self ->
  Forall returns_or_raises log ->
  parents_loop env self pool (start_round self s) = (e, r, log) ->
  e = Finished
  /\ ((Z.of_nat (length (members r)) = num_mutations self
       /\ exists front a mutant, log = front ++ [a] /\ result_of a = Mutant mutant)
      \/ map parent_of log = map cage_id pool)
  /\ ((num_mutations self <= 0)%Z -> map parent_of log = map cage_id pool).
Proof.
  intros Hcfg Hlog Hrun.
  pose proof (parents_loop_no_escape env self Hcfg pool _ r e log Hrun Hlog) as ->.
  destruct (parents_loop_bookkeeping env self pool _ r _ log Hrun)
    as (_ & Hmem & Hnum & _).
  simpl in Hmem, Hnum. rewrite <- Hmem in Hnum.
  destruct (parents_loop_stop env self pool _ r _ log Hrun)
    as [[ex Hex] | [Hhung | (_ & Hstop)]]; [done..|].
  split; [done|]. split.
  - destruct Hstop as [(Hk & Hlast) | Hall]; [left | by right].
    split; [by rewrite <- Hnum | done].
  - intros Hzero. destruct Hstop as [(Hk & front & a & m & -> & Ha) | Hall]; [|done].
    exfalso. rewrite Hmem in Hnum. unfold mutants_of in Hnum.
    rewrite omap_app, length_app in Hnum. simpl in Hnum.
    unfold mutant_of in Hnum. rewrite Ha in Hnum. simpl in Hnum. lia.
Qed.

Lemma round_stops_at_quota_or_end_witness :
  exists r log,
    parents_loop lab (engine [rank_bb] 0) [parent1; parent2; parent1]
                 (start_round (engine [rank_bb] 0) no_state) = (Finished, r, log)
    /\ map parent_of log = [1; 2; 1]
    /\ length (members r) = 3.
Proof.
  eexists _, _. split; [vm_compute; reflexivity|].
  match goal with
  | |- map parent_of ?log = _ /\ length (members ?r) = _ =>
      split;
      [ exact (proj2 (proj2 (round_stops_at_quota_or_end lab (engine [rank_bb] 0)
                 [parent1; parent2; parent1] no_state Finished r log
                 (engine_well_configured rank_bb 0 ltac:(by eexists))
                 ltac:(repeat constructor; discriminate)
                 ltac:(vm_compute; reflexivity))) ltac:(simpl; lia))
      | reflexivity ]
  end.
Defined.

(** ** The counter *)

Lemma attempts_on_cons (id : nat) (a : attempt_record) (log : list attempt_record) :
  attempts_on id (a :: log)
  = (if decide (parent_of a = id) then 1 else 0) + attempts_on id log.
Proof.
  unfold attempts_on. rewrite filter_cons. by destruct (decide (parent_of a = id)).
Qed.

Lemma counter_update_lookup (parent : Cage) (c : gmap nat nat) (id : nat) :
  counter_update parent c !! id
  = if decide (cage_id parent = id) then Some (S (default 0 (c !! id))) else c !! id.
Proof.
  unfold counter_update. destruct (decide (cage_id parent = id)) as [<-|Hne].
  - by rewrite lookup_insert_eq.
  - by rewrite lookup_insert_ne.
Qed.

Lemma counted (parent : Cage) (c : gmap nat nat) (id : nat) (more : nat) :
  match more with
  | 0 => counter_update parent c !! id
  | S n => Some (default 0 (counter_update parent c !! id) + S n)
  end
  = match (if decide (cage_id parent = id) then 1 else 0) + more with
    | 0 => c !! id
    | S n => Some (default 0 (c !! id) + S n)
    end.
Proof.
  rewrite counter_update_lookup.
  destruct (decide (cage_id parent = id)); destruct more; simpl; f_equal; lia.
Qed.

Lemma parents_loop_counter (env : environment) (self : Mutation) :
  forall (pool : list Cage) (r r' : round) (log : list attempt_record),
    parents_loop env self pool r = (Finished, r', log) ->
    forall id,
      counter r' !! id
      = match attempts_on id log with
        | 0 => counter r !! id
        | S n => Some (default 0 (counter r !! id) + S n)
        end.
Proof.
  induction pool as [|parent rest IH]; intros r r' log Hrun id.
  - by inversion Hrun; subst.
  - remember Finished as e eqn:He in Hrun.
    loop_cases Hrun; try discriminate; rewrite attempts_on_cons; simpl parent_of.
    + simpl counter. change (attempts_on id []) with 0.
      by rewrite <- (counted parent (counter r) id 0).
    + rewrite (IH _ _ _ Hrest id). simpl counter.
      by apply (counted parent (counter r) id).
    + rewrite (IH _ _ _ Hrest id). simpl counter.
      by apply (counted parent (counter r) id).
Qed.

Lemma member_or_later (id : nat) (member : Cage) (population : list Cage) (c : option nat) :
  id <> cage_id member ->
  (if decide (id ∈ map cage_id population) then c else None)
  = (if decide (id ∈ cage_id member :: map cage_id population) then c else None).
Proof.
  intros Hne. destruct (decide (id ∈ map cage_id population)) as [Hin|Hout].
  - rewrite decide_True; [done|]. apply elem_of_cons. by right.
  - rewrite decide_False; [done|]. rewrite elem_of_cons. tauto.
Qed.

Lemma counter_add_unselected_lookup (population : list Cage) :
  forall (c : gmap nat nat) (id : nat),
    counter_add_unselected population c !! id
    = match c !! id with
      | Some n => Some n
      | None => if decide (id ∈ map cage_id population) then Some 0 else None
      end.
Proof.
  unfold counter_add_unselected.
  induction population as [|member population IH]; intros c id; cbn [fold_left map].
  - destruct (c !! id); [done|]. case_decide as Hin; [|done].
    by apply elem_of_nil in Hin.
  - rewrite IH. destruct (c !! cage_id member) as [n|] eqn:Hmember.
    + destruct (c !! id) as [k|] eqn:Hid; [done|].
      apply member_or_later. congruence.
    + destruct (decide (id = cage_id member)) as [->|Hne].
      * rewrite lookup_insert_eq, Hmember.
        rewrite decide_True; [done|]. apply elem_of_cons. by left.
      * rewrite lookup_insert_ne by done. destruct (c !! id) as [k|]; [done|].
        by apply member_or_later.
Qed.

(** What the counter holds when the call returns: for every cage that was
    tried, the number of attempts made on it (the attempts that raised
    included, and a cage yielded twice by the selection counted twice);
    zero for the members of the population that were not tried; and
    nothing else. *)
Theorem counter_counts_the_attempts (env : environment) (self : Mutation)
    (population pool : list Cage) (s : op_state) (mutant_pop : list Cage) (r : round)
    (log : list attempt_record) :
  Mutation_call env self population pool s = (Returned mutant_pop, r, log) ->
  forall id,
    counter r !! id
    = match attempts_on id log with
      | S n => Some (S n)
      | 0 => if decide (id ∈ map cage_id population) then Some 0 else None
      end.
Proof.
  unfold Mutation_call. intros Hcall id.
  destruct (parents_loop env self pool (start_round self s)) as [[e r0] log0] eqn:Hrun.
  destruct e; inversion Hcall; subst; clear Hcall. simpl.
  rewrite counter_add_unselected_lookup.
  rewrite (parents_loop_counter env self pool _ r0 log Hrun).
  simpl. rewrite lookup_empty. by destruct (attempts_on id log).
Qed.

Lemma counter_counts_the_attempts_witness :
  exists mutant_pop r log,
    Mutation_call lab (engine [draw_nothing] 10) [parent1; parent2; rival]
                  [parent1; parent2; parent1] no_state = (Returned mutant_pop, r, log)
    /\ counter r !! 1 = Some 2
    /\ counter r !! 7 = Some 0.
Proof.
  eexists _, _, _. split; [vm_compute; reflexivity|].
  match goal with
  | |- counter ?r !! _ = _ /\ _ =>
      pose proof (counter_counts_the_attempts lab (engine [draw_nothing] 10)
                    [parent1; parent2; rival] [parent1; parent2; parent1] no_state
                    _ r _ ltac:(vm_compute; reflexivity)) as Hcount
  end.
  split; [exact (Hcount 1) | exact (Hcount 7)].
Defined.

(** ** What the [try] does not cover *)




(** ** The mutation functions *)

Lemma list_remove_Ok (x : string) (l l' : list string) :
  list_remove x l = Ok l'
  <-> exists before after,
        l = before ++ x :: after /\ (x ∉ before) /\ l' = before ++ after.
Proof.
  revert l'. induction l as [|y l IH]; intros l'; simpl.
  - split; [done|]. intros (before & after & Hl & _). by destruct before.
  - destruct (String.eqb y x) eqn:Hyx.
    + apply String.eqb_eq in Hyx as ->. split.
      * intros Hl'. inversion Hl'; subst. exists [], l'. split; [done|].
        split; [apply not_elem_of_nil | done].
      * intros (before & after & Hl & Hnot & ->).
        destruct before as [|b before]; inversion Hl; subst; [done|].
        exfalso. apply Hnot. apply elem_of_cons. by left.
    + apply String.eqb_neq in Hyx. split.
      * intros Hl'. apply PythonFacts.bind_Ok_inv in Hl' as (rest' & Hrest & Hl').
        inversion Hl'; subst; clear Hl'.
        apply IH in Hrest as (before & after & -> & Hnot & ->).
        exists (y :: before), after. split; [done|]. split; [|done].
        rewrite not_elem_of_cons. by split.
      * intros (before & after & Hl & Hnot & ->).
        destruct before as [|b before]; inversion Hl; subst; [done|].
        apply not_elem_of_cons in Hnot as [_ Hnot].
        assert (Hrest : list_remove x (before ++ x :: after) = Ok (before ++ after))
          by (apply IH; by exists before, after).
        by rewrite Hrest.
Qed.

Lemma list_remove_absent (x : string) (l : list string) :
  x ∉ l -> list_remove x l = Raise ValueError.
Proof.
  induction l as [|y l IH]; intros Hnot; simpl; [done|].
  apply not_elem_of_cons in Hnot as [Hne Hnot].
  destruct (String.eqb y x) eqn:Hyx; [by apply String.eqb_eq in Hyx|].
  by rewrite IH.
Qed.

Lemma new_Cage_Returns (env : environment) (units : list StructUnit) (top file : string)
    (s s' : op_state) (mutant : Cage) :
  new_Cage env units top file s = (Returns mutant, s') ->
  building_blocks mutant = units
  /\ topology mutant = top
  /\ prist_mol_file mutant = file
  /\ fitness mutant = None
  /\ cage_id mutant = next_id s
  /\ next_id s' = S (next_id s).
Proof.
  unfold new_Cage. destruct (assemble env units top file); [done|].
  intros Hnew. by inversion Hnew; subst.
Qed.

(** [random_cage_topology] asks that the topology of the cage is among
    [topologies] and that there is another one to draw: [tops.remove] raises
    [ValueError] when it is not, and [np.random.choice] raises [ValueError]
    when it is the only one.  A cage that is returned has the units of the
    parent, takes its file name from [n_calls], and has a topology drawn
    from [topologies] with one occurrence of the parent's topology removed:
    it differs from the parent's topology when [topologies] names no
    topology twice. *)
Theorem random_cage_topology_outcomes (env : environment) (self : Mutation)
    (cage : Cage) (topologies : list string) (s : op_state) :
  (topology cage ∉ topologies ->
   random_cage_topology env self cage topologies s = (Throws ValueError, s))
  /\ (topologies = [topology cage] ->
      random_cage_topology env self cage topologies s = (Throws ValueError, s))
  /\ (forall mutant s',
        random_cage_topology env self cage topologies s = (Returns mutant, s') ->
        topology cage ∈ topologies
        /\ topology mutant ∈ topologies
        /\ (NoDup topologies -> topology mutant <> topology cage)
        /\ building_blocks mutant = building_blocks cage
        /\ prist_mol_file mutant = mutant_file env self).
Proof.
  unfold random_cage_topology, op_bind. split; [|split].
  - intros Hnot. by rewrite (list_remove_absent _ _ Hnot).
  - intros ->. simpl. by rewrite String.eqb_refl.
  - intros mutant s' Hcall.
    destruct (list_remove (topology cage) topologies) as [tops|ex] eqn:Htops;
      [|discriminate].
    apply list_remove_Ok in Htops as (before & after & -> & Hnot & ->).
    simpl in Hcall. unfold np_random_choice in Hcall.
    destruct ((before ++ after) !! _) as [top|] eqn:Htop; [|discriminate].
    apply new_Cage_Returns in Hcall as (Hunits & Htopology & Hfile & _).
    apply list_elem_of_lookup_2 in Htop. rewrite Htopology.
    split; [|split; [|split; [|by split]]].
    + apply elem_of_app. right. apply elem_of_cons. by left.
    + apply elem_of_app in Htop as [Hin|Hin]; apply elem_of_app; [by left|].
      right. apply elem_of_cons. by right.
    + intros Hnodup Heq. rewrite Heq in Htop.
      apply NoDup_app in Hnodup as (_ & _ & Hafter).
      apply NoDup_cons in Hafter as [Hafter _].
      apply elem_of_app in Htop as [Hin|Hin]; done.
Qed.

Lemma random_cage_topology_outcomes_witness :
  random_cage_topology lab (engine [draw_topology] 1) parent1
    ["EightPlusTwelve"; "Dodecahedron"]%string no_state
  = (Throws ValueError, no_state).
Proof.
  refine (proj1 (random_cage_topology_outcomes lab (engine [draw_topology] 1) parent1
                   ["EightPlusTwelve"; "Dodecahedron"]%string no_state) _).
  intros Hin. repeat (apply elem_of_cons in Hin as [Hin|Hin]; [discriminate|]).
  by apply elem_of_nil in Hin.
Defined.

Lemma choose_mol_file_Returns (env : environment) (database f : string)
    (s s' : op_state) :
  choose_mol_file env database s = (Returns f, s') ->
  exists files,
    listdir env database = Ok files /\ f ∈ files /\ endswith f ".mol" = true.
Proof.
  unfold choose_mol_file, op_bind, op_lift.
  destruct (listdir env database) as [files|ex]; [|discriminate].
  destruct files as [|f0 files]; [discriminate|].
  destruct (filter (fun f => endswith f ".mol" = true) (f0 :: files))
    as [|m mol_files] eqn:Hmol; [discriminate|].
  unfold np_random_choice.
  destruct ((m :: mol_files) !! _) as [x|] eqn:Hx; [|discriminate].
  intros Hcall. inversion Hcall; subst. exists (f0 :: files). split; [done|].
  apply list_elem_of_lookup_2 in Hx. rewrite <- Hmol in Hx.
  by apply list_elem_of_filter in Hx as [Hend Hin].
Qed.

(** [random_bb] and [random_lk] draw a file of the database until one ends
    in [.mol]: an empty database raises [ValueError] in [np.random.choice],
    and a database that holds files, none of them a [.mol] file, is drawn
    from for ever.  A cage that [random_bb] returns is built from the drawn
    [.mol] file of the database as its building-block* and the first linker
    of the parent, with the topology of the parent; without a linker in the
    parent nothing is returned.  [random_lk] does the same with the parts
    exchanged. *)
Theorem random_swaps_draw_a_mol_file (env : environment) (self : Mutation)
    (cage : Cage) (database : string) (s : op_state) :
  (listdir env database = Ok [] ->
   random_bb env self cage database s = (Throws ValueError, s)
   /\ random_lk env self cage database s = (Throws ValueError, s))
  /\ (forall files,
        listdir env database = Ok files -> files <> [] ->
        Forall (fun f => endswith f ".mol" = false) files ->
        random_bb env self cage database s = (Diverges, s)
        /\ random_lk env self cage database s = (Diverges, s))
  /\ (forall mutant s',
        random_bb env self cage database s = (Returns mutant, s') ->
        exists files f lk,
          listdir env database = Ok files /\ f ∈ files /\ endswith f ".mol" = true
          /\ next_unit cage StructUnit2 = Ok lk
          /\ building_blocks mutant = [unit3 (os_path_join database f); lk]
          /\ topology mutant = topology cage)
  /\ (forall mutant s',
        random_lk env self cage database s = (Returns mutant, s') ->
        exists files f bb,
          listdir env database = Ok files /\ f ∈ files /\ endswith f ".mol" = true
          /\ next_unit cage StructUnit3 = Ok bb
          /\ building_blocks mutant = [bb; unit2 (os_path_join database f)]
          /\ topology mutant = topology cage).
Proof.
  split; [|split; [|split]].
  - intros Hdir. unfold random_bb, random_lk, choose_mol_file, op_bind, op_lift.
    by rewrite Hdir.
  - intros files Hdir Hne Hnone.
    assert (Hfilter : filter (fun f => endswith f ".mol" = true) files = []).
    { clear Hdir Hne. induction Hnone as [|f files Hf _ IH]; [done|].
      rewrite filter_cons, decide_False; [done | congruence]. }
    unfold random_bb, random_lk, choose_mol_file, op_bind, op_lift.
    rewrite Hdir. destruct files as [|f0 files]; [done|]. by rewrite Hfilter.
  - intros mutant s' Hcall. unfold random_bb, op_bind in Hcall.
    destruct (choose_mol_file env database s) as [[f|ex|] s1] eqn:Hfile; try discriminate.
    apply choose_mol_file_Returns in Hfile as (files & Hdir & Hin & Hend).
    unfold op_lift in Hcall.
    destruct (next_unit cage StructUnit2) as [lk|ex]; [|discriminate].
    apply new_Cage_Returns in Hcall as (Hunits & Htop & _).
    by exists files, f, lk.
  - intros mutant s' Hcall. unfold random_lk, op_bind in Hcall.
    destruct (choose_mol_file env database s) as [[f|ex|] s1] eqn:Hfile; try discriminate.
    apply choose_mol_file_Returns in Hfile as (files & Hdir & Hin & Hend).
    unfold op_lift in Hcall.
    destruct (next_unit cage StructUnit3) as [bb|ex]; [|discriminate].
    apply new_Cage_Returns in Hcall as (Hunits & Htop & _).
    by exists files, f, bb.
Qed.

Lemma random_swaps_draw_a_mol_file_witness :
  random_bb lab (engine [draw_nothing] 1) parent1 "empty" no_state
  = (Throws ValueError, no_state).
Proof.
  exact (proj1 (proj1 (random_swaps_draw_a_mol_file lab (engine [draw_nothing] 1)
                         parent1 "empty" no_state) eq_refl)).
Defined.

(** ** The similarity sequences *)

(** A similarity swap uses up a candidate whatever becomes of the call: the
    candidate is taken from the sequence of the cage before the linker is
    looked for and before the new cage is assembled, so when the assembly
    raises the candidate is gone and the next call goes on with the one
    after it.  Once a cage has its sequence the [database] argument is no
    longer looked at.  The two kinds of swap keep apart: each leaves
    the sequence of the other as it is. *)
Theorem similar_swaps_use_up_candidates (env : environment) (self : Mutation)
    (cage : Cage) (database : string) (s : op_state) :
  (forall bb_unit candidate rest,
     next_unit cage StructUnit3 = Ok bb_unit ->
     pending_bb env cage database bb_unit s = candidate :: rest ->
     pending_bb env cage database bb_unit (snd (similar_bb env self cage database s))
     = rest)
  /\ (forall lk_unit candidate rest,
        next_unit cage StructUnit2 = Ok lk_unit ->
        pending_lk env cage database lk_unit s = candidate :: rest ->
        pending_lk env cage database lk_unit (snd (similar_lk env self cage database s))
        = rest)
  /\ (forall database',
        is_Some (similar_bb_mols s !! cage_id cage) ->
        similar_bb env self cage database' s = similar_bb env self cage database s)
  /\ (forall database',
        is_Some (similar_lk_mols s !! cage_id cage) ->
        similar_lk env self cage database' s = similar_lk env self cage database s)
  /\ similar_lk_mols (snd (similar_bb env self cage database s)) = similar_lk_mols s
  /\ similar_bb_mols (snd (similar_lk env self cage database s)) = similar_bb_mols s.
Proof.
  split; [|split; [|split; [|split; [|split]]]].
  - intros bb_unit candidate rest Hbb. unfold pending_bb. intros Hpending.
    unfold similar_bb, op_bind, attach_similar_bb, next_similar_bb, op_lift, new_Cage.
    destruct (similar_bb_mols s !! cage_id cage) as [l|] eqn:Hentry; simpl in Hpending.
    + subst l. rewrite Hentry.
      destruct (next_unit cage StructUnit2) as [lk|ex]; simpl;
        [destruct (assemble env _ _ _); simpl|]; by rewrite lookup_insert_eq.
    + rewrite Hbb. simpl. rewrite lookup_insert_eq, Hpending.
      destruct (next_unit cage StructUnit2) as [lk|ex]; simpl;
        [destruct (assemble env _ _ _); simpl|]; by rewrite lookup_insert_eq.
  - intros lk_unit candidate rest Hlk. unfold pending_lk. intros Hpending.
    unfold similar_lk, op_bind, attach_similar_lk, next_similar_lk, op_lift, new_Cage.
    destruct (similar_lk_mols s !! cage_id cage) as [l|] eqn:Hentry; simpl in Hpending.
    + subst l. rewrite Hentry.
      destruct (next_unit cage StructUnit3) as [bb|ex]; simpl;
        [destruct (assemble env _ _ _); simpl|]; by rewrite lookup_insert_eq.
    + rewrite Hlk. simpl. rewrite lookup_insert_eq, Hpending.
      destruct (next_unit cage StructUnit3) as [bb|ex]; simpl;
        [destruct (assemble env _ _ _); simpl|]; by rewrite lookup_insert_eq.
  - intros database' [l Hl]. unfold similar_bb, op_bind, attach_similar_bb.
    by rewrite Hl.
  - intros database' [l Hl]. unfold similar_lk, op_bind, attach_similar_lk.
    by rewrite Hl.
  - unfold similar_bb, op_bind, attach_similar_bb, next_similar_bb, op_lift, new_Cage.
    destruct (similar_bb_mols s !! cage_id cage) as [l|] eqn:Hentry.
    + rewrite Hentry. destruct l as [|candidate rest]; [done|].
      destruct (next_unit cage StructUnit2) as [lk|ex]; simpl; [|done].
      by destruct (assemble env _ _ _).
    + destruct (next_unit cage StructUnit3) as [bb|ex]; [|done]. simpl.
      rewrite lookup_insert_eq.
      destruct (similar_molecules env bb database) as [|candidate rest]; [done|].
      destruct (next_unit cage StructUnit2) as [lk|ex]; simpl; [|done].
      by destruct (assemble env _ _ _).
  - unfold similar_lk, op_bind, attach_similar_lk, next_similar_lk, op_lift, new_Cage.
    destruct (similar_lk_mols s !! cage_id cage) as [l|] eqn:Hentry.
    + rewrite Hentry. destruct l as [|candidate rest]; [done|].
      destruct (next_unit cage StructUnit3) as [bb|ex]; simpl; [|done].
      by destruct (assemble env _ _ _).
    + destruct (next_unit cage StructUnit2) as [lk|ex]; [|done]. simpl.
      rewrite lookup_insert_eq.
      destruct (similar_molecules env lk database) as [|candidate rest]; [done|].
      destruct (next_unit cage StructUnit3) as [bb|ex]; simpl; [|done].
      by destruct (assemble env _ _ _).
Qed.

Lemma similar_swaps_use_up_candidates_witness :
  fst (similar_bb broken_lab (engine [rank_bb] 9) parent1 "db" no_state)
  = Throws RuntimeError
  /\ pending_bb broken_lab parent1 "db" (unit3 "bbs/amine3.mol")
       (snd (similar_bb broken_lab (engine [rank_bb] 9) parent1 "db" no_state))
     = ["second.mol"; "third.mol"]%string.
Proof.
  split; [reflexivity|].
  exact (proj1 (similar_swaps_use_up_candidates broken_lab (engine [rank_bb] 9) parent1
                  "db" no_state)
               (unit3 "bbs/amine3.mol") "first.mol"%string
               ["second.mol"; "third.mol"]%string eq_refl eq_refl).
Defined.

(** ** The files of the mutants *)

Ltac returned_cage H :=
  repeat match type of H with
         | context [match ?x with _ => _ end] => destruct x eqn:?; try discriminate
         end;
  by apply new_Cage_Returns in H as (_ & _ & H & _).

Lemma mutation_function_file (func_name : string)
    (func : environment -> Mutation -> Cage -> kwargs -> op Cage) (env : environment)
    (self : Mutation) (parent : Cage) (kw : kwargs) (s s' : op_state) (mutant : Cage) :
  getattr func_name = Some func ->
  func env self parent kw s = (Returns mutant, s') ->
  prist_mol_file mutant = mutant_file env self.
Proof.
  unfold getattr. intros Hfunc Hcall.
  repeat match type of Hfunc with
         | context [String.eqb ?a ?b] => destruct (String.eqb a b)
         end;
    inversion Hfunc; subst; clear Hfunc;
    (destruct kw as [database|topologies|]; [| |]; try discriminate).
  - unfold random_bb, choose_mol_file, op_bind, op_lift, np_random_choice in Hcall.
    returned_cage Hcall.
  - unfold random_lk, choose_mol_file, op_bind, op_lift, np_random_choice in Hcall.
    returned_cage Hcall.
  - unfold similar_bb, attach_similar_bb, next_similar_bb, op_bind, op_lift in Hcall.
    returned_cage Hcall.
  - unfold similar_lk, attach_similar_lk, next_similar_lk, op_bind, op_lift in Hcall.
    returned_cage Hcall.
  - unfold random_cage_topology, op_bind, op_lift, np_random_choice in Hcall.
    returned_cage Hcall.
Qed.

Lemma parents_loop_files (env : environment) (self : Mutation) :
  forall (pool : list Cage) (r r' : round) (e : ending) (log : list attempt_record)
         (i : nat) (a : attempt_record) (mutant : Cage),
    parents_loop env self pool r = (e, r', log) ->
    log !! i = Some a ->
    result_of a = Mutant mutant ->
    prist_mol_file mutant = mutant_file env (set_n_calls self (calls r + S i)).
Proof.
  induction pool as [|parent rest IH]; intros r r' e log i a mutant Hrun Hi Ha.
  - by inversion Hrun; subst.
  - loop_cases Hrun; try done.
    + destruct i as [|i]; [|done]. inversion Hi; subst. inversion Ha; subst.
      rewrite Nat.add_1_r. by eapply mutation_function_file.
    + destruct i as [|i]; simpl in Hi.
      * inversion Hi; subst. inversion Ha; subst.
        rewrite Nat.add_1_r. by eapply mutation_function_file.
      * rewrite (IH _ _ _ _ _ _ _ Hrest Hi Ha). simpl. do 2 f_equal. lia.
    + destruct i as [|i]; simpl in Hi.
      * inversion Hi; subst. discriminate.
      * rewrite (IH _ _ _ _ _ _ _ Hrest Hi Ha). simpl. do 2 f_equal. lia.
    + destruct i as [|i]; [|done]. inversion Hi; subst. discriminate.
Qed.

Lemma string_length_append (a b : string) :
  String.length (String.append a b) = String.length a + String.length b.
Proof. induction a as [|c a IH]; simpl; [done|]. by rewrite IH. Qed.

Lemma string_append_inj_l (a b c : string) :
  String.append a b = String.append a c -> b = c.
Proof. induction a as [|x a IH]; simpl; [done|]. intros Heq. inversion Heq. auto. Qed.

Lemma string_append_inj_r (c : string) :
  forall a b : string, String.append a c = String.append b c -> a = b.
Proof.
  induction a as [|x a IH]; intros [|y b] Heq.
  - done.
  - apply (f_equal String.length) in Heq.
    rewrite !string_length_append in Heq. simpl in Heq. lia.
  - apply (f_equal String.length) in Heq.
    rewrite !string_length_append in Heq. simpl in Heq. lia.
  - change (String x (String.append a c) = String y (String.append b c)) in Heq.
    inversion Heq; subst. f_equal. by apply IH.
Qed.

Lemma mutant_file_inj (env : environment) (self : Mutation) (n m : nat) :
  mutant_file env (set_n_calls self n) = mutant_file env (set_n_calls self m) -> n = m.
Proof.
  unfold mutant_file, os_path_join. simpl. intros Heq.
  do 3 apply string_append_inj_l in Heq.
  apply string_append_inj_r in Heq. by apply (inj pretty) in Heq.
Qed.

(** The files of the mutants of a round: the mutant of the [i]-th attempt
    (counted from 1) is given the file [mutation_N.mol] of the working
    directory with [N = n_calls + i], [n_calls] being the count the engine
    had before the round; the attempts that raise use up a number too.  So
    no two mutants of a round are given the same file. *)
Theorem mutant_files_are_numbered (env : environment) (self : Mutation)
    (pool : list Cage) (s : op_state) (e : ending) (r : round)
    (log : list attempt_record) :
  parents_loop env self pool (start_round self s) = (e, r, log) ->
  (forall i a mutant,
     log !! i = Some a -> result_of a = Mutant mutant ->
     prist_mol_file mutant = mutant_file env (set_n_calls self (n_calls self + S i)))
  /\ (forall i j a b m1 m2,
        log !! i = Some a -> result_of a = Mutant m1 ->
        log !! j = Some b -> result_of b = Mutant m2 ->
        prist_mol_file m1 = prist_mol_file m2 -> i = j).
Proof.
  intros Hrun.
  assert (Hfile : forall i a mutant,
             log !! i = Some a -> result_of a = Mutant mutant ->
             prist_mol_file mutant
             = mutant_file env (set_n_calls self (n_calls self + S i))).
  { intros i a mutant Hi Ha.
    exact (parents_loop_files env self pool _ r e log i a mutant Hrun Hi Ha). }
  split; [done|].
  intros i j a b m1 m2 Hi Ha Hj Hb Heq.
  rewrite (Hfile i a m1 Hi Ha), (Hfile j b m2 Hj Hb) in Heq.
  apply mutant_file_inj in Heq. lia.
Qed.

Lemma mutant_files_are_numbered_witness :
  exists r a b m1 m2,
    parents_loop lab (engine_after 7 [rank_bb] 2) [parent1; parent1]
                 (start_round (engine_after 7 [rank_bb] 2) no_state)
    = (Finished, r, [a; b])
    /\ result_of a = Mutant m1
    /\ result_of b = Mutant m2
    /\ prist_mol_file m1 = "/run/mutation_8.mol"%string
    /\ prist_mol_file m2 = "/run/mutation_9.mol"%string.
Proof.
  eexists _, _, _, _, _.
  split; [vm_compute; reflexivity|].
  split; [reflexivity|]. split; [reflexivity|].
  match goal with
  | |- prist_mol_file ?m1 = _ /\ prist_mol_file ?m2 = _ =>
      pose proof (proj1 (mutant_files_are_numbered lab (engine_after 7 [rank_bb] 2)
                           [parent1; parent1] no_state Finished _ _
                           ltac:(vm_compute; reflexivity))) as Hfile;
      split;
      [ exact (Hfile 0 _ m1 eq_refl eq_refl) | exact (Hfile 1 _ m2 eq_refl eq_refl) ]
  end.
Defined.

End RoundFacts.

(* ===================================================================== *)
(** * Facts about the registry of subclasses                               *)
(* ===================================================================== *)

Module RegistryFacts.
Import Python Registry PythonFacts.

Section Subclasses.
Context {Obj Key : Type} `{EqDecision Key} `{Countable Key}.

Implicit Types (cs : classes Obj Key) (cls : subclass Obj).

Lemma init_subclass_Defines cs cls (cs' : classes Obj Key) :
  __init_subclass__ cs cls = Defines cs' ->
  subclasses cs !! __name__ cls = None
  /\ subclasses cs' = <[__name__ cls := cls]> (subclasses cs)
  /\ caches cs' = <[__name__ cls := ∅]> (caches cs).
Proof.
  unfold __init_subclass__. destruct (subclasses cs !! __name__ cls); [done|].
  intros Hdef. by inversion Hdef.
Qed.

(** Names that were registered stay registered, with their class. *)
Lemma define_all_keeps (new : list (subclass Obj)) :
  forall cs (cs' : classes Obj Key) (class_name : string) (c : subclass Obj),
    define_all cs new = Defines cs' ->
    subclasses cs !! class_name = Some c ->
    subclasses cs' !! class_name = Some c.
Proof.
  induction new as [|cls new IH]; intros cs cs' class_name c Hdef Hc; simpl in Hdef.
  - by inversion Hdef; subst.
  - destruct (__init_subclass__ cs cls) as [cs1|] eqn:Hcls; [|done].
    apply init_subclass_Defines in Hcls as (Hfree & Hsub & _).
    apply (IH cs1 cs' class_name c Hdef). rewrite Hsub.
    rewrite lookup_insert_ne; [done|]. congruence.
Qed.

Lemma define_all_registers (new : list (subclass Obj)) :
  forall cs (cs' : classes Obj Key),
    define_all cs new = Defines cs' ->
    NoDup (map __name__ new)
    /\ (forall cls, cls ∈ new ->
          subclasses cs !! __name__ cls = None
          /\ subclasses cs' !! __name__ cls = Some cls)
    /\ (forall class_name,
          class_name ∉ map __name__ new ->
          subclasses cs' !! class_name = subclasses cs !! class_name).
Proof.
  induction new as [|cls new IH]; intros cs cs' Hdef; simpl in Hdef.
  - inversion Hdef; subst. split; [constructor|]. split; [|done].
    intros cls Hin. by apply elem_of_nil in Hin.
  - destruct (__init_subclass__ cs cls) as [cs1|] eqn:Hcls; [|done].
    apply init_subclass_Defines in Hcls as (Hfree & Hsub & _).
    destruct (IH cs1 cs' Hdef) as (Hnodup & Hnew & Hother).
    assert (Hfresh : __name__ cls ∉ map __name__ new).
    { intros Hin. apply list_elem_of_fmap in Hin as (c & Hname & Hc).
      destruct (Hnew c Hc) as [Hnone _]. rewrite Hsub, <- Hname in Hnone.
      by rewrite lookup_insert_eq in Hnone. }
    split; [by constructor|]. split.
    + intros c Hc. apply elem_of_cons in Hc as [->|Hc].
      * split; [done|]. rewrite (Hother _ Hfresh), Hsub. apply lookup_insert_eq.
      * destruct (Hnew c Hc) as [Hnone Hsome]. split; [|done].
        rewrite Hsub in Hnone. destruct (decide (__name__ cls = __name__ c)) as [Heq|Hne].
        -- rewrite Heq in Hnone. by rewrite lookup_insert_eq in Hnone.
        -- by rewrite lookup_insert_ne in Hnone.
    + intros class_name Hout. simpl in Hout. apply not_elem_of_cons in Hout as [Hne Hout].
      rewrite (Hother _ Hout), Hsub. by apply lookup_insert_ne.
Qed.

(** When a module of subclasses has been defined, no two of them have the
    same name and none has the name of an older class; [init_from_dict]
    hands a dictionary whose ["class"] entry names one of them to the
    [_json_init] of that class, and one that names an older class to the
    class it named before; a dictionary without a ["class"] entry, or with
    the name of no class, raises [KeyError]; and defining one more class
    with a name that is taken raises [MoleculeSubclassError]. *)
Theorem subclasses_are_found_by_name cs (new : list (subclass Obj))
    (cs' : classes Obj Key) :
  define_all cs new = Defines cs' ->
  NoDup (map __name__ new)
  /\ (forall cls d,
        cls ∈ new -> d !! "class"%string = Some (__name__ cls) ->
        subclasses cs !! __name__ cls = None
        /\ init_from_dict cs' d = _json_init cls d)
  /\ (forall c d class_name,
        d !! "class"%string = Some class_name ->
        subclasses cs !! class_name = Some c ->
        init_from_dict cs' d = _json_init c d)
  /\ (forall d,
        d !! "class"%string = None -> init_from_dict cs' d = Raise KeyError)
  /\ (forall d class_name,
        d !! "class"%string = Some class_name ->
        subclasses cs !! class_name = None ->
        class_name ∉ map __name__ new ->
        init_from_dict cs' d = Raise KeyError)
  /\ (forall cls cls',
        cls ∈ new \/ is_Some (subclasses cs !! __name__ cls) ->
        __name__ cls' = __name__ cls ->
        __init_subclass__ cs' cls' = MoleculeSubclassError).
Proof.
  intros Hdef.
  destruct (define_all_registers new cs cs' Hdef) as (Hnodup & Hnew & Hother).
  split; [done|]. unfold init_from_dict, dict_getitem, json_dict in *.
  split; [|split; [|split; [|split]]].
  - intros cls d Hin Hd. destruct (Hnew cls Hin) as [Hnone Hsome].
    split; [done|]. by rewrite Hd, bind_Ok, Hsome.
  - intros c d class_name Hd Hc.
    by rewrite Hd, bind_Ok, (define_all_keeps new cs cs' class_name c Hdef Hc).
  - intros d Hd. by rewrite Hd.
  - intros d class_name Hd Hnone Hout. by rewrite Hd, bind_Ok, (Hother _ Hout), Hnone.
  - intros cls cls' Hknown Hname. unfold __init_subclass__. rewrite Hname.
    destruct Hknown as [Hin | [c Hc]].
    + destruct (Hnew cls Hin) as [_ Hsome]. by rewrite Hsome.
    + by rewrite (define_all_keeps new cs cs' _ c Hdef Hc).
Qed.

End Subclasses.

Lemma subclasses_are_found_by_name_witness :
  exists cs : classes string nat,
    define_all no_classes [building_block_class; constructed_class] = Defines cs
    /\ init_from_dict cs {[ "class" := "ConstructedMolecule" ]}%string
       = Ok "a ConstructedMolecule"%string
    /\ __init_subclass__ cs building_block_class = MoleculeSubclassError.
Proof.
  eexists. split; [reflexivity|].
  match goal with
  | |- init_from_dict ?cs _ = _ /\ _ =>
      destruct (subclasses_are_found_by_name (Key := nat) no_classes
                  [building_block_class; constructed_class] cs eq_refl)
        as (_ & Hnew & _ & _ & _ & Htaken)
  end.
  split.
  - refine (proj2 (Hnew constructed_class
                     ({[ "class" := "ConstructedMolecule" ]})%string _ eq_refl)).
    apply elem_of_cons. right. apply elem_of_cons. by left.
  - apply (Htaken building_block_class); [|done].
    left. apply elem_of_cons. by left.
Defined.

End RegistryFacts.

(* ===================================================================== *)
(** * Facts about [Cage.init_empty]                                        *)
(* ===================================================================== *)

Module TestCageFacts.
Import Python IdentityCache TestCage PythonFacts.

Lemma init_empty_cached (std_init : nat -> list string -> cage_heap -> result cage_heap)
    (bb_draw lk_draw : string) (sample : float) (h h1 : cage_heap) (obj : nat) :
  init_empty std_init bb_draw lk_draw sample h = Ok (obj, h1) ->
  __cache h1 !! [] = Some obj.
Proof.
  unfold init_empty. intros Hcall.
  apply bind_Ok_inv in Hcall as ([o h0] & Hcached & Hcall).
  inversion Hcall; subst; clear Hcall. simpl.
  unfold Cached_call in Hcached.
  destruct (__cache h !! []) as [cached|] eqn:Hlook.
  - by inversion Hcached; subst.
  - apply bind_Ok_inv in Hcached as ([o' h'] & _ & Hcached).
    inversion Hcached; subst. simpl. apply lookup_insert_eq.
Qed.

(** [init_empty] calls [cls()], and the metaclass caches by the arguments:
    while the cage it returned is alive, every further [init_empty] returns
    that same cage, without running [__init__] or making an object, and
    writes its draws over the [bb], [lk] and [fitness] that the cage had.
    A population filled by [init_empty] holds one cage many times. *)
Theorem init_empty_returns_the_same_cage
    (std_init : nat -> list string -> cage_heap -> result cage_heap)
    (bb1 lk1 bb2 lk2 : string) (sample1 sample2 : float) (h h1 : cage_heap)
    (obj : nat) :
  init_empty std_init bb1 lk1 sample1 h = Ok (obj, h1) ->
  exists h2,
    init_empty std_init bb2 lk2 sample2 h1 = Ok (obj, h2)
    /\ init_runs h2 = init_runs h1
    /\ length (objects h2) = length (objects h1)
    /\ forall o,
         objects h1 !! obj = Some o ->
         objects h2 !! obj
         = Some {| attrs := Some {| bb := Some bb2; lk := Some lk2;
                                    topology := topology (default no_attrs (attrs o));
                                    fitness := Some (Some (PrimFloat.abs sample2)) |};
                   _key := _key o |}.
Proof.
  intros Hfirst. apply init_empty_cached in Hfirst.
  unfold init_empty, Cached_call. rewrite Hfirst. simpl.
  eexists. split; [done|]. simpl. split; [done|].
  split; [by rewrite length_alter|].
  intros o Ho. by rewrite list_lookup_alter_eq, Ho.
Qed.

Lemma init_empty_returns_the_same_cage_witness :
  exists h1 h2,
    init_empty no_std_init "a" "b" 0.5 empty_heap = Ok (0, h1)
    /\ init_empty no_std_init "x" "y" 0.25 h1 = Ok (0, h2)
    /\ init_runs h2 = 1.
Proof.
  destruct (init_empty_returns_the_same_cage no_std_init "a" "b" "x" "y" 0.5 0.25
              empty_heap _ 0 eq_refl) as (h2 & Hsecond & Hruns & _).
  eexists _, h2. split; [reflexivity|]. split; [exact Hsecond | exact Hruns].
Defined.

End TestCageFacts.

(* ===================================================================== *)
(** * More facts about the functional group of a unit                      *)
(* ===================================================================== *)

Module UnitsPathFacts.
Import Python MolFile Units PythonFacts UnitsFacts.

Lemma string_append_assoc (a b c : string) :
  String.append (String.append a b) c = String.append a (String.append b c).
Proof.
  induction a as [|x a IH]; [done|].
  change (String x (String.append (String.append a b) c)
          = String x (String.append a (String.append b c))).
  by rewrite IH.
Qed.

Lemma contains_append (s t sub : string) :
  contains s sub = true -> contains (String.append s t) sub = true.
Proof.
  rewrite !contains_occurs. intros (pre & post & ->).
  exists pre, (String.append post t). by rewrite !string_append_assoc.
Qed.

(** The name of the functional group is looked for in the whole path, not
    in the name of the file: when the name of an entry of the table occurs
    in the directory part, every file below that directory is given a
    functional group, the one of that entry or of an entry that comes before
    it in the table, whatever the file is called. *)
Theorem directory_names_the_group (table : list FGInfo) (dir : string) (g : FGInfo) :
  g ∈ table ->
  contains dir (name g) = true ->
  forall file,
    exists g' before after,
      first_named table (String.append dir file) = Some g'
      /\ table = before ++ g' :: after
      /\ (g' = g \/ g ∈ after).
Proof.
  intros Hin Hdir file.
  pose proof (contains_append dir file (name g) Hdir) as Hpath.
  destruct (first_named table (String.append dir file)) as [g'|] eqn:Hfirst.
  - pose proof Hfirst as Hsplit.
    apply first_named_Some in Hsplit as (before & after & -> & Hg' & Hbefore).
    exists g', before, after. split; [done|]. split; [done|].
    apply elem_of_app in Hin as [Hin|Hin].
    + rewrite Forall_forall in Hbefore. rewrite (Hbefore g Hin) in Hpath. discriminate.
    + apply elem_of_cons in Hin as [->|Hin]; [by left | by right].
  - apply first_named_None in Hfirst. rewrite Forall_forall in Hfirst.
    rewrite (Hfirst g Hin) in Hpath. discriminate.
Qed.

Lemma directory_names_the_group_witness :
  exists g' before after,
    first_named functional_group_list "db/amines/aldehyde_4.mol" = Some g'
    /\ functional_group_list = before ++ g' :: after
    /\ name g' = "aldehyde"%string.
Proof.
  destruct (directory_names_the_group functional_group_list "db/amines/"
              (Build_FGInfo "amine" "[N]([H])[H]" "[Rh]" 7 45 "N" "Rh")
              ltac:(unfold functional_group_list;
                    repeat (apply elem_of_cons; first [by left | right]))
              eq_refl "aldehyde_4.mol")
    as (g' & before & after & Hfirst & Htable & _).
  exists g', before, after. split; [exact Hfirst|]. split; [exact Htable|].
  vm_compute in Hfirst. by inversion Hfirst.
Defined.

End UnitsPathFacts.

(* ===================================================================== *)
(** * Facts about the distance of two atoms and about the writers          *)
(* ===================================================================== *)

Module MolWriteFacts.
Import Python Numpy Mol MolFile MolShape MolMore MolWrite.
Import PythonFacts MolFacts MolStoreFacts.

Lemma getitem_Raise {A : Type} (l : list A) (i : Z) (e : exception) :
  getitem l i = Raise e -> e = IndexError.
Proof.
  unfold getitem, py_index.
  destruct (0 <=? i)%Z.
  - destruct (i <? Z.of_nat (length l))%Z; simpl.
    + destruct (l !! Z.to_nat i); [done|]. by inversion 1.
    + by inversion 1.
  - destruct (- Z.of_nat (length l) <=? i)%Z; simpl.
    + destruct (l !! Z.to_nat (Z.of_nat (length l) + i)); [done|]. by inversion 1.
    + by inversion 1.
Qed.

Lemma column_cons (row : list float) (conf : matrix) (a : Z) :
  column (row :: conf) a
  = bind (getitem row a)
         (fun x => bind (column conf a) (fun xs => Ok (x :: xs))).
Proof. reflexivity. Qed.

Lemma column_Raise (conf : matrix) (a : Z) (e : exception) :
  column conf a = Raise e -> e = IndexError.
Proof.
  induction conf as [|row conf IH]; [done|]. rewrite column_cons.
  destruct (getitem row a) as [x|e'] eqn:Ha; cbn [bind].
  - destruct (column conf a) as [xs|e'']; cbn [bind]; [done|].
    intros Hraise. inversion Hraise; subst. by apply IH.
  - intros Hraise. inversion Hraise; subst. by apply getitem_Raise in Ha.
Qed.

(** The two columns that [get_atom_distance] reads and the array that
    [get_atom_coords] indexes hold the same numbers, and fail together. *)
Lemma two_columns (a b : Z) (conf : matrix) :
  match take_columns conf [a; b] with
  | Ok sel =>
      column conf a = Ok (map (hd 0%float) sel)
      /\ column conf b = Ok (map (hd 0%float) (map (@tl float) sel))
  | Raise e =>
      e = IndexError
      /\ (column conf a = Raise IndexError
          \/ exists u, column conf a = Ok u /\ column conf b = Raise IndexError)
  end.
Proof.
  induction conf as [|row conf IH]; [done|].
  rewrite !column_cons. unfold take_columns in *. cbn [for_each].
  unfold take_ids at 1. cbn [for_each].
  destruct (getitem row a) as [x|e] eqn:Ha; cbn [bind].
  - destruct (getitem row b) as [y|e] eqn:Hb; cbn [bind].
    + destruct (for_each (fun r => take_ids r [a; b]) conf) as [sel|e]; cbn [bind].
      * by destruct IH as [-> ->].
      * destruct IH as [-> [-> | (u & -> & ->)]]; (split; [done|]); [by left|].
        right. by exists (x :: u).
    + apply getitem_Raise in Hb as ->. split; [done|].
      destruct (column conf a) as [u|e] eqn:Hu; cbn [bind].
      * right. by exists (x :: u).
      * left. by apply column_Raise in Hu as ->.
  - apply getitem_Raise in Ha as ->. split; [done|]. by left.
Qed.

(** The distance of two atoms is the Euclidean distance of the two
    coordinates that [get_atom_coords] yields for them, and the call raises
    when that one does; the only exception it raises is [IndexError], for a
    conformer or an atom that is not there. *)
Theorem get_atom_distance_of_coords (self : Molecule) (atom1_id atom2_id cid : Z) :
  get_atom_distance self atom1_id atom2_id cid
  = bind (get_atom_coords self (Some [atom1_id; atom2_id]) cid)
         (fun coords => Ok (euclidean (nth 0 coords []) (nth 1 coords [])))
  /\ forall e, get_atom_distance self atom1_id atom2_id cid = Raise e -> e = IndexError.
Proof.
  unfold get_atom_distance, get_atom_coords. simpl resolve_atom_ids.
  destruct (getitem (_conformers self) cid) as [conf|e] eqn:Hconf; cbn [bind].
  - pose proof (two_columns atom1_id atom2_id conf) as Hcols.
    destruct (take_columns conf [atom1_id; atom2_id]) as [sel|e]; cbn [bind].
    + destruct Hcols as [-> ->]. split; [done|]. by intros e.
    + destruct Hcols as [-> [-> | (u & -> & ->)]]; cbn [bind]; split; try done;
        intros e He; by inversion He.
  - split; [done|]. intros e' He. inversion He; subst. by apply getitem_Raise in Hconf.
Qed.

(** ** [apply_rotation_between_vectors] *)

(** A rotation from a vector to another touches the conformer it is asked
    for and nothing else of the molecule. *)
Theorem rotation_between_vectors_touches_one_conformer (u : utilities)
    (normalize_vector : vector -> vector) (self self' : Molecule)
    (start target origin : vector) (cid : Z) :
  apply_rotation_between_vectors u normalize_vector self start target origin cid
  = Ok self' ->
  exists k, py_index (length (_conformers self)) cid = Ok k
            /\ same_but_conformer k self self'.
Proof.
  unfold apply_rotation_between_vectors. intros H.
  apply bind_Ok_inv in H as (self1 & Hfirst & H).
  apply apply_displacement_same in Hfirst as (k & Hk & Hsame).
  apply rotate_conformer_same in H as (k' & Hk' & Hsame').
  destruct Hsame as (Ha & Hb & Hl & Hj). rewrite Hl, Hk in Hk'.
  inversion Hk'; subst k'. exists k. split; [done|].
  by apply (same_but_conformer_trans k self self1).
Qed.

Lemma rotation_between_vectors_touches_one_conformer_witness :
  exists self',
    apply_rotation_between_vectors identity_kernel (fun v => v) square
      [1; 0; 0]%float [1; 0; 0]%float [0; 0; 0]%float 0 = Ok self'
    /\ same_but_conformer 0 square self'.
Proof.
  eexists. split; [reflexivity|].
  destruct (rotation_between_vectors_touches_one_conformer identity_kernel (fun v => v)
              square _ [1; 0; 0]%float [1; 0; 0]%float [0; 0; 0]%float 0 eq_refl)
    as (k & Hk & Hsame).
  inversion Hk; subst k. exact Hsame.
Defined.

(** ** The V3000 block *)

Lemma mdl_atom_loop_length (fm : formats) (self : Molecule) (conf : matrix) :
  forall (atom_ids : list Z) (lines : list string),
    mdl_atom_loop fm self conf atom_ids = Ok lines -> length lines = length atom_ids.
Proof.
  induction atom_ids as [|atom_id rest IH]; intros lines H; simpl in H.
  - by inversion H.
  - apply bind_Ok_inv in H as (col & _ & H).
    apply bind_Ok_inv in H as (xyz & _ & H).
    apply bind_Ok_inv in H as (atom & _ & H).
    apply bind_Ok_inv in H as (more & Hmore & H). inversion H; subst.
    simpl. f_equal. by apply IH.
Qed.

Lemma selected_bonds_cons (atom_ids : list Z) (bond : Bond) (bonds : list Bond)
    (from : nat) :
  selected_bonds atom_ids (bond :: bonds) from
  = if bool_decide (Z.of_nat (atom1 bond) ∈ (list_to_set atom_ids : gset Z))
       && bool_decide (Z.of_nat (atom2 bond) ∈ (list_to_set atom_ids : gset Z))
    then (from, bond) :: selected_bonds atom_ids bonds (S from)
    else selected_bonds atom_ids bonds (S from).
Proof.
  unfold selected_bonds. cbn [length seq zip zip_with]. rewrite filter_cons. simpl.
  destruct (decide (Z.of_nat (atom1 bond) ∈ atom_ids
                    /\ Z.of_nat (atom2 bond) ∈ atom_ids)) as [[H1 H2]|Hno].
  - rewrite !bool_decide_eq_true_2; [done|by apply elem_of_list_to_set..].
  - destruct (bool_decide (Z.of_nat (atom1 bond) ∈ (list_to_set atom_ids : gset Z)))
      eqn:E1; [|done].
    destruct (bool_decide (Z.of_nat (atom2 bond) ∈ (list_to_set atom_ids : gset Z)))
      eqn:E2; [|done].
    apply bool_decide_eq_true_1, elem_of_list_to_set in E1.
    apply bool_decide_eq_true_1, elem_of_list_to_set in E2. by destruct Hno.
Qed.

(** The bond loop, bond by bond: every selected bond adds a line at the
    end, numbered by its index in [self.bonds] or by its place among the
    lines. *)
Lemma mdl_bond_loop_lines (all_atoms : bool) (atom_ids : list Z) :
  forall (bs : list Bond) (bond_idx : nat) (lines : list string),
    exists new_lines,
      mdl_bond_loop all_atoms (list_to_set atom_ids) bs bond_idx lines
      = lines ++ new_lines
      /\ length new_lines = length (selected_bonds atom_ids bs bond_idx)
      /\ forall j idx bond,
           selected_bonds atom_ids bs bond_idx !! j = Some (idx, bond) ->
           new_lines !! j
           = Some (mdl_bond_line (if all_atoms then idx else length lines + j) bond).
Proof.
  induction bs as [|bond bs IH]; intros bond_idx lines.
  - exists []. rewrite app_nil_r. by repeat split.
  - cbn [mdl_bond_loop]. rewrite selected_bonds_cons.
    destruct (bool_decide (Z.of_nat (atom1 bond) ∈ (list_to_set atom_ids : gset Z))
              && bool_decide (Z.of_nat (atom2 bond) ∈ (list_to_set atom_ids : gset Z))).
    + destruct (IH (S bond_idx)
                  (lines
                   ++ [mdl_bond_line (if all_atoms then bond_idx else length lines)
                                     bond]))
        as (new_lines & Hloop & Hlen & Hline).
      exists (mdl_bond_line (if all_atoms then bond_idx else length lines) bond
              :: new_lines).
      rewrite Hloop, <- app_assoc. split; [done|]. split; [simpl; by rewrite Hlen|].
      intros [|j] idx b Hj; simpl in Hj.
      * inversion Hj; subst. simpl. by rewrite Nat.add_0_r.
      * simpl. rewrite (Hline j idx b Hj). rewrite length_app. simpl.
        do 2 f_equal. destruct all_atoms; [done|lia].
    + apply IH.
Qed.

(** What [to_mdl_mol_block] writes about the bonds.  The atoms written are
    the atom ids as they are given, one line each, and [COUNTS] gives their
    number; with no atom id the call raises [UnboundLocalError].  The bonds
    written are the bonds whose two atoms are both among the atom ids, in
    the order of [self.bonds]; a bond line carries the index of the bond in
    [self.bonds] (plus one) when as many atom ids were given as the molecule
    has atoms, and otherwise its place among the bond lines (plus one). *)
Theorem mol_block_bonds (fm : formats) (self : Molecule) (atom_ids : option (list Z))
    (cid : Z) :
  (forall conf,
     getitem (_conformers self) cid = Ok conf ->
     resolve_atom_ids self atom_ids = [] ->
     to_mdl_mol_block fm self atom_ids cid = Raise UnboundLocalError)
  /\ forall p,
       to_mdl_parts fm self atom_ids cid = Ok p ->
       to_mdl_mol_block fm self atom_ids cid = Ok (mdl_block p)
       /\ num_atoms p = length (resolve_atom_ids self atom_ids)
       /\ length (atom_lines p) = length (resolve_atom_ids self atom_ids)
       /\ length (bond_lines p)
          = length (selected_bonds (resolve_atom_ids self atom_ids) (bonds self) 0)
       /\ forall j idx bond,
            selected_bonds (resolve_atom_ids self atom_ids) (bonds self) 0 !! j
            = Some (idx, bond) ->
            bond_lines p !! j
            = Some (mdl_bond_line
                      (if Nat.eqb (length (resolve_atom_ids self atom_ids))
                                  (length (atoms self))
                       then idx else j) bond).
Proof.
  split.
  - intros conf Hconf Hnone. unfold to_mdl_mol_block, to_mdl_parts.
    by rewrite Hnone, Hconf.
  - intros p Hparts. unfold to_mdl_mol_block. rewrite Hparts. split; [done|].
    unfold to_mdl_parts in Hparts.
    apply bind_Ok_inv in Hparts as (conf & _ & Hparts).
    apply bind_Ok_inv in Hparts as (lines & Hlines & Hparts).
    apply bind_Ok_inv in Hparts as (n & Hn & Hparts).
    inversion Hparts; subst; clear Hparts. simpl.
    assert (Hcount : n = length (resolve_atom_ids self atom_ids)).
    { unfold last_i in Hn. destruct (resolve_atom_ids self atom_ids); by inversion Hn. }
    subst n. split; [done|].
    split; [by apply (mdl_atom_loop_length fm self conf)|].
    destruct (mdl_bond_loop_lines
                (Nat.eqb (length (resolve_atom_ids self atom_ids)) (length (atoms self)))
                (resolve_atom_ids self atom_ids) (bonds self) 0 [])
      as (new_lines & -> & Hlen & Hline).
    simpl. split; [done|]. intros j idx bond Hj. by rewrite (Hline j idx bond Hj).
Qed.

Lemma mol_block_bonds_witness :
  exists p,
    to_mdl_parts zeros propane_carbons (Some [1; 2]%Z) 0 = Ok p
    /\ bond_lines p !! 0
       = Some (mdl_bond_line 0 {| atom1 := 1; atom2 := 2; order := 1 |}).
Proof.
  eexists. split; [reflexivity|].
  exact (proj2 (proj2 (proj2 (proj2
           (proj2 (mol_block_bonds zeros propane_carbons (Some [1; 2]%Z) 0) _ eq_refl))))
           0 1 {| atom1 := 1; atom2 := 2; order := 1 |} eq_refl).
Defined.

(** ** Writing files *)



(** A selection without an atom raises in both writers; the [.mol] file
    that was there is emptied, the [.xyz] file is as it was. *)
Example empty_selection_empties_the_mol_file :
  write no_pdb zeros propane_carbons "out/propane.mol" (Some []) 0
        {[ "out/propane.mol" := "an older structure" ]}%string
  = (Raise UnboundLocalError, {[ "out/propane.mol" := "" ]}%string)
  /\ write no_pdb zeros propane_carbons "out/propane.xyz" (Some []) 0
           {[ "out/propane.xyz" := "an older structure" ]}%string
     = (Raise UnboundLocalError, {[ "out/propane.xyz" := "an older structure" ]}%string).
Proof. split; vm_compute; reflexivity. Qed.

End MolWriteFacts.
